(** * Repomix GUI: file-set resolution, command synthesis and state cache

    A shallow embedding of [repomix_wx.py].  The widget tree is reduced to the
    values the handlers read from it and write to it; the file system is an
    explicit oracle; Python's [str], [fnmatch] and [pathlib] are modelled by
    the modules [PyStr], [Fnmatch] and [PurePath] below.

    Strings are sequences of 8-bit code points (the Latin-1 range of Python's
    [str]); every function on them follows CPython 3.11 on POSIX. *)

From Stdlib Require Import Ascii String Bool Arith Lia.
From stdpp Require Import base option strings list gmap sorting.

Local Open Scope string_scope.
#[local] Arguments String.append !_ _ / : simpl nomatch.

(** ** Python string methods *)

Module PyStr.

Definition dquote : ascii := "034"%char.
Definition tab : ascii := "009"%char.

Definition ord (c : ascii) : nat := nat_of_ascii c.

(** [c.isspace()] on the code points below 256. *)
Definition isspace (c : ascii) : bool :=
  let n := ord c in
  (((9 <=? n) && (n <=? 13)) || ((28 <=? n) && (n <=? 32))
   || (n =? 133) || (n =? 160))%nat.

(** [c.lower()] on the code points below 256: A-Z and the Latin-1 capitals
    (U+00C0 to U+00DE without the multiplication sign U+00D7). *)
Definition lower_char (c : ascii) : ascii :=
  let n := ord c in
  if (((65 <=? n) && (n <=? 90))
      || ((192 <=? n) && (n <=? 222) && negb (n =? 215)))%nat
  then ascii_of_nat (n + 32) else c.

Fixpoint lower (s : string) : string :=
  match s with
  | EmptyString => EmptyString
  | String c r => String (lower_char c) (lower r)
  end.

(** [s.replace(a, t)] for a one-character [a]. *)
Fixpoint replace (a : ascii) (t : string) (s : string) : string :=
  match s with
  | EmptyString => EmptyString
  | String c r =>
      if Ascii.eqb c a then t ++ replace a t r else String c (replace a t r)
  end.

Fixpoint lstrip (s : string) : string :=
  match s with
  | EmptyString => EmptyString
  | String c r => if isspace c then lstrip r else s
  end.

Fixpoint rstrip (s : string) : string :=
  match s with
  | EmptyString => EmptyString
  | String c r =>
      match rstrip r with
      | EmptyString => if isspace c then EmptyString else String c EmptyString
      | r' => String c r'
      end
  end.

Definition strip (s : string) : string := rstrip (lstrip s).

Fixpoint drop (n : nat) (s : string) : string :=
  match n, s with
  | O, _ => s
  | S _, EmptyString => EmptyString
  | S m, String _ r => drop m r
  end.

Definition startswith (s p : string) : bool := String.prefix p s.

Definition endswith (s p : string) : bool :=
  (String.length p <=? String.length s)%nat
  && String.eqb (drop (String.length s - String.length p) s) p.

Definition removeprefix (p s : string) : string :=
  if startswith s p then drop (String.length p) s else s.

(** [s[:-1]] *)
Fixpoint drop_last (s : string) : string :=
  match s with
  | EmptyString => EmptyString
  | String c EmptyString => EmptyString
  | String c r => String c (drop_last r)
  end.

(** [sub in s] *)
Fixpoint contains (sub s : string) : bool :=
  String.prefix sub s
  || match s with
     | EmptyString => false
     | String _ r => contains sub r
     end.

(** [ch in s] for a character [ch] *)
Fixpoint char_in (ch : ascii) (s : string) : bool :=
  match s with
  | EmptyString => false
  | String c r => Ascii.eqb c ch || char_in ch r
  end.

Definition join (sep : string) (l : list string) : string :=
  String.concat sep l.

(** Truthiness of a string, and [s or d]. *)
Definition truthy (s : string) : bool :=
  match s with EmptyString => false | _ => true end.

Definition or_else (s d : string) : string := if truthy s then s else d.

End PyStr.

(** ** [fnmatch.fnmatch]

    The pattern is translated as [fnmatch.translate] does, into a list of
    tokens instead of the text of a regular expression: [*] (runs of stars
    compressed into one), [?], a bracket class, or a literal character.  The
    generated expression is [(?s:...)\Z] applied with [re.match]: the whole
    name has to be consumed, and [.] accepts every character.  On POSIX
    [os.path.normcase] is the identity, so the match is case-sensitive. *)

Module Fnmatch.

Local Open Scope list_scope.

(** A member of a bracket class of the generated expression. *)
Inductive item : Type :=
| Single (c : ascii)
| Range (lo hi : ascii).

Inductive tok : Type :=
| Star
| AnyChar
| Class (negated : bool) (items : list item)
| Lit (c : ascii).

(** What is left of [stuff] once it is cut at the hyphens that make ranges:
    a character of a chunk, or the hyphen that [join] puts between chunks. *)
Inductive sym : Type :=
| Ch (c : ascii)
| Hy.

Definition is_char (a : ascii) (c : ascii) : bool := Ascii.eqb c a.

Fixpoint find_rbracket (l : list ascii) : option nat :=
  match l with
  | [] => None
  | c :: r => if is_char "]" c then Some 0 else S <$> find_rbracket r
  end.

(** The scan for the closing bracket: [j - i] when [pat[j]] is the bracket
    that closes the class opened just before [pat[i:]], [None] when the
    scan runs off the pattern ([j >= n]). *)
Definition class_len (rest : list ascii) : option nat :=
  let '(j1, r1) :=
    match rest with
    | c :: r => if is_char "!" c then (1, r) else (0, rest)
    | [] => (0, rest)
    end in
  let '(j2, r2) :=
    match r1 with
    | c :: r => if is_char "]" c then (S j1, r) else (j1, r1)
    | [] => (j1, r1)
    end in
  (fun k => j2 + k) <$> find_rbracket r2.

(** The [while True] loop that cuts [stuff] at range hyphens.  [skip] is
    [k - i]: the number of leading characters of the current chunk that
    [pat.find('-', k, j)] does not look at; [acc] is the current chunk,
    reversed. *)
Fixpoint cut (skip : nat) (acc : list ascii) (l : list ascii)
  : list (list ascii) :=
  match l with
  | [] => [rev acc]
  | c :: r =>
      match skip with
      | S sk => cut sk (c :: acc) r
      | O => if is_char "-" c then rev acc :: cut 2 [] r
             else cut 0 (c :: acc) r
      end
  end.

(** [if chunk: chunks.append(chunk) else: chunks[-1] += '-'] *)
Fixpoint close_chunks (chunks : list (list ascii)) : list (list ascii) :=
  match chunks with
  | [] => []
  | [c] => [c]
  | [c; []] => [c ++ ["-"%char]]
  | c :: rest => c :: close_chunks rest
  end.

Definition chunks_of (stuff : list ascii) : list (list ascii) :=
  let skip := match stuff with
              | c :: _ => if is_char "!" c then 2 else 1
              | [] => 1
              end in
  close_chunks (cut skip [] stuff).

(** The loop [for k in range(len(chunks)-1, 0, -1)] that removes the ranges
    whose upper bound is below the lower bound. *)
Fixpoint remove_empty_ranges (chunks : list (list ascii))
  : list (list ascii) :=
  match chunks with
  | [] => []
  | c :: rest =>
      match remove_empty_ranges rest with
      | [] => [c]
      | d :: ds =>
          match last c, head d with
          | Some lo, Some hi =>
              if (PyStr.ord hi <? PyStr.ord lo)%nat
              then (removelast c ++ tail d) :: ds
              else c :: d :: ds
          | _, _ => c :: d :: ds
          end
      end
  end.

(** ['-'.join(chunks)], the hyphens of the join kept apart from the
    (escaped) hyphens inside a chunk. *)
Fixpoint joined (chunks : list (list ascii)) : list sym :=
  match chunks with
  | [] => []
  | [c] => map Ch c
  | c :: rest => map Ch c ++ Hy :: joined rest
  end.

(** [stuff] as the class body of the expression: every character of a
    chunk is escaped where it has to be and stands for itself. *)
Definition stuff_syms (stuff : list ascii) : list sym :=
  if existsb (is_char "-") stuff
  then joined (remove_empty_ranges (chunks_of stuff))
  else map Ch stuff.

(** The members of the class [[stuff]] as [re] reads them: a character
    followed by a range hyphen and another character is a range, a hyphen
    that cannot make a range stands for itself. *)
Fixpoint items_of (l : list sym) : list item :=
  match l with
  | [] => []
  | Ch a :: r =>
      match r with
      | Hy :: Ch b :: r' => Range a b :: items_of r'
      | _ => Single a :: items_of r
      end
  | Hy :: r => Single "-" :: items_of r
  end.

(** The token added for a class with body [stuff]: [(?!)] for an empty
    body, [.] for a lone [!], [[^...]] after a leading [!]. *)
Definition class_tok (stuff : list ascii) : tok :=
  match stuff_syms stuff with
  | [] => Class false []
  | Ch c :: r => if is_char "!" c then Class true (items_of r)
                 else Class false (items_of (Ch c :: r))
  | l => Class false (items_of l)
  end.

(** The main loop of [translate].  [skip] counts the characters of a class
    already consumed by the step that met its opening bracket ([i = j+1]);
    [res] is the token list, most recent first. *)
Fixpoint scan (skip : nat) (res : list tok) (pat : list ascii) : list tok :=
  match pat with
  | [] => rev res
  | c :: rest =>
      match skip with
      | S sk => scan sk res rest
      | O =>
          if is_char "*" c then
            match res with
            | Star :: _ => scan 0 res rest
            | _ => scan 0 (Star :: res) rest
            end
          else if is_char "?" c then scan 0 (AnyChar :: res) rest
          else if is_char "[" c then
            match class_len rest with
            | None => scan 0 (Lit "[" :: res) rest
            | Some len => scan (S len) (class_tok (take len rest) :: res) rest
            end
          else scan 0 (Lit c :: res) rest
      end
  end.

Definition translate (pat : string) : list tok :=
  scan 0 [] (list_ascii_of_string pat).

Definition item_has (c : ascii) (i : item) : bool :=
  match i with
  | Single a => Ascii.eqb c a
  | Range lo hi =>
      ((PyStr.ord lo <=? PyStr.ord c) && (PyStr.ord c <=? PyStr.ord hi))%nat
  end.

Definition tok_accepts (t : tok) (c : ascii) : bool :=
  match t with
  | Star => false
  | AnyChar => true
  | Class neg items => xorb neg (existsb (item_has c) items)
  | Lit a => Ascii.eqb c a
  end.

(** [re.match] of the translated pattern: the language of the expression,
    a star standing for any run of characters. *)
Fixpoint matches (ts : list tok) (s : list ascii) : bool :=
  match ts with
  | [] => match s with [] => true | _ => false end
  | Star :: ts' =>
      (fix skip_some (s : list ascii) : bool :=
         matches ts' s
         || match s with
            | [] => false
            | _ :: s' => skip_some s'
            end) s
  | t :: ts' =>
      match s with
      | [] => false
      | c :: s' => tok_accepts t c && matches ts' s'
      end
  end.

Definition fnmatchcase (name pat : string) : bool :=
  matches (translate pat) (list_ascii_of_string name).

(** [os.path.normcase] is the identity on POSIX. *)
Definition fnmatch (name pat : string) : bool := fnmatchcase name pat.

End Fnmatch.

(** ** Pattern matching helpers of the frame *)

(** [_normalize_glob]: surrounding whitespace stripped and every backslash
    replaced by a slash, then [removeprefix] of dot-slash, then one trailing
    slash dropped when more than one character is left. *)
Definition _normalize_glob (pat : string) : string :=
  let s := PyStr.replace "\" "/" (PyStr.strip (PyStr.or_else pat EmptyString)) in
  let s := PyStr.removeprefix "./" s in
  if (1 <? String.length s)%nat && PyStr.endswith s "/"
  then PyStr.drop_last s
  else s.

(** The body of the [for raw in patterns] loop of [_matches_patterns],
    [ps] being the path with its backslashes folded. *)
Fixpoint _matches_patterns_loop (ps : string) (patterns : list string) : bool :=
  match patterns with
  | [] => false
  | raw :: rest =>
      let pat := _normalize_glob raw in
      if negb (PyStr.truthy pat) then _matches_patterns_loop ps rest
      else if String.eqb ps pat then true
      else if Fnmatch.fnmatch ps pat then true
      else if negb (PyStr.char_in "/" pat) && PyStr.startswith ps (pat ++ "/")
           then true
      else _matches_patterns_loop ps rest
  end.

Definition _matches_patterns (path_str : string) (patterns : list string) : bool :=
  let ps := PyStr.replace "\" "/" path_str in
  _matches_patterns_loop ps patterns.

(** ** [pathlib.PurePosixPath]

    A path is the list of its [parts]; the anchor of an absolute path is its
    first part, as in [PurePosixPath.parts]. *)

Abbreviation Path := (list string).

Module PurePath.

Local Open Scope list_scope.

(** The pieces of [s] between slashes. *)
Fixpoint segments (s : string) : list string :=
  match s with
  | EmptyString => [EmptyString]
  | String c r =>
      if Ascii.eqb c "/" then EmptyString :: segments r
      else match segments r with
           | h :: t => String c h :: t
           | [] => [String c EmptyString]
           end
  end.

Definition is_component (seg : string) : bool :=
  negb (String.eqb seg EmptyString) && negb (String.eqb seg ".").

(** The root of a path string: exactly two leading slashes are kept. *)
Definition anchor_of (s : string) : list string :=
  if PyStr.startswith s "/" then
    if PyStr.startswith s "//" && negb (PyStr.startswith s "///")
    then ["//"%string] else ["/"%string]
  else [].

(** [Path(s)] *)
Definition of_str (s : string) : Path :=
  anchor_of s ++ List.filter is_component (segments s).

Definition is_anchor (part : string) : bool := PyStr.startswith part "/".

Definition is_absolute (p : Path) : bool :=
  match p with
  | a :: _ => is_anchor a
  | [] => false
  end.

(** [str(p)] *)
Definition str (p : Path) : string :=
  match p with
  | [] => "."
  | a :: r => if is_anchor a then (a ++ PyStr.join "/" r)%string
              else PyStr.join "/" p
  end.

(** [p.name] *)
Definition name (p : Path) : string :=
  match last p with
  | Some part => if is_anchor part then EmptyString else part
  | None => EmptyString
  end.

(** [p / s] *)
Definition joinpath (p : Path) (s : string) : Path :=
  let q := of_str s in
  if is_absolute q then q else p ++ q.

Fixpoint strip_parts (other p : Path) : option Path :=
  match other, p with
  | [], _ => Some p
  | a :: other', b :: p' => if String.eqb a b then strip_parts other' p' else None
  | _ :: _, [] => None
  end.

(** [p.relative_to(other)], [None] for [ValueError]. *)
Definition relative_to (p other : Path) : option Path :=
  match other with
  | [] => if is_absolute p then None else Some p
  | _ => strip_parts other p
  end.

(** [p < q]: the comparison of the lists of parts. *)
Fixpoint ltb (p q : Path) : bool :=
  match p, q with
  | _, [] => false
  | [], _ :: _ => true
  | a :: p', b :: q' => if String.eqb a b then ltb p' q' else String.ltb a b
  end.

Definition le (p q : Path) : Prop := ltb q p = false.

#[global] Instance le_dec : RelDecision le.
Proof. intros p q. unfold le. apply _. Defined.

(** [sorted(paths)] *)
Definition sorted (paths : list Path) : list Path := merge_sort le paths.

End PurePath.

Definition str_le (a b : string) : Prop := String.leb a b = true.

#[global] Instance str_le_dec : RelDecision str_le.
Proof. intros a b. unfold str_le. apply _. Defined.

(** [sorted(names)] for strings. *)
Definition sorted_strs (names : list string) : list string :=
  merge_sort str_le names.

(** ** Module constants and [discover_files] *)

Definition IGNORED_DIRS_DEFAULT : gset string :=
  {[ ".git"; ".hg"; ".svn"; ".idea"; ".vscode"; "node_modules"; "dist";
     "build"; "__pycache__"; ".venv"; ".gitignore"; "uv.lock" ]}.

(** The tuple given to [p.name.endswith] in [discover_files]. *)
Definition BINARY_SUFFIXES : list string :=
  [".png"; ".jpg"; ".jpeg"; ".gif"; ".webp"; ".pdf"; ".zip"; ".7z"; ".tar";
   ".gz"; ".bz2"].

(** [s.endswith(suffixes)] for a tuple of suffixes. *)
Definition endswith_any (s : string) (suffixes : list string) : bool :=
  existsb (PyStr.endswith s) suffixes.

(** One entry of [os.walk(root)]: [(dirpath, dirnames, filenames)]. *)
Abbreviation WalkEntry := (string * list string * list string)%type.

(** The inner [for name in filenames] loop of [discover_files]. *)
Definition discover_in (root : Path) (dp : Path) (filenames : list string)
  : list Path :=
  flat_map
    (fun name =>
       let p := PurePath.joinpath dp name in
       if endswith_any (PurePath.name p) BINARY_SUFFIXES then []
       else match PurePath.relative_to p root with
            | Some rel => [rel]
            | None => []
            end)
    filenames.

(** [discover_files(root)], [walk] being what [os.walk(root)] yields. *)
Definition discover_files (walk : list WalkEntry) (root : Path) : list Path :=
  let files :=
    flat_map (fun '(dirpath, _, filenames) =>
                discover_in root (PurePath.of_str dirpath) filenames) walk in
  PurePath.sorted files.

(** ** The frame *)

(** What the handlers ask the file system. *)
Record FileSystem : Type := {
  os_walk : Path -> list WalkEntry;
  path_exists : Path -> bool;
  path_is_dir : string -> bool;
  path_resolve : string -> Path
}.

(** The selection of [style_choice]: the widget is built with the three
    choices and [SetSelection(0)], and only ever given an index that
    [FindString] returned. *)
Inductive Style : Type := markdown | plain | xml.

Definition STYLE_CHOICES : list Style := [markdown; plain; xml].

Definition GetStringSelection (s : Style) : string :=
  match s with
  | markdown => "markdown"
  | plain => "plain"
  | xml => "xml"
  end.

(** [style_choice.FindString(s)]: the first choice equal to [s], case not
    taken into account. *)
Definition FindString (s : string) : option Style :=
  List.find (fun c => String.eqb (PyStr.lower (GetStringSelection c)) (PyStr.lower s))
            STYLE_CHOICES.

(** The thirteen check boxes. *)
Record Checks : Type := {
  cb_parsable : bool;
  cb_compress : bool;
  cb_line_numbers : bool;
  cb_no_file_summary : bool;
  cb_no_dir_structure : bool;
  cb_no_files : bool;
  cb_remove_comments : bool;
  cb_remove_empty : bool;
  cb_truncate_b64 : bool;
  cb_include_empty_dirs : bool;
  cb_no_git_sort : bool;
  cb_include_diffs : bool;
  cb_include_logs : bool
}.

(** The frame: the values of its input widgets, the command preview, and
    the attributes set under [# State].  The list boxes and the log only
    mirror these and are left out. *)
Record Frame : Type := {
  dir_picker : string;
  output_name : string;
  style_choice : Style;
  filter_input : string;
  header_text : string;
  instructions_picker : string;
  checks : Checks;
  cmd_preview : string;
  root_path : option Path;
  _all_files : list Path;
  _visible_files : list Path;
  _excluded_files_set : gset Path;
  _ignore_patterns : list string;
  _ignore_defaults_optout : gset string
}.

(** The frame as [__init__] leaves it before it looks at the arguments and
    the cache (the preview apart, which [_update_cmd_preview] fills). *)
Definition initial_checks : Checks :=
  {| cb_parsable := false; cb_compress := false; cb_line_numbers := false;
     cb_no_file_summary := false; cb_no_dir_structure := false;
     cb_no_files := false; cb_remove_comments := false;
     cb_remove_empty := true; cb_truncate_b64 := false;
     cb_include_empty_dirs := false; cb_no_git_sort := false;
     cb_include_diffs := false; cb_include_logs := false |}.

Definition initial_frame : Frame :=
  {| dir_picker := EmptyString; output_name := "repomix_output.md";
     style_choice := markdown; filter_input := EmptyString; header_text := EmptyString;
     instructions_picker := EmptyString; checks := initial_checks; cmd_preview := EmptyString;
     root_path := None; _all_files := []; _visible_files := [];
     _excluded_files_set := ∅; _ignore_patterns := [];
     _ignore_defaults_optout := ∅ |}.

Section Setters.
Variable st : Frame.

Definition with_widgets (d o : string) (s : Style) (h i : string)
           (c : Checks) : Frame :=
  {| dir_picker := d; output_name := o; style_choice := s;
     filter_input := filter_input st; header_text := h;
     instructions_picker := i; checks := c; cmd_preview := cmd_preview st;
     root_path := root_path st; _all_files := _all_files st;
     _visible_files := _visible_files st;
     _excluded_files_set := _excluded_files_set st;
     _ignore_patterns := _ignore_patterns st;
     _ignore_defaults_optout := _ignore_defaults_optout st |}.

Definition with_filter_input (q : string) : Frame :=
  {| dir_picker := dir_picker st; output_name := output_name st;
     style_choice := style_choice st; filter_input := q;
     header_text := header_text st;
     instructions_picker := instructions_picker st; checks := checks st;
     cmd_preview := cmd_preview st; root_path := root_path st;
     _all_files := _all_files st; _visible_files := _visible_files st;
     _excluded_files_set := _excluded_files_set st;
     _ignore_patterns := _ignore_patterns st;
     _ignore_defaults_optout := _ignore_defaults_optout st |}.

Definition with_cmd_preview (p : string) : Frame :=
  {| dir_picker := dir_picker st; output_name := output_name st;
     style_choice := style_choice st; filter_input := filter_input st;
     header_text := header_text st;
     instructions_picker := instructions_picker st; checks := checks st;
     cmd_preview := p; root_path := root_path st;
     _all_files := _all_files st; _visible_files := _visible_files st;
     _excluded_files_set := _excluded_files_set st;
     _ignore_patterns := _ignore_patterns st;
     _ignore_defaults_optout := _ignore_defaults_optout st |}.

Definition with_root_path (r : option Path) : Frame :=
  {| dir_picker := dir_picker st; output_name := output_name st;
     style_choice := style_choice st; filter_input := filter_input st;
     header_text := header_text st;
     instructions_picker := instructions_picker st; checks := checks st;
     cmd_preview := cmd_preview st; root_path := r;
     _all_files := _all_files st; _visible_files := _visible_files st;
     _excluded_files_set := _excluded_files_set st;
     _ignore_patterns := _ignore_patterns st;
     _ignore_defaults_optout := _ignore_defaults_optout st |}.

Definition with_all_files (l : list Path) : Frame :=
  {| dir_picker := dir_picker st; output_name := output_name st;
     style_choice := style_choice st; filter_input := filter_input st;
     header_text := header_text st;
     instructions_picker := instructions_picker st; checks := checks st;
     cmd_preview := cmd_preview st; root_path := root_path st;
     _all_files := l; _visible_files := _visible_files st;
     _excluded_files_set := _excluded_files_set st;
     _ignore_patterns := _ignore_patterns st;
     _ignore_defaults_optout := _ignore_defaults_optout st |}.

Definition with_visible_files (l : list Path) : Frame :=
  {| dir_picker := dir_picker st; output_name := output_name st;
     style_choice := style_choice st; filter_input := filter_input st;
     header_text := header_text st;
     instructions_picker := instructions_picker st; checks := checks st;
     cmd_preview := cmd_preview st; root_path := root_path st;
     _all_files := _all_files st; _visible_files := l;
     _excluded_files_set := _excluded_files_set st;
     _ignore_patterns := _ignore_patterns st;
     _ignore_defaults_optout := _ignore_defaults_optout st |}.

Definition with_excluded_files_set (x : gset Path) : Frame :=
  {| dir_picker := dir_picker st; output_name := output_name st;
     style_choice := style_choice st; filter_input := filter_input st;
     header_text := header_text st;
     instructions_picker := instructions_picker st; checks := checks st;
     cmd_preview := cmd_preview st; root_path := root_path st;
     _all_files := _all_files st; _visible_files := _visible_files st;
     _excluded_files_set := x;
     _ignore_patterns := _ignore_patterns st;
     _ignore_defaults_optout := _ignore_defaults_optout st |}.

Definition with_ignore_patterns (l : list string) : Frame :=
  {| dir_picker := dir_picker st; output_name := output_name st;
     style_choice := style_choice st; filter_input := filter_input st;
     header_text := header_text st;
     instructions_picker := instructions_picker st; checks := checks st;
     cmd_preview := cmd_preview st; root_path := root_path st;
     _all_files := _all_files st; _visible_files := _visible_files st;
     _excluded_files_set := _excluded_files_set st;
     _ignore_patterns := l;
     _ignore_defaults_optout := _ignore_defaults_optout st |}.

Definition with_ignore_defaults_optout (x : gset string) : Frame :=
  {| dir_picker := dir_picker st; output_name := output_name st;
     style_choice := style_choice st; filter_input := filter_input st;
     header_text := header_text st;
     instructions_picker := instructions_picker st; checks := checks st;
     cmd_preview := cmd_preview st; root_path := root_path st;
     _all_files := _all_files st; _visible_files := _visible_files st;
     _excluded_files_set := _excluded_files_set st;
     _ignore_patterns := _ignore_patterns st;
     _ignore_defaults_optout := x |}.
End Setters.

(** ** Build command *)

(** The characters that [_shell_quote] looks for: space, tab, the two
    quotes, and the shell metacharacters of its string literal. *)
Definition SHELL_SPECIALS : string :=
  String " " (String PyStr.tab (String PyStr.dquote "'*$&()[]{};|<>`")).

(** [_shell_quote] *)
Definition _shell_quote (s : string) : string :=
  if negb (PyStr.truthy s)
     || existsb (fun ch => PyStr.char_in ch s) (list_ascii_of_string SHELL_SPECIALS)
  then String PyStr.dquote
         (PyStr.replace PyStr.dquote (String "\" (String PyStr.dquote EmptyString)) s
          ++ String PyStr.dquote EmptyString)
  else s.

(** The local [add_flag] of [_build_command], the command list threaded
    through. *)
Definition add_flag (value : bool) (flag : string) (cmd : list string)
  : list string :=
  if value then (cmd ++ [flag])%list else cmd.

(** [_build_command] *)
Definition _build_command (st : Frame) : list string :=
  let cmd := ["repomix"] in
  let out_name := PyStr.strip (PyStr.or_else (output_name st) "repomix_output.md") in
  let cmd := if PyStr.truthy out_name then (cmd ++ ["-o"; out_name])%list else cmd in
  let style := PyStr.or_else (GetStringSelection (style_choice st)) "markdown" in
  let cmd := if PyStr.truthy style then (cmd ++ ["--style"; style])%list else cmd in
  let cmd := add_flag (cb_parsable (checks st)) "--parsable-style" cmd in
  let cmd := add_flag (cb_compress (checks st)) "--compress" cmd in
  let cmd := add_flag (cb_line_numbers (checks st)) "--output-show-line-numbers" cmd in
  let cmd := add_flag (cb_no_file_summary (checks st)) "--no-file-summary" cmd in
  let cmd := add_flag (cb_no_dir_structure (checks st)) "--no-directory-structure" cmd in
  let cmd := add_flag (cb_no_files (checks st)) "--no-files" cmd in
  let cmd := add_flag (cb_remove_comments (checks st)) "--remove-comments" cmd in
  let cmd := add_flag (cb_remove_empty (checks st)) "--remove-empty-lines" cmd in
  let cmd := add_flag (cb_truncate_b64 (checks st)) "--truncate-base64" cmd in
  let cmd := add_flag (cb_include_empty_dirs (checks st)) "--include-empty-directories" cmd in
  let cmd := add_flag (cb_no_git_sort (checks st)) "--no-git-sort-by-changes" cmd in
  let cmd := add_flag (cb_include_diffs (checks st)) "--include-diffs" cmd in
  let cmd := add_flag (cb_include_logs (checks st)) "--include-logs" cmd in
  let ht := PyStr.strip (PyStr.or_else (header_text st) EmptyString) in
  let cmd := if PyStr.truthy ht then (cmd ++ ["--header-text"; ht])%list else cmd in
  let instr := PyStr.strip (PyStr.or_else (instructions_picker st) EmptyString) in
  let cmd := if PyStr.truthy instr
             then (cmd ++ ["--instruction-file-path"; instr])%list else cmd in
  let ignore_items : list string := [] in
  let ignore_items :=
    match _ignore_patterns st with
    | [] => ignore_items
    | _ => (ignore_items ++ _ignore_patterns st)%list
    end in
  let ignore_items :=
    if bool_decide (_excluded_files_set st = ∅) then ignore_items
    else (ignore_items
          ++ map PurePath.str (PurePath.sorted (elements (_excluded_files_set st))))%list in
  match ignore_items with
  | [] => cmd
  | _ => (cmd ++ ["--ignore"; PyStr.join "," ignore_items])%list
  end.

(** [_update_cmd_preview] *)
Definition _update_cmd_preview (st : Frame) : Frame :=
  let cmd := _build_command st in
  let preview := PyStr.join " " (map _shell_quote cmd) in
  with_cmd_preview st preview.

(** ** File list *)

(** [_is_ignored_path] *)
Definition _is_ignored_path (st : Frame) (p : Path) : bool :=
  _matches_patterns (PurePath.str p) (_ignore_patterns st).

(** [_reload_files_list] *)
Definition _reload_files_list (st : Frame) : Frame :=
  let q := PyStr.lower (PyStr.strip (PyStr.or_else (filter_input st) EmptyString)) in
  let base :=
    List.filter (fun p => negb (_is_ignored_path st p)
                          && negb (bool_decide (p ∈ _excluded_files_set st)))
                (_all_files st) in
  if PyStr.truthy q
  then with_visible_files st
         (List.filter (fun p => PyStr.contains q (PyStr.lower (PurePath.str p))) base)
  else with_visible_files st base.

(** ** Default ignores and rescan *)

(** One turn of the loop of [_ensure_default_ignores_exist]; the
    accumulator is [(self._ignore_patterns, existing)]. *)
Definition ensure_step (fs : FileSystem) (root : Path) (optout : gset string)
           (acc : list string * gset string) (d : string)
  : list string * gset string :=
  if path_exists fs (PurePath.joinpath root d) then
    if bool_decide (d ∉ acc.2) && bool_decide (d ∉ optout)
    then ((acc.1 ++ [d])%list, {[d]} ∪ acc.2)
    else acc
  else acc.

(** [_ensure_default_ignores_exist] *)
Definition _ensure_default_ignores_exist (fs : FileSystem) (st : Frame) : Frame :=
  match root_path st with
  | None => st
  | Some root =>
      let existing : gset string := list_to_set (_ignore_patterns st) in
      let acc :=
        foldl (ensure_step fs root (_ignore_defaults_optout st))
              (_ignore_patterns st, existing)
              (sorted_strs (elements IGNORED_DIRS_DEFAULT)) in
      with_ignore_patterns st acc.1
  end.

(** [_rescan_and_update] *)
Definition _rescan_and_update (fs : FileSystem) (st : Frame) : Frame :=
  match root_path st with
  | None => st
  | Some root =>
      let st := with_all_files st (discover_files (os_walk fs root) root) in
      let st := _ensure_default_ignores_exist fs st in
      let st := with_visible_files st (_all_files st) in
      let st := _reload_files_list st in
      _update_cmd_preview st
  end.

(** [on_refresh] *)
Definition on_refresh (fs : FileSystem) (st : Frame) : Frame :=
  match root_path st with
  | None => st
  | Some root =>
      let st := with_all_files st (discover_files (os_walk fs root) root) in
      let st := with_excluded_files_set st ∅ in
      let st := _ensure_default_ignores_exist fs st in
      let st := with_visible_files st (_all_files st) in
      let st := _reload_files_list st in
      _update_cmd_preview st
  end.

(** ** Removing ignore patterns *)

(** [l.pop(i)] for its effect on [l]; [None] for [IndexError]. *)
Definition pop (i : nat) (l : list string) : option (list string) :=
  if decide (i < length l) then Some (delete i l) else None.

(** The local [matches_any] of [on_remove_ignore]. *)
Definition matches_any (p : Path) (patterns : list string) : bool :=
  let sp := PyStr.replace "\" "/" (PurePath.str p) in
  _matches_patterns sp patterns.

(** [on_remove_ignore], [sel] being the selection of the pattern list box.
    [None] stands for the [IndexError] of an index that is not in the
    list.  The frame returned is the one [_persist_state] then writes. *)
Definition on_remove_ignore (fs : FileSystem) (sel : list nat) (st : Frame)
  : option Frame :=
  removed_patterns ← mapM (fun i => _ignore_patterns st !! i) sel;
  remaining ← foldl (fun acc i => acc ≫= pop i) (Some (_ignore_patterns st)) (reverse sel);
  let st1 := with_ignore_patterns st remaining in
  let to_unexclude :=
    List.filter (fun p => matches_any p removed_patterns
                          && negb (matches_any p remaining))
                (elements (_excluded_files_set st1)) in
  let st2 :=
    with_excluded_files_set st1
      (foldl (fun s p => s ∖ {[p]}) (_excluded_files_set st1) to_unexclude) in
  let st3 :=
    with_ignore_defaults_optout st2
      (foldl (fun s rp => if bool_decide (rp ∈ IGNORED_DIRS_DEFAULT)
                          then {[rp]} ∪ s else s)
             (_ignore_defaults_optout st2) removed_patterns) in
  Some (_rescan_and_update fs st3).

(** ** State cache *)

(** The object in the cache file.  A key is absent ([None]) or holds a
    value of the type [_persist_state] writes. *)
Record StateJson : Type := {
  j_last_dir : option string;
  j_output_name : option string;
  j_style : option string;
  j_header_text : option string;
  j_instruction_file_path : option string;
  j_flags : option (gmap string bool);
  j_ignore_patterns : option (list string);
  j_ignore_defaults_optout : option (list string);
  j_excluded_files : option (list string)
}.

(** The [flags] dict of [_persist_state]. *)
Definition flags_of (c : Checks) : gmap string bool :=
  <["parsable" := cb_parsable c]>
  (<["compress" := cb_compress c]>
  (<["line_numbers" := cb_line_numbers c]>
  (<["no_file_summary" := cb_no_file_summary c]>
  (<["no_directory_structure" := cb_no_dir_structure c]>
  (<["no_files" := cb_no_files c]>
  (<["remove_comments" := cb_remove_comments c]>
  (<["remove_empty" := cb_remove_empty c]>
  (<["truncate_b64" := cb_truncate_b64 c]>
  (<["include_empty_dirs" := cb_include_empty_dirs c]>
  (<["no_git_sort" := cb_no_git_sort c]>
  (<["include_diffs" := cb_include_diffs c]>
  (<["include_logs" := cb_include_logs c]> ∅)))))))))))).

(** [_persist_state]: the object written to the cache file. *)
Definition _persist_state (st : Frame) : StateJson :=
  {| j_last_dir := Some (dir_picker st);
     j_output_name := Some (output_name st);
     j_style := Some (GetStringSelection (style_choice st));
     j_header_text := Some (header_text st);
     j_instruction_file_path := Some (instructions_picker st);
     j_flags := Some (flags_of (checks st));
     j_ignore_patterns := Some (_ignore_patterns st);
     j_ignore_defaults_optout := Some (elements (_ignore_defaults_optout st));
     j_excluded_files :=
       Some (map PurePath.str (PurePath.sorted (elements (_excluded_files_set st)))) |}.

(** [data.get(key) or d] for a string. *)
Definition get_or (v : option string) (d : string) : string :=
  match v with
  | Some s => PyStr.or_else s d
  | None => d
  end.

(** [bool(flags.get(key))] and [bool(flags.get(key, d))] *)
Definition flag_get (flags : gmap string bool) (key : string) (d : bool) : bool :=
  default d (flags !! key).

(** The check boxes as [_restore_state] sets them from [flags]. *)
Definition checks_of (flags : gmap string bool) : Checks :=
  {| cb_parsable := flag_get flags "parsable" false;
     cb_compress := flag_get flags "compress" false;
     cb_line_numbers := flag_get flags "line_numbers" false;
     cb_no_file_summary := flag_get flags "no_file_summary" false;
     cb_no_dir_structure := flag_get flags "no_directory_structure" false;
     cb_no_files := flag_get flags "no_files" false;
     cb_remove_comments := flag_get flags "remove_comments" false;
     cb_remove_empty := flag_get flags "remove_empty" true;
     cb_truncate_b64 := flag_get flags "truncate_b64" false;
     cb_include_empty_dirs := flag_get flags "include_empty_dirs" false;
     cb_no_git_sort := flag_get flags "no_git_sort" false;
     cb_include_diffs := flag_get flags "include_diffs" false;
     cb_include_logs := flag_get flags "include_logs" false |}.

(** [_restore_state]; [file] is the parsed cache file, [None] when there is
    no such file. *)
Definition _restore_state (fs : FileSystem) (file : option StateJson) (st : Frame)
  : Frame :=
  match file with
  | None => st
  | Some data =>
      let last_dir := default EmptyString (j_last_dir data) in
      let '(dir, root) :=
        if PyStr.truthy last_dir && path_is_dir fs last_dir
        then (last_dir, Some (path_resolve fs last_dir))
        else (dir_picker st, root_path st) in
      let style := get_or (j_style data) "markdown" in
      let choice := default (style_choice st) (FindString style) in
      let out := get_or (j_output_name data) (output_name st) in
      let header := get_or (j_header_text data) EmptyString in
      let instr := get_or (j_instruction_file_path data) EmptyString in
      let picker := if PyStr.truthy instr then instr else instructions_picker st in
      let flags := default ∅ (j_flags data) in
      let st := with_widgets st dir out choice header picker (checks_of flags) in
      let st := with_root_path st root in
      let st := with_ignore_patterns st (default [] (j_ignore_patterns data)) in
      let st := with_ignore_defaults_optout st
                  (list_to_set (default [] (j_ignore_defaults_optout data))) in
      let st := with_excluded_files_set st
                  (list_to_set (map PurePath.of_str (default [] (j_excluded_files data)))) in
      match root_path st with
      | Some _ => on_refresh fs st
      | None => st
      end
  end.

(** ** Further handlers *)

(** [on_dir_changed], the picker holding the chosen directory. *)
Definition on_dir_changed (fs : FileSystem) (st : Frame) : Frame :=
  let st := with_root_path st (Some (path_resolve fs (dir_picker st))) in
  on_refresh fs st.

(** [on_filter] *)
Definition on_filter (fs : FileSystem) (st : Frame) : Frame :=
  _rescan_and_update fs st.

(** [_on_command_changed]; the frame returned is what [_persist_state]
    then writes. *)
Definition _on_command_changed (fs : FileSystem) (st : Frame) : Frame :=
  _rescan_and_update fs st.

(** [on_to_exclude], [sel] being the selection of the list of included
    files.  [None] stands for the [IndexError] of an index that is not in
    [_visible_files]. *)
Definition on_to_exclude (fs : FileSystem) (sel : list nat) (st : Frame)
  : option Frame :=
  excluded ← foldl (fun acc i =>
                      s ← acc; p ← _visible_files st !! i; Some ({[p]} ∪ s))
                   (Some (_excluded_files_set st)) sel;
  Some (_rescan_and_update fs (with_excluded_files_set st excluded)).

(** [on_to_include], [items] being the strings selected in the list of
    excluded files. *)
Definition on_to_include (fs : FileSystem) (items : list string) (st : Frame)
  : Frame :=
  let excluded :=
    foldl (fun s item => s ∖ {[PurePath.of_str item]})
          (_excluded_files_set st) items in
  _rescan_and_update fs (with_excluded_files_set st excluded).

(** [on_add_ignore], [input] being the text of the pattern field. *)
Definition on_add_ignore (fs : FileSystem) (input : string) (st : Frame)
  : Frame :=
  let pat := PyStr.strip input in
  if PyStr.truthy pat then
    let st := with_ignore_patterns st (_ignore_patterns st ++ [pat])%list in
    let st :=
      if bool_decide (pat ∈ IGNORED_DIRS_DEFAULT)
         && bool_decide (pat ∈ _ignore_defaults_optout st)
      then with_ignore_defaults_optout st (_ignore_defaults_optout st ∖ {[pat]})
      else st in
    _rescan_and_update fs st
  else st.

(** [s.rfind(ch)], [None] for -1. *)
Fixpoint rfind (ch : ascii) (s : string) : option nat :=
  match s with
  | EmptyString => None
  | String c r =>
      match rfind ch r with
      | Some i => Some (S i)
      | None => if Ascii.eqb c ch then Some 0 else None
      end
  end.

(** [p.stem] *)
Definition path_stem (p : Path) : string :=
  let name := PurePath.name p in
  match rfind "." name with
  | Some i =>
      if (0 <? i)%nat && (i <? String.length name - 1)%nat
      then String.substring 0 i name
      else name
  | None => name
  end.

(** The [ext_map] of [on_style_change]. *)
Definition EXT_MAP : gmap string string :=
  {[ "markdown" := ".md"; "plain" := ".txt"; "xml" := ".xml" ]}.

(** The name that [on_style_change] gives the output for a style. *)
Definition styled_name (style output : string) : string :=
  let want_ext := default ".md" (EXT_MAP !! style) in
  let current := PyStr.strip (PyStr.or_else output "repomix_output") in
  let p := PurePath.of_str current in
  let stem := PyStr.or_else (path_stem p) "repomix_output" in
  stem ++ want_ext.

(** [on_style_change].  The text event that [SetValue] raises runs
    [_on_command_changed] on the way; it is the rescan that follows
    anyway. *)
Definition on_style_change (fs : FileSystem) (st : Frame) : Frame :=
  let style := GetStringSelection (style_choice st) in
  let current := PyStr.strip (PyStr.or_else (output_name st) "repomix_output") in
  let new_name := styled_name style (output_name st) in
  let st :=
    if negb (String.eqb new_name current)
    then with_widgets st (dir_picker st) new_name (style_choice st)
                      (header_text st) (instructions_picker st) (checks st)
    else st in
  _on_command_changed fs st.

(** [_init_root_from_args_or_cache]: [argv] is [sys.argv], [file] the
    parsed cache file, [expanduser] what [Path.expanduser] does. *)
Definition _init_root_from_args_or_cache (fs : FileSystem)
           (expanduser : Path → Path) (argv : list string)
           (file : option StateJson) (st : Frame) : Frame :=
  match argv !! 1 with
  | Some arg =>
      let p := expanduser (PurePath.of_str arg) in
      if PyStr.truthy arg && path_is_dir fs (PurePath.str p)
      then
        let st := with_widgets st (PurePath.str p) (output_name st)
                    (style_choice st) (header_text st)
                    (instructions_picker st) (checks st) in
        let st := with_root_path st (Some (path_resolve fs (PurePath.str p))) in
        on_refresh fs st
      else _restore_state fs file st
  | None => _restore_state fs file st
  end.

(** A relative path as discovery produces them: every part is a name,
    not empty, not a dot, and without a slash. *)
Definition is_name (part : string) : bool :=
  PurePath.is_component part && negb (PyStr.char_in "/" part).

Definition relative_names (p : Path) : Prop := Forall (fun part => is_name part = true) p.

(** A frame that a rescan leaves as it is. *)
Definition settled (fs : FileSystem) (st : Frame) : Prop :=
  _rescan_and_update fs st = st.

(** The characters that make a glob of a pattern. *)
Definition is_literal (pat : string) : bool :=
  negb (PyStr.char_in "*" pat) && negb (PyStr.char_in "?" pat)
  && negb (PyStr.char_in "[" pat).

(** The entries of a list of paths that a selection picks. *)
Definition picked (sel : list nat) (l : list Path) : list Path :=
  omap (fun i => l !! i) sel.

(** A path is a list of names, with an anchor in front of them or not. *)
Definition anchored_names (p : Path) : Prop :=
  ∃ names, relative_names names
           ∧ (p = names ∨ ∃ a, PurePath.is_anchor a = true ∧ p = a :: names).

(** ** Vocabulary of the specification *)

(** A normalized pattern covers a path: exact match, glob match, or the
    pattern has no slash and names a directory above the path. *)
Definition pattern_covers (path pat : string) : Prop :=
  pat ≠ EmptyString
  ∧ (path = pat
     ∨ Fnmatch.fnmatch path pat = true
     ∨ (PyStr.char_in "/" pat = false ∧ ∃ rest, path = pat ++ "/" ++ rest)).

(** Some raw pattern of the list covers the path once normalized. *)
Definition some_pattern_covers (path : string) (patterns : list string) : Prop :=
  ∃ raw, raw ∈ patterns ∧ pattern_covers path (_normalize_glob raw).

(** [t] is [s] without one leading dot-slash, if it has one. *)
Definition dot_slash_removed (s t : string) : Prop :=
  s = "./" ++ t ∨ ((∀ r, s ≠ "./" ++ r) ∧ t = s).

(** [out] is [t] without one trailing slash, unless that leaves nothing. *)
Definition trailing_slash_removed (t out : string) : Prop :=
  (out ≠ EmptyString ∧ t = out ++ "/")
  ∨ ((t = "/" ∨ ∀ u, t ≠ u ++ "/") ∧ out = t).

(** The normal form of a raw pattern, surrounding whitespace stripped
    first. *)
Definition normal_form (raw out : string) : Prop :=
  ∃ t, dot_slash_removed (PyStr.replace "\" "/" (PyStr.strip raw)) t
       ∧ trailing_slash_removed t out.

(** The normal form without the stripping of whitespace. *)
Definition normal_form_unstripped (raw out : string) : Prop :=
  ∃ t, dot_slash_removed (PyStr.replace "\" "/" raw) t
       ∧ trailing_slash_removed t out.

Fixpoint all_space (s : string) : bool :=
  match s with
  | EmptyString => true
  | String c r => PyStr.isspace c && all_space r
  end.

(** The characters that call for quoting, one by one. *)
Definition QUOTED_CHARS : list ascii :=
  [" "%char; PyStr.tab; PyStr.dquote; "'"%char; "*"%char; "$"%char;
   "&"%char; "("%char; ")"%char; "["%char; "]"%char; "{"%char; "}"%char;
   ";"%char; "|"%char; "<"%char; ">"%char; "`"%char].

Definition needs_quoting (s : string) : Prop :=
  s = EmptyString
  ∨ ∃ c, c ∈ QUOTED_CHARS ∧ c ∈ list_ascii_of_string s.

(** [s] between double quotes, its own double quotes escaped. *)
Definition quoted (s : string) : string :=
  String PyStr.dquote
    (PyStr.replace PyStr.dquote (String "\" (String PyStr.dquote EmptyString)) s
     ++ String PyStr.dquote EmptyString).

(** A path is ignored when some ignore pattern covers it. *)
Definition ignored (st : Frame) (p : Path) : Prop :=
  some_pattern_covers (PyStr.replace "\" "/" (PurePath.str p)) (_ignore_patterns st).

(** [sub] occurs in [s]. *)
Definition occurs_in (sub s : string) : Prop :=
  ∃ pre post, s = pre ++ sub ++ post.

(** A discovered file is shown under the filter text [q]: not ignored, not
    excluded, and holding [q], case apart, when [q] is not empty. *)
Definition shown (st : Frame) (q : string) (p : Path) : Prop :=
  p ∈ _all_files st
  ∧ ¬ ignored st p
  ∧ (p ∉ _excluded_files_set st)
  ∧ (q = EmptyString ∨ occurs_in (PyStr.lower q) (PyStr.lower (PurePath.str p))).

(** The token of a check box. *)
Definition flag_token (value : bool) (flag : string) : list string :=
  if value then [flag] else [].

(** One token per checked box, in the order of declaration. *)
Definition flag_tokens (c : Checks) : list string :=
  (flag_token (cb_parsable c) "--parsable-style"
   ++ flag_token (cb_compress c) "--compress"
   ++ flag_token (cb_line_numbers c) "--output-show-line-numbers"
   ++ flag_token (cb_no_file_summary c) "--no-file-summary"
   ++ flag_token (cb_no_dir_structure c) "--no-directory-structure"
   ++ flag_token (cb_no_files c) "--no-files"
   ++ flag_token (cb_remove_comments c) "--remove-comments"
   ++ flag_token (cb_remove_empty c) "--remove-empty-lines"
   ++ flag_token (cb_truncate_b64 c) "--truncate-base64"
   ++ flag_token (cb_include_empty_dirs c) "--include-empty-directories"
   ++ flag_token (cb_no_git_sort c) "--no-git-sort-by-changes"
   ++ flag_token (cb_include_diffs c) "--include-diffs"
   ++ flag_token (cb_include_logs c) "--include-logs")%list.

(** An option and its value, left out when the value is empty. *)
Definition valued_option (opt value : string) : list string :=
  match value with
  | EmptyString => []
  | _ => [opt; value]
  end.

(** The ignore option: the patterns, then the excluded paths in order. *)
Definition ignore_option (patterns : list string) (excluded : gset Path)
  : list string :=
  match (patterns ++ map PurePath.str (PurePath.sorted (elements excluded)))%list with
  | [] => []
  | items => ["--ignore"; PyStr.join "," items]
  end.

(** The argument vector in its fixed order. *)
Definition argv_of (name style : string) (c : Checks) (header instr : string)
           (patterns : list string) (excluded : gset Path) : list string :=
  (["repomix"] ++ valued_option "-o" name ++ ["--style"; style]
   ++ flag_tokens c
   ++ valued_option "--header-text" header
   ++ valued_option "--instruction-file-path" instr
   ++ ignore_option patterns excluded)%list.

(** [s] ends with one of the suffixes, character for character. *)
Definition has_suffix_in (s : string) (suffixes : list string) : Prop :=
  ∃ ext, ext ∈ suffixes ∧ ∃ stem, s = stem ++ ext.

(** The default names in the order the loop of
    [_ensure_default_ignores_exist] visits them. *)
Definition SORTED_DEFAULTS : list string :=
  sorted_strs (elements IGNORED_DIRS_DEFAULT).

(** A default name is due: it exists under the root, is not among the
    patterns and is not opted out. *)
Definition due (fs : FileSystem) (root : Path) (optout : gset string)
           (patterns : list string) (d : string) : bool :=
  path_exists fs (PurePath.joinpath root d)
  && bool_decide (d ∉ patterns) && bool_decide (d ∉ optout).

(** The default names that a rescan appends to the patterns. *)
Definition added_defaults (fs : FileSystem) (root : option Path)
           (optout : gset string) (patterns : list string) : list string :=
  match root with
  | Some r => List.filter (due fs r optout patterns) SORTED_DEFAULTS
  | None => []
  end.

(** The files that [_reload_files_list] leaves visible. *)
Definition visible_of (st : Frame) : list Path :=
  let q := PyStr.lower (PyStr.strip (filter_input st)) in
  List.filter
    (fun p => (negb (_is_ignored_path st p)
               && negb (bool_decide (p ∈ _excluded_files_set st)))
              && (negb (PyStr.truthy q)
                  || PyStr.contains q (PyStr.lower (PurePath.str p))))
    (_all_files st).

(** Some pattern of the list covers the path [p]. *)
Definition covered_by (patterns : list string) (p : Path) : Prop :=
  some_pattern_covers (PyStr.replace "\" "/" (PurePath.str p)) patterns.

(** The entries of [l] whose index, counted from [k], is not selected. *)
Fixpoint without_from (k : nat) (sel : list nat) (l : list string)
  : list string :=
  match l with
  | [] => []
  | x :: r => if bool_decide (k ∈ sel) then without_from (S k) sel r
              else x :: without_from (S k) sel r
  end.

(** The entries of [l] that are not selected, in their order. *)
Definition unselected (sel : list nat) (l : list string) : list string :=
  without_from 0 sel l.

(** The selected entries of [l], in the order of the selection. *)
Definition selected (sel : list nat) (l : list string) : list string :=
  omap (fun i => l !! i) sel.

(** The file system of the end-to-end example: a root [/r] that holds
    [a.py], [b.png] and [.git/config]. *)
Definition example_fs : FileSystem :=
  {| os_walk := fun _ => [("/r", [".git"], ["a.py"; "b.png"]);
                          ("/r/.git", [], ["config"])];
     path_exists := fun p => bool_decide (p = ["/"; "r"; ".git"]);
     path_is_dir := fun s => String.eqb s "/r";
     path_resolve := PurePath.of_str |}.

(** The frame of the example once [/r] is chosen and scanned. *)
Definition example_frame : Frame :=
  on_refresh example_fs
    (with_root_path
       (with_widgets initial_frame "/r" "repomix_output.md" markdown
                     EmptyString EmptyString initial_checks)
       (Some ["/"; "r"])).

(** The cache object with no key at all. *)
Definition no_keys : StateJson :=
  {| j_last_dir := None; j_output_name := None; j_style := None;
     j_header_text := None; j_instruction_file_path := None;
     j_flags := None; j_ignore_patterns := None;
     j_ignore_defaults_optout := None; j_excluded_files := None |}.

(** The saved directory is usable: not empty and still a directory. *)
Definition dir_usable (fs : FileSystem) (dir : string) : bool :=
  PyStr.truthy dir && path_is_dir fs dir.

(** The test the loop of [_matches_patterns] makes on one normalized
    pattern. *)
Definition covers_b (ps pat : string) : bool :=
  PyStr.truthy pat
  && (String.eqb ps pat
      || Fnmatch.fnmatch ps pat
      || (negb (PyStr.char_in "/" pat) && PyStr.startswith ps (pat ++ "/"))).

(** ** Facts about strings *)

Lemma truthy_false (s : string) : PyStr.truthy s = false ↔ s = EmptyString.
Proof. destruct s; simpl; split; congruence. Qed.

Lemma truthy_true (s : string) : PyStr.truthy s = true ↔ s ≠ EmptyString.
Proof. destruct s; simpl; split; congruence. Qed.

Lemma or_else_empty (s : string) : PyStr.or_else s EmptyString = s.
Proof. by destruct s. Qed.

Lemma prefix_spec (p s : string) :
  String.prefix p s = true ↔ ∃ r, s = p ++ r.
Proof.
  revert s. induction p as [|a p IH]; intros s.
  - destruct s; simpl; split; eauto.
  - destruct s as [|b s].
    + simpl. split; [discriminate | intros [r Hr]; discriminate].
    + change (String.prefix (String a p) (String b s))
        with (if ascii_dec a b then String.prefix p s else false).
      destruct (ascii_dec a b) as [->|Hne].
      * rewrite IH. split; intros [r Hr]; exists r; simpl in *; congruence.
      * split; [discriminate | intros [r Hr]; simpl in Hr; congruence].
Qed.

Lemma startswith_spec (s p : string) :
  PyStr.startswith s p = true ↔ ∃ r, s = p ++ r.
Proof. apply prefix_spec. Qed.

Lemma char_in_spec (c : ascii) (s : string) :
  PyStr.char_in c s = true ↔ c ∈ list_ascii_of_string s.
Proof.
  induction s as [|a s IH]; simpl.
  - split; [discriminate | by intros ?%elem_of_nil].
  - rewrite orb_true_iff, IH, elem_of_cons, Ascii.eqb_eq.
    split; (intros [?|?]; [left|right]); done.
Qed.

Lemma replace_absent (a : ascii) (t s : string) :
  PyStr.char_in a s = false → PyStr.replace a t s = s.
Proof.
  induction s as [|c s IH]; simpl; [done|].
  intros [Hc Hs]%orb_false_iff. rewrite Hc, IH; done.
Qed.

Lemma app_empty_r (s : string) : s ++ EmptyString = s.
Proof. induction s; simpl; congruence. Qed.

Lemma app_assoc_str (a b c : string) : (a ++ b) ++ c = a ++ (b ++ c).
Proof. induction a; simpl; congruence. Qed.

Lemma length_app_str (a b : string) :
  String.length (a ++ b) = String.length a + String.length b.
Proof. induction a; simpl; congruence. Qed.

Lemma drop_app (a b : string) : PyStr.drop (String.length a) (a ++ b) = b.
Proof. induction a; simpl; [by destruct b | done]. Qed.

Lemma removeprefix_spec (p s : string) :
  (∃ r, s = p ++ r ∧ PyStr.removeprefix p s = r)
  ∨ ((∀ r, s ≠ p ++ r) ∧ PyStr.removeprefix p s = s).
Proof.
  unfold PyStr.removeprefix.
  destruct (PyStr.startswith s p) eqn:E.
  - apply startswith_spec in E as [r ->]. left. exists r. by rewrite drop_app.
  - right. split; [|done]. intros r ->.
    assert (PyStr.startswith (p ++ r) p = true) by (apply startswith_spec; eauto).
    congruence.
Qed.

Lemma drop_last_snoc (u : string) (c : ascii) :
  PyStr.drop_last (u ++ String c EmptyString) = u.
Proof.
  induction u as [|a u IH]; simpl; [done|].
  rewrite IH. by destruct u.
Qed.

Lemma snoc_inv (s : string) :
  s = EmptyString ∨ ∃ u c, s = u ++ String c EmptyString.
Proof.
  induction s as [|a s IH]; [by left|right].
  destruct IH as [->|(u & c & ->)].
  - by exists EmptyString, a.
  - by exists (String a u), c.
Qed.

Lemma snoc_inj (u v : string) (c d : ascii) :
  u ++ String c EmptyString = v ++ String d EmptyString → u = v ∧ c = d.
Proof.
  revert v. induction u as [|a u IH]; intros [|b v]; simpl; intros H.
  - by inversion H.
  - inversion H as [[Ha Hv]]. by destruct v.
  - inversion H as [[Ha Hv]]. by destruct u.
  - inversion H as [[Ha Hv]]. apply IH in Hv as [-> ->]. done.
Qed.

Lemma endswith_snoc (u : string) (c d : ascii) :
  PyStr.endswith (u ++ String c EmptyString) (String d EmptyString)
  = Ascii.eqb c d.
Proof.
  unfold PyStr.endswith. rewrite length_app_str. cbn [String.length].
  replace (String.length u + 1 - 1) with (String.length u) by lia.
  rewrite drop_app.
  replace (String.length u + 1) with (S (String.length u)) by lia.
  cbn. by destruct (Ascii.eqb c d).
Qed.

Lemma endswith_spec (s p : string) :
  PyStr.endswith s p = true ↔ ∃ r, s = r ++ p.
Proof.
  unfold PyStr.endswith. rewrite andb_true_iff, Nat.leb_le, String.eqb_eq.
  split.
  - intros [Hlen Hd]. revert Hlen Hd.
    generalize (String.length p) as n. intros n.
    revert n. induction s as [|a s IH]; intros n Hlen Hd; simpl in *.
    + exists EmptyString. by destruct n.
    + destruct (decide (n = S (String.length s))) as [->|Hn].
      * rewrite Nat.sub_diag in Hd. simpl in Hd. by exists EmptyString.
      * replace (S (String.length s) - n) with (S (String.length s - n)) in Hd by lia.
        simpl in Hd. destruct (IH n) as [r ->]; [lia|done|].
        by exists (String a r).
  - intros [r ->]. rewrite length_app_str. split; [lia|].
    replace (String.length r + String.length p - String.length p)
      with (String.length r) by lia.
    apply drop_app.
Qed.

(** ** The pattern matcher *)

Lemma covers_b_spec (ps pat : string) :
  covers_b ps pat = true ↔ pattern_covers ps pat.
Proof.
  unfold covers_b, pattern_covers.
  rewrite andb_true_iff, !orb_true_iff, andb_true_iff, negb_true_iff.
  rewrite truthy_true, String.eqb_eq, startswith_spec.
  split.
  - intros [Hne [[H|H]|[Hs [r Hr]]]]; split; auto.
    right; right. split; [done|]. exists r. by rewrite Hr, app_assoc_str.
  - intros [Hne [H|[H|[Hs [r Hr]]]]]; split; auto.
    right. split; [done|]. exists r. by rewrite Hr, app_assoc_str.
Qed.

Lemma matches_loop_cons (ps raw : string) (rest : list string) :
  _matches_patterns_loop ps (raw :: rest)
  = covers_b ps (_normalize_glob raw) || _matches_patterns_loop ps rest.
Proof.
  cbn [_matches_patterns_loop]. unfold covers_b.
  destruct (PyStr.truthy (_normalize_glob raw)); [|done].
  cbn [negb andb].
  destruct (String.eqb ps (_normalize_glob raw)); [done|].
  destruct (Fnmatch.fnmatch ps (_normalize_glob raw)); [done|].
  cbn [orb].
  by destruct (negb (PyStr.char_in "/" (_normalize_glob raw))
               && PyStr.startswith ps (_normalize_glob raw ++ "/")).
Qed.

Lemma matches_loop_spec (ps : string) (patterns : list string) :
  _matches_patterns_loop ps patterns = true ↔ some_pattern_covers ps patterns.
Proof.
  unfold some_pattern_covers.
  induction patterns as [|raw rest IH].
  - split; [discriminate | by intros (raw & ?%elem_of_nil & _)].
  - rewrite matches_loop_cons, orb_true_iff, covers_b_spec, IH. split.
    + intros [H|(r & Hr & Hc)].
      * exists raw. split; [apply list_elem_of_here | done].
      * exists r. split; [by apply list_elem_of_further | done].
    + intros (r & [->|Hr]%elem_of_cons & Hc); [by left|].
      right. by exists r.
Qed.

Lemma matches_patterns_fold (path_str : string) (patterns : list string) :
  _matches_patterns path_str patterns = true
  ↔ some_pattern_covers (PyStr.replace "\" "/" path_str) patterns.
Proof. apply matches_loop_spec. Qed.

(** C1. On a slash-normalized path the matcher answers true exactly when
    some pattern of the list, normalized and not empty, equals the path,
    glob-matches it, or has no slash and is followed by a slash at the head
    of the path.  A covering pattern settles the answer whatever follows
    it; the empty list matches nothing.  [node_modules] covers itself and
    what lies below it, not [my_node_modules/x]. *)
Theorem matches_patterns_spec (path : string) (patterns : list string)
  (Hpath : PyStr.char_in "\" path = false) :
  (_matches_patterns path patterns = true ↔ some_pattern_covers path patterns)
  ∧ (∀ before raw after,
       patterns = (before ++ raw :: after)%list →
       pattern_covers path (_normalize_glob raw) →
       ∀ after', _matches_patterns path (before ++ raw :: after')%list = true)
  ∧ (¬ some_pattern_covers path patterns → _matches_patterns path patterns = false)
  ∧ _matches_patterns path [] = false
  ∧ _matches_patterns "node_modules/x/y.js" ["node_modules"] = true
  ∧ _matches_patterns "node_modules" ["node_modules"] = true
  ∧ _matches_patterns "my_node_modules/x" ["node_modules"] = false.
Proof.
  assert (Hiff : ∀ l, _matches_patterns path l = true ↔ some_pattern_covers path l).
  { intros l. rewrite matches_patterns_fold. by rewrite replace_absent. }
  split; [apply Hiff|]. split; [|split; [|split]].
  - intros before raw after _ Hc after'. apply Hiff. exists raw.
    split; [|done]. apply elem_of_app. right. apply list_elem_of_here.
  - intros Hno. destruct (_matches_patterns path patterns) eqn:E; [|done].
    by apply Hiff in E.
  - done.
  - by vm_compute.
Qed.

(** A slash-normalized path and a pattern list at which
    [matches_patterns_spec] applies. *)
Lemma matches_patterns_spec_witness :
  (_matches_patterns "src/a.py" ["dist"; "src/"] = true
   ↔ some_pattern_covers "src/a.py" ["dist"; "src/"])
  ∧ (∀ before raw after,
       ["dist"; "src/"] = (before ++ raw :: after)%list →
       pattern_covers "src/a.py" (_normalize_glob raw) →
       ∀ after', _matches_patterns "src/a.py" (before ++ raw :: after')%list = true)
  ∧ (¬ some_pattern_covers "src/a.py" ["dist"; "src/"]
     → _matches_patterns "src/a.py" ["dist"; "src/"] = false)
  ∧ _matches_patterns "src/a.py" [] = false
  ∧ _matches_patterns "node_modules/x/y.js" ["node_modules"] = true
  ∧ _matches_patterns "node_modules" ["node_modules"] = true
  ∧ _matches_patterns "my_node_modules/x" ["node_modules"] = false.
Proof. apply (matches_patterns_spec "src/a.py" ["dist"; "src/"]). reflexivity. Defined.

(** C2, as the code has it.  The star of a glob crosses slashes:
    [*.png] matches [a/b/c.png], and [src/*.ts] matches [src/a.ts] and
    [src/sub/a.ts] alike. *)
Theorem matches_patterns_glob :
  _matches_patterns "a/b/c.png" ["*.png"] = true
  ∧ _matches_patterns "src/a.ts" ["src/*.ts"] = true
  ∧ _matches_patterns "src/sub/a.ts" ["src/*.ts"] = true.
Proof. by vm_compute. Qed.

(** C2 as stated fails: [src/*.ts] does match [src/sub/a.ts]. *)
Lemma matches_patterns_glob_counterexample :
  ¬ (_matches_patterns "a/b/c.png" ["*.png"] = true
     ∧ _matches_patterns "src/a.ts" ["src/*.ts"] = true
     ∧ _matches_patterns "src/sub/a.ts" ["src/*.ts"] = false).
Proof. intros (_ & _ & H). vm_compute in H. discriminate. Qed.

(** ** Normalization of patterns *)

Lemma lstrip_all_space (s : string) :
  all_space s = true → PyStr.lstrip s = EmptyString.
Proof.
  induction s as [|c s IH]; simpl; [done|].
  intros [Hc Hs]%andb_true_iff. rewrite Hc. auto.
Qed.

Lemma normalize_all_space (raw : string) :
  all_space raw = true → _normalize_glob raw = EmptyString.
Proof.
  intros H. unfold _normalize_glob, PyStr.strip.
  rewrite or_else_empty, lstrip_all_space by done. reflexivity.
Qed.

Lemma dot_slash_removed_fun (s t t' : string) :
  dot_slash_removed s t → dot_slash_removed s t' → t = t'.
Proof.
  intros [->|[Hno ->]] [H|[Hno' ->]]; try done.
  - simpl in H. by inversion H.
  - by destruct (Hno' t).
  - by destruct (Hno t').
Qed.

Lemma trailing_slash_removed_fun (t out out' : string) :
  trailing_slash_removed t out → trailing_slash_removed t out' → out = out'.
Proof.
  intros [[Hne ->]|[Ht ->]] [[Hne' H]|[Ht' ->]]; try done.
  - by apply snoc_inj in H as [-> _].
  - destruct Ht' as [Ht'|Ht']; [|by destruct (Ht' out)].
    destruct out as [|c out]; [done|]. simpl in Ht'.
    inversion Ht' as [[Hc Ho]]. by destruct out.
  - destruct Ht as [->|Ht]; [|by destruct (Ht out')].
    destruct out' as [|c out']; [done|]. simpl in H.
    inversion H as [[Hc Ho]]. by destruct out'.
Qed.

Lemma normalize_glob_normal_form (raw : string) :
  normal_form raw (_normalize_glob raw).
Proof.
  unfold normal_form, _normalize_glob. rewrite or_else_empty.
  set (s := PyStr.replace _ _ _).
  exists (PyStr.removeprefix "./" s). split.
  - destruct (removeprefix_spec "./" s) as [(r & Hs & ->)|[Hno ->]].
    + by left.
    + by right.
  - generalize (PyStr.removeprefix "./" s). intros t.
    destruct (snoc_inv t) as [->|(u & c & ->)].
    + right. split; [|done]. right. intros u. by destruct u.
    + rewrite endswith_snoc, length_app_str. cbn [String.length].
      destruct (Ascii.eqb c "/") eqn:Ec.
      * apply Ascii.eqb_eq in Ec as ->.
        destruct u as [|a u].
        -- right. split; [by left | done].
        -- replace (1 <? String.length (String a u) + 1)%nat with true
             by (symmetry; apply Nat.ltb_lt; simpl; lia).
           cbn [andb]. rewrite drop_last_snoc. by left.
      * rewrite andb_false_r. right. split; [|done]. right.
        intros v Hv. apply snoc_inj in Hv as [_ ->].
        by rewrite Ascii.eqb_refl in Ec.
Qed.

(** C8, as the code has it.  Normalization strips the surrounding
    whitespace, replaces every backslash by a slash, removes one leading
    dot-slash, and removes one trailing slash unless nothing would be left;
    this determines its result.  An empty or blank pattern normalizes to the
    empty string, and a pattern that does is skipped by the matcher. *)
Theorem normalize_glob_spec (raw : string) :
  normal_form raw (_normalize_glob raw)
  ∧ (∀ out, normal_form raw out → out = _normalize_glob raw)
  ∧ (all_space raw = true → _normalize_glob raw = EmptyString)
  ∧ (_normalize_glob raw = EmptyString →
     ∀ path rest, _matches_patterns path (raw :: rest) = _matches_patterns path rest).
Proof.
  split; [apply normalize_glob_normal_form|]. split; [|split].
  - intros out (t & Hd & Ht).
    destruct (normalize_glob_normal_form raw) as (t' & Hd' & Ht').
    rewrite (dot_slash_removed_fun _ _ _ Hd Hd') in Ht.
    eapply trailing_slash_removed_fun; eauto.
  - apply normalize_all_space.
  - intros Hraw path rest. unfold _matches_patterns.
    rewrite matches_loop_cons, Hraw. reflexivity.
Qed.

(** A blank pattern, at which both premises of [normalize_glob_spec] hold. *)
Lemma normalize_glob_spec_witness :
  _normalize_glob "  " = EmptyString
  ∧ _matches_patterns "a.py" ["  "; "*.py"] = _matches_patterns "a.py" ["*.py"].
Proof.
  pose proof (normalize_glob_spec "  ") as (_ & _ & Hblank & Hskip).
  split.
  - apply Hblank. reflexivity.
  - apply Hskip. apply Hblank. reflexivity.
Defined.

(** C8 as stated fails: the description leaves out the stripping of
    whitespace, and a pattern with a leading space loses it. *)
Lemma normalize_glob_counterexample :
  _normalize_glob " a" = "a"
  ∧ ¬ normal_form_unstripped " a" (_normalize_glob " a").
Proof.
  split; [reflexivity|].
  intros (t & Hd & Ht). change (_normalize_glob " a") with "a" in Ht.
  assert (t = " a") as ->.
  { destruct Hd as [Hd|[_ ->]]; [|done]. simpl in Hd. discriminate. }
  destruct Ht as [[_ Ht]|[_ Ht]]; simpl in Ht; discriminate.
Qed.

(** ** Shell quoting *)

Lemma shell_specials_chars :
  list_ascii_of_string SHELL_SPECIALS = QUOTED_CHARS.
Proof. reflexivity. Qed.

Lemma needs_quoting_spec (s : string) :
  negb (PyStr.truthy s)
  || existsb (fun ch => PyStr.char_in ch s) (list_ascii_of_string SHELL_SPECIALS)
  = true ↔ needs_quoting s.
Proof.
  rewrite shell_specials_chars, orb_true_iff, negb_true_iff, truthy_false.
  rewrite existsb_exists. unfold needs_quoting.
  split; (intros [H|(c & Hc & Hs)]; [by left|right; exists c]).
  - split; [by apply list_elem_of_In | by apply char_in_spec].
  - split; [by apply list_elem_of_In | by apply char_in_spec].
Qed.

(** C9.  A token is put between double quotes, its own double quotes
    escaped by a backslash, exactly when it is empty or holds one of the
    eighteen listed characters; any other token is returned as it is.  The
    empty token becomes a pair of double quotes. *)
Theorem shell_quote_spec (s : string) :
  (needs_quoting s → _shell_quote s = quoted s)
  ∧ (¬ needs_quoting s → _shell_quote s = s)
  ∧ _shell_quote EmptyString = String PyStr.dquote (String PyStr.dquote EmptyString).
Proof.
  unfold _shell_quote. split; [|split; [|reflexivity]].
  - intros H. apply needs_quoting_spec in H. by rewrite H.
  - intros H.
    destruct (negb (PyStr.truthy s) || _) eqn:E; [|done].
    by apply needs_quoting_spec in E.
Qed.

(** A token with a space, which needs quoting, and one that does not. *)
Lemma shell_quote_spec_witness :
  _shell_quote "a b" = quoted "a b" ∧ _shell_quote "--style" = "--style".
Proof.
  split.
  - apply (shell_quote_spec "a b"). right. exists " "%char.
    split; [apply list_elem_of_here|].
    apply char_in_spec. reflexivity.
  - apply (shell_quote_spec "--style").
    intros H. apply needs_quoting_spec in H. vm_compute in H. discriminate.
Defined.

(** ** The visible files *)

Lemma contains_spec (sub s : string) :
  PyStr.contains sub s = true ↔ occurs_in sub s.
Proof.
  unfold occurs_in. induction s as [|c s IH].
  - cbn [PyStr.contains]. rewrite orb_false_r, prefix_spec. split.
    + intros [r Hr]. by exists EmptyString, r.
    + intros (pre & post & H). destruct pre; [by exists post|discriminate].
  - cbn [PyStr.contains]. rewrite orb_true_iff, IH, prefix_spec. split.
    + intros [[r Hr]|(pre & post & ->)].
      * by exists EmptyString, r.
      * by exists (String c pre), post.
    + intros (pre & post & H). destruct pre as [|a pre].
      * left. by exists post.
      * right. simpl in H. inversion H. by exists pre, post.
Qed.

Lemma is_ignored_path_spec (st : Frame) (p : Path) :
  _is_ignored_path st p = true ↔ ignored st p.
Proof. apply matches_patterns_fold. Qed.

Lemma elem_of_filter_bool {A : Type} (f : A → bool) (l : list A) (x : A) :
  x ∈ List.filter f l ↔ x ∈ l ∧ f x = true.
Proof. rewrite !list_elem_of_In. apply filter_In. Qed.

Lemma sublist_filter_bool {A : Type} (f : A → bool) (l : list A) :
  sublist (List.filter f l) l.
Proof.
  induction l as [|x l IH]; simpl; [constructor|].
  destruct (f x); by constructor.
Qed.

Lemma filter_bool_idemp {A : Type} (f g : A → bool) (l : list A) :
  List.filter g (List.filter f l) = List.filter (fun x => f x && g x) l.
Proof.
  induction l as [|x l IH]; simpl; [done|].
  destruct (f x); simpl; [destruct (g x)|]; by rewrite ?IH.
Qed.

Lemma reload_files_list_eq (st : Frame) :
  _reload_files_list st = with_visible_files st (visible_of st).
Proof.
  unfold _reload_files_list, visible_of. rewrite or_else_empty. cbv zeta.
  destruct (PyStr.truthy _) eqn:E; cbn [negb orb]; f_equal.
  - apply filter_bool_idemp.
  - apply filter_ext. intros p. by rewrite andb_true_r.
Qed.

Lemma visible_files_reload (st : Frame) :
  _visible_files (_reload_files_list st) = visible_of st.
Proof. by rewrite reload_files_list_eq. Qed.

(** C3, as the code has it.  After [_reload_files_list] the visible files
    are the discovered files, in their order, that no ignore pattern covers,
    that are not excluded, and that hold the filter text, case apart, when
    the filter text stripped of its surrounding whitespace is not empty.
    With no exclusion and no filter these are the discovered files that no
    pattern covers. *)
Theorem reload_files_list_spec (st : Frame) :
  (∀ p, p ∈ _visible_files (_reload_files_list st)
        ↔ shown st (PyStr.strip (filter_input st)) p)
  ∧ sublist (_visible_files (_reload_files_list st)) (_all_files st)
  ∧ _visible_files
      (_reload_files_list
         (with_filter_input (with_excluded_files_set st ∅) EmptyString))
    = List.filter (fun p => negb (_matches_patterns (PurePath.str p) (_ignore_patterns st)))
                  (_all_files st).
Proof.
  split; [|split].
  - intros p. rewrite visible_files_reload. unfold visible_of.
    rewrite elem_of_filter_bool. unfold shown.
    rewrite !andb_true_iff, orb_true_iff, !negb_true_iff, contains_spec.
    rewrite bool_decide_eq_false, truthy_false.
    rewrite <- not_true_iff_false, is_ignored_path_spec.
    assert (PyStr.lower (PyStr.strip (filter_input st)) = EmptyString
            ↔ PyStr.strip (filter_input st) = EmptyString) as ->.
    { by destruct (PyStr.strip (filter_input st)). }
    tauto.
  - rewrite visible_files_reload. apply sublist_filter_bool.
  - rewrite visible_files_reload. unfold visible_of. apply filter_ext. intros p.
    cbn. unfold _is_ignored_path. cbn.
    rewrite bool_decide_eq_false_2 by apply not_elem_of_empty.
    by rewrite !andb_true_r.
Qed.

(** C3 as stated fails: a filter text made of one space is not empty, no
    path holds it, and yet the file stays visible, because the filter is
    stripped before it is used. *)
Lemma reload_files_list_counterexample :
  let st := with_filter_input (with_all_files initial_frame [["a.py"]]) " " in
  ¬ (∀ p, p ∈ _visible_files (_reload_files_list st) ↔ shown st (filter_input st) p).
Proof.
  intros st H.
  assert (Hin : ["a.py"] ∈ _visible_files (_reload_files_list st)).
  { vm_compute. apply list_elem_of_here. }
  apply H in Hin as (_ & _ & _ & [Hq|Hocc]).
  - vm_compute in Hq. discriminate.
  - apply contains_spec in Hocc. vm_compute in Hocc. discriminate.
Qed.

(** ** The order of paths *)

Lemma str_ltb_asym (a b : string) :
  String.ltb a b = true → String.ltb b a = false.
Proof.
  unfold String.ltb. rewrite (String.compare_antisym b a).
  by destruct (String.compare a b).
Qed.

Lemma path_ltb_asym (p q : Path) :
  PurePath.ltb p q = true → PurePath.ltb q p = false.
Proof.
  revert q. induction p as [|a p IH]; intros [|b q]; simpl; try done.
  rewrite (String.eqb_sym b a).
  destruct (String.eqb a b); [apply IH | apply str_ltb_asym].
Qed.

#[global] Instance path_le_total : Total PurePath.le.
Proof.
  intros p q. unfold PurePath.le.
  destruct (PurePath.ltb q p) eqn:E; [right|by left].
  by apply path_ltb_asym.
Qed.

Lemma sorted_paths_spec (l : list Path) :
  Sorted PurePath.le (PurePath.sorted l) ∧ PurePath.sorted l ≡ₚ l.
Proof.
  split; [apply (Sorted_merge_sort _) | apply merge_sort_Permutation].
Qed.

Lemma elem_of_sorted_paths (l : list Path) (p : Path) :
  p ∈ PurePath.sorted l ↔ p ∈ l.
Proof. by rewrite (proj2 (sorted_paths_spec l)). Qed.

Lemma sorted_paths_nil (l : list Path) : PurePath.sorted l = [] ↔ l = [].
Proof.
  split; [|by intros ->].
  intros H. symmetry. apply Permutation_nil_l.
  rewrite <- H. apply merge_sort_Permutation.
Qed.

(** ** The command *)

Lemma add_flag_app (value : bool) (flag : string) (cmd : list string) :
  add_flag value flag cmd = (cmd ++ flag_token value flag)%list.
Proof. destruct value; simpl; [done|by rewrite app_nil_r]. Qed.

Lemma valued_option_app (opt value : string) (cmd : list string) :
  (if PyStr.truthy value then (cmd ++ [opt; value])%list else cmd)
  = (cmd ++ valued_option opt value)%list.
Proof. destruct value; simpl; [by rewrite app_nil_r|done]. Qed.

Lemma ignore_option_app (patterns : list string) (excluded : gset Path)
      (cmd : list string) :
  let ignore_items : list string := [] in
  let ignore_items :=
    match patterns with
    | [] => ignore_items
    | _ => (ignore_items ++ patterns)%list
    end in
  let ignore_items :=
    if bool_decide (excluded = ∅) then ignore_items
    else (ignore_items
          ++ map PurePath.str (PurePath.sorted (elements excluded)))%list in
  match ignore_items with
  | [] => cmd
  | _ => (cmd ++ ["--ignore"; PyStr.join "," ignore_items])%list
  end = (cmd ++ ignore_option patterns excluded)%list.
Proof.
  cbv zeta. unfold ignore_option.
  assert (match patterns with [] => [] | _ :: _ => ([] ++ patterns)%list end
          = patterns) as -> by by destruct patterns.
  assert ((if bool_decide (excluded = ∅) then patterns
           else (patterns ++ map PurePath.str (PurePath.sorted (elements excluded)))%list)
          = (patterns ++ map PurePath.str (PurePath.sorted (elements excluded)))%list) as ->.
  { case_bool_decide as E; [|done]. rewrite E, elements_empty.
    by rewrite app_nil_r. }
  destruct (patterns ++ _)%list; [by rewrite app_nil_r|done].
Qed.

Lemma ignore_option_nil (patterns : list string) (excluded : gset Path) :
  ignore_option patterns excluded = [] ↔ patterns = [] ∧ excluded = ∅.
Proof.
  unfold ignore_option. split.
  - destruct (patterns ++ _)%list eqn:E; [|done]. intros _.
    apply app_eq_nil in E as [-> E]. split; [done|].
    apply map_eq_nil in E. apply (proj1 (sorted_paths_nil _)) in E.
    by apply leibniz_equiv, elements_empty_inv.
  - intros [-> ->]. by rewrite elements_empty.
Qed.

Lemma build_command_argv (st : Frame) :
  _build_command st
  = argv_of (PyStr.strip (PyStr.or_else (output_name st) "repomix_output.md"))
            (GetStringSelection (style_choice st))
            (checks st)
            (PyStr.strip (header_text st))
            (PyStr.strip (instructions_picker st))
            (_ignore_patterns st) (_excluded_files_set st).
Proof.
  unfold _build_command. cbv zeta.
  assert (PyStr.or_else (GetStringSelection (style_choice st)) "markdown"
          = GetStringSelection (style_choice st)) as ->
    by by destruct (style_choice st).
  rewrite ignore_option_app, !valued_option_app, !add_flag_app, !or_else_empty.
  assert (valued_option "--style" (GetStringSelection (style_choice st))
          = ["--style"; GetStringSelection (style_choice st)]) as ->
    by by destruct (style_choice st).
  unfold argv_of, flag_tokens. by rewrite <- !app_assoc.
Qed.

(** C4, as the code has it.  The argument vector is, in this order: the
    program name; [-o] and the output name, taken as [repomix_output.md]
    when the field is empty, stripped of surrounding whitespace, if
    something is left; [--style] and the style; one token per checked box
    in the order of declaration; [--header-text] and
    [--instruction-file-path] with their values stripped, each left out
    when nothing is left; [--ignore] with the patterns followed by the
    excluded paths in increasing order, joined by commas, left out when
    there is neither pattern nor excluded path.  The default frame with the
    pattern [.git] gives the command of the example. *)
Theorem build_command_spec (st : Frame) :
  _build_command st
  = argv_of (PyStr.strip (PyStr.or_else (output_name st) "repomix_output.md"))
            (GetStringSelection (style_choice st))
            (checks st)
            (PyStr.strip (header_text st))
            (PyStr.strip (instructions_picker st))
            (_ignore_patterns st) (_excluded_files_set st)
  ∧ Sorted PurePath.le (PurePath.sorted (elements (_excluded_files_set st)))
  ∧ PurePath.sorted (elements (_excluded_files_set st))
    ≡ₚ elements (_excluded_files_set st)
  ∧ (ignore_option (_ignore_patterns st) (_excluded_files_set st) = []
     ↔ _ignore_patterns st = [] ∧ _excluded_files_set st = ∅)
  ∧ _build_command (with_ignore_patterns initial_frame [".git"])
    = ["repomix"; "-o"; "repomix_output.md"; "--style"; "markdown";
       "--remove-empty-lines"; "--ignore"; ".git"].
Proof.
  split; [apply build_command_argv|].
  split; [apply sorted_paths_spec|].
  split; [apply sorted_paths_spec|].
  split; [apply ignore_option_nil|].
  by vm_compute.
Qed.

(** C4 as stated fails: with an empty output name and a header text of one
    space the code still passes [-o] with the default name and leaves out
    [--header-text], where the claim has no [-o] and a header option. *)
Lemma build_command_counterexample :
  let st := with_widgets initial_frame EmptyString EmptyString markdown " "
                         EmptyString initial_checks in
  _build_command st
  = ["repomix"; "-o"; "repomix_output.md"; "--style"; "markdown";
     "--remove-empty-lines"]
  ∧ argv_of (output_name st) (GetStringSelection (style_choice st)) (checks st)
            (header_text st) (instructions_picker st)
            (_ignore_patterns st) (_excluded_files_set st)
    = ["repomix"; "--style"; "markdown"; "--remove-empty-lines";
       "--header-text"; " "]
  ∧ _build_command st
    ≠ argv_of (output_name st) (GetStringSelection (style_choice st)) (checks st)
              (header_text st) (instructions_picker st)
              (_ignore_patterns st) (_excluded_files_set st).
Proof.
  intros st. split; [by vm_compute|]. split; [by vm_compute|].
  intros H. vm_compute in H. discriminate.
Qed.

(** ** Discovery *)

Lemma endswith_any_spec (s : string) (suffixes : list string) :
  endswith_any s suffixes = true ↔ has_suffix_in s suffixes.
Proof.
  unfold endswith_any, has_suffix_in. rewrite existsb_exists.
  split; intros (ext & Hin & H); exists ext.
  - split; [by apply list_elem_of_In | by apply endswith_spec].
  - split; [by apply list_elem_of_In | by apply endswith_spec].
Qed.

Lemma strip_parts_app (other p rel : Path) :
  PurePath.strip_parts other p = Some rel → p = (other ++ rel)%list.
Proof.
  revert p. induction other as [|a other IH]; intros p; simpl.
  - by intros [= ->].
  - destruct p as [|b p]; [done|].
    destruct (String.eqb a b) eqn:E; [|done].
    apply String.eqb_eq in E as ->. intros H. by rewrite (IH _ H).
Qed.

Lemma relative_to_app (p other rel : Path) :
  PurePath.relative_to p other = Some rel → p = (other ++ rel)%list.
Proof.
  unfold PurePath.relative_to. intros H.
  destruct other as [|a other].
  - destruct (PurePath.is_absolute p); by inversion H.
  - by apply strip_parts_app.
Qed.

Lemma relative_to_name (p other rel : Path) :
  PurePath.relative_to p other = Some rel →
  rel = [] ∨ PurePath.name rel = PurePath.name p.
Proof.
  intros ->%relative_to_app.
  destruct rel as [|b rel]; [by left|right].
  unfold PurePath.name. by rewrite last_app_cons.
Qed.

Lemma binary_suffix_nonempty (ext : string) :
  ext ∈ BINARY_SUFFIXES → ext ≠ EmptyString.
Proof.
  unfold BINARY_SUFFIXES. rewrite !elem_of_cons, elem_of_nil.
  intros H ->. repeat (destruct H as [H|H]; [discriminate|]). done.
Qed.

Lemma elem_of_discover_in (root dp : Path) (filenames : list string) (rel : Path) :
  rel ∈ discover_in root dp filenames
  ↔ ∃ name, name ∈ filenames
            ∧ endswith_any (PurePath.name (PurePath.joinpath dp name)) BINARY_SUFFIXES = false
            ∧ PurePath.relative_to (PurePath.joinpath dp name) root = Some rel.
Proof.
  unfold discover_in. rewrite list_elem_of_In, in_flat_map.
  split; intros (name & Hin & H); exists name.
  - split; [by apply list_elem_of_In|].
    destruct (endswith_any _ _); [by destruct H|]. split; [done|].
    destruct (PurePath.relative_to _ _); [|by destruct H].
    destruct H as [->|[]]. done.
  - split; [by apply list_elem_of_In|].
    destruct H as [-> ->]. by left.
Qed.

Lemma elem_of_discover_files (walk : list WalkEntry) (root rel : Path) :
  rel ∈ discover_files walk root
  ↔ ∃ dirpath dirnames filenames,
      (dirpath, dirnames, filenames) ∈ walk
      ∧ rel ∈ discover_in root (PurePath.of_str dirpath) filenames.
Proof.
  unfold discover_files. rewrite elem_of_sorted_paths, list_elem_of_In, in_flat_map.
  split.
  - intros ([[dirpath dirnames] filenames] & Hin & H).
    exists dirpath, dirnames, filenames.
    split; by apply list_elem_of_In.
  - intros (dirpath & dirnames & filenames & Hin & H).
    exists (dirpath, dirnames, filenames).
    split; by apply list_elem_of_In.
Qed.

(** C10.  The suffix test of [discover_files] compares characters as they
    are.  No discovered path has a name that ends with one of the eleven
    lowercase suffixes; a walked file under the root is discovered exactly
    when its name ends with none of them, whatever the case of its
    extension: [photo.PNG] is kept where [photo.png] is dropped. *)
Theorem discover_files_suffix_filter (walk : list WalkEntry) (root : Path) :
  (∀ rel, rel ∈ discover_files walk root →
          ¬ has_suffix_in (PurePath.name rel) BINARY_SUFFIXES)
  ∧ (∀ dirpath dirnames filenames name rel,
       (dirpath, dirnames, filenames) ∈ walk →
       name ∈ filenames →
       PurePath.relative_to (PurePath.joinpath (PurePath.of_str dirpath) name) root
       = Some rel →
       (rel ∈ discover_files walk root
        ↔ ¬ has_suffix_in
              (PurePath.name (PurePath.joinpath (PurePath.of_str dirpath) name))
              BINARY_SUFFIXES))
  ∧ discover_files [("/r", [], ["photo.PNG"; "photo.png"; "a.py"])] ["/"; "r"]
    = [["a.py"]; ["photo.PNG"]].
Proof.
  split; [|split].
  - intros rel (dirpath & dirnames & filenames & _ & H)%elem_of_discover_files.
    apply elem_of_discover_in in H as (name & _ & Hsuf & Hrel).
    intros Hrelsuf.
    destruct (relative_to_name _ _ _ Hrel) as [->|Hname].
    + destruct Hrelsuf as (ext & Hext & stem & Hstem).
      apply binary_suffix_nonempty in Hext.
      destruct stem, ext; done.
    + rewrite Hname in Hrelsuf. apply endswith_any_spec in Hrelsuf. congruence.
  - intros dirpath dirnames filenames name rel Hwalk Hname Hrel.
    split.
    + intros (d & ds & fs & _ & H)%elem_of_discover_files.
      apply elem_of_discover_in in H as (name' & _ & Hsuf & Hrel').
      apply relative_to_app in Hrel, Hrel'. rewrite Hrel, <- Hrel'.
      intros Hs. apply endswith_any_spec in Hs. congruence.
    + intros Hno. apply elem_of_discover_files.
      exists dirpath, dirnames, filenames. split; [done|].
      apply elem_of_discover_in. exists name. split; [done|]. split; [|done].
      destruct (endswith_any _ _) eqn:E; [|done].
      by apply endswith_any_spec in E.
  - by vm_compute.
Qed.

(** A walk with one file in upper-case extension, which is discovered. *)
Lemma discover_files_suffix_filter_witness :
  ["photo.PNG"] ∈ discover_files [("/r", [], ["photo.PNG"])] ["/"; "r"].
Proof.
  pose proof (discover_files_suffix_filter [("/r", [], ["photo.PNG"])] ["/"; "r"])
    as (_ & Hkeep & _).
  apply (Hkeep "/r" [] ["photo.PNG"] "photo.PNG" ["photo.PNG"]).
  - apply list_elem_of_here.
  - apply list_elem_of_here.
  - reflexivity.
  - intros H. apply endswith_any_spec in H. vm_compute in H. discriminate.
Defined.

(** ** Default ignores *)

Lemma sorted_defaults_eq :
  SORTED_DEFAULTS
  = [".git"; ".gitignore"; ".hg"; ".idea"; ".svn"; ".venv"; ".vscode";
     "__pycache__"; "build"; "dist"; "node_modules"; "uv.lock"].
Proof. by vm_compute. Qed.

Lemma sorted_defaults_nodup : NoDup SORTED_DEFAULTS.
Proof.
  rewrite sorted_defaults_eq.
  repeat (apply NoDup_cons; split;
          [rewrite ?elem_of_cons, elem_of_nil; intros H;
           repeat (destruct H as [H|H]; [discriminate|]); done|]).
  apply NoDup_nil_2.
Qed.

Lemma elem_of_sorted_defaults (d : string) :
  d ∈ SORTED_DEFAULTS ↔ d ∈ IGNORED_DIRS_DEFAULT.
Proof.
  unfold SORTED_DEFAULTS, sorted_strs.
  by rewrite (merge_sort_Permutation _ _), elem_of_elements.
Qed.

Lemma filter_bool_nil {A : Type} (f : A → bool) (l : list A) :
  (∀ x, x ∈ l → f x = false) → List.filter f l = [].
Proof.
  induction l as [|x l IH]; intros H; simpl; [done|].
  rewrite (H x) by apply list_elem_of_here.
  apply IH. intros y Hy. apply H. by apply list_elem_of_further.
Qed.

Lemma ensure_step_due (fs : FileSystem) (root : Path) (optout : gset string)
      (patterns : list string) (d : string) :
  ensure_step fs root optout (patterns, list_to_set patterns) d
  = if due fs root optout patterns d
    then ((patterns ++ [d])%list, list_to_set (patterns ++ [d])%list)
    else (patterns, list_to_set patterns).
Proof.
  unfold ensure_step, due. cbn [fst snd].
  assert (bool_decide (d ∉ (list_to_set patterns : gset string))
          = bool_decide (d ∉ patterns)) as ->.
  { apply bool_decide_ext. by rewrite elem_of_list_to_set. }
  destruct (path_exists fs (PurePath.joinpath root d)); cbn [andb]; [|done].
  destruct (bool_decide (d ∉ patterns) && bool_decide (d ∉ optout)); [|done].
  f_equal. rewrite list_to_set_app_L, (comm_L (∪)). cbn [list_to_set].
  by rewrite (right_id_L ∅ (∪)).
Qed.

Lemma due_ext (fs : FileSystem) (root : Path) (optout : gset string)
      (patterns : list string) (d : string) (ds : list string) :
  d ∉ ds →
  List.filter (due fs root optout (patterns ++ [d])%list) ds
  = List.filter (due fs root optout patterns) ds.
Proof.
  intros Hd. apply filter_ext_in. intros x Hx%list_elem_of_In.
  unfold due. f_equal. f_equal. apply bool_decide_ext.
  rewrite elem_of_app, list_elem_of_singleton. split; [tauto|].
  intros Hn [H| ->]; done.
Qed.

Lemma ensure_fold (fs : FileSystem) (root : Path) (optout : gset string)
      (ds : list string) (patterns : list string) :
  NoDup ds →
  foldl (ensure_step fs root optout) (patterns, list_to_set patterns) ds
  = ((patterns ++ List.filter (due fs root optout patterns) ds)%list,
     list_to_set (patterns ++ List.filter (due fs root optout patterns) ds)%list).
Proof.
  revert patterns. induction ds as [|d ds IH]; intros patterns Hnd.
  - simpl. by rewrite app_nil_r.
  - apply NoDup_cons in Hnd as [Hd Hnd].
    cbn [foldl List.filter]. rewrite ensure_step_due.
    destruct (due fs root optout patterns d).
    + rewrite IH, due_ext by done. by rewrite <- !app_assoc.
    + by apply IH.
Qed.

Lemma ensure_patterns (fs : FileSystem) (st : Frame) :
  _ensure_default_ignores_exist fs st
  = with_ignore_patterns st
      (_ignore_patterns st
       ++ added_defaults fs (root_path st) (_ignore_defaults_optout st)
                         (_ignore_patterns st))%list.
Proof.
  unfold _ensure_default_ignores_exist, added_defaults.
  destruct (root_path st) as [root|] eqn:E.
  - fold SORTED_DEFAULTS. by rewrite ensure_fold by apply sorted_defaults_nodup.
  - rewrite app_nil_r. by destruct st.
Qed.

Lemma elem_of_added_defaults (fs : FileSystem) (root : option Path)
      (optout : gset string) (patterns : list string) (d : string) :
  d ∈ added_defaults fs root optout patterns
  ↔ ∃ r, root = Some r
         ∧ d ∈ IGNORED_DIRS_DEFAULT
         ∧ path_exists fs (PurePath.joinpath r d) = true
         ∧ (d ∉ patterns) ∧ (d ∉ optout).
Proof.
  unfold added_defaults. destruct root as [r|].
  - rewrite elem_of_filter_bool, elem_of_sorted_defaults. unfold due.
    rewrite !andb_true_iff, !bool_decide_eq_true. split.
    + intros (? & (? & ?) & ?). by exists r.
    + intros (r' & [= <-] & ? & ? & ? & ?). done.
  - split; [by intros ?%elem_of_nil | by intros (r & ? & _)].
Qed.

Lemma added_defaults_nodup (fs : FileSystem) (root : option Path)
      (optout : gset string) (patterns : list string) :
  NoDup (added_defaults fs root optout patterns).
Proof.
  unfold added_defaults. destruct root as [r|]; [|apply NoDup_nil_2].
  apply NoDup_ListNoDup, List.NoDup_filter, NoDup_ListNoDup, sorted_defaults_nodup.
Qed.

Lemma filter_bool_nil_added (fs : FileSystem) (root : option Path)
      (optout : gset string) (patterns : list string) :
  (∀ d, d ∈ added_defaults fs root optout patterns → False) →
  added_defaults fs root optout patterns = [].
Proof.
  destruct (added_defaults fs root optout patterns) as [|d l]; [done|].
  intros H. destruct (H d). apply list_elem_of_here.
Qed.

Lemma added_defaults_settled (fs : FileSystem) (root : option Path)
      (optout : gset string) (patterns : list string) :
  added_defaults fs root optout
    (patterns ++ added_defaults fs root optout patterns)%list = [].
Proof.
  destruct root as [r|]; [|done]. cbn [added_defaults].
  apply filter_bool_nil. intros d Hd.
  destruct (due fs r optout (patterns ++ _)%list d) eqn:E; [|done].
  unfold due in E. apply andb_true_iff in E as [[He Hp]%andb_true_iff Ho].
  apply bool_decide_eq_true in Hp. destruct Hp.
  apply elem_of_app.
  destruct (decide (d ∈ patterns)) as [?|Hn]; [by left|right].
  apply elem_of_filter_bool. split; [done|]. unfold due.
  by rewrite He, Ho, bool_decide_eq_true_2.
Qed.

(** ** Rescan *)

Ltac frame_simpl :=
  cbn [dir_picker output_name style_choice filter_input header_text
       instructions_picker checks cmd_preview root_path _all_files
       _visible_files _excluded_files_set _ignore_patterns
       _ignore_defaults_optout with_widgets with_filter_input
       with_cmd_preview with_root_path with_all_files with_visible_files
       with_excluded_files_set with_ignore_patterns
       with_ignore_defaults_optout] in *.

Ltac frame_unfold :=
  unfold _update_cmd_preview, visible_of, _is_ignored_path;
  rewrite ?reload_files_list_eq, ?ensure_patterns, ?build_command_argv;
  unfold _update_cmd_preview, visible_of, _is_ignored_path;
  frame_simpl.

Lemma rescan_twice (fs : FileSystem) (st : Frame) :
  _rescan_and_update fs (_rescan_and_update fs st) = _rescan_and_update fs st.
Proof.
  destruct st as [d o s q h i c pv [root|] files vis ex pats opt]; [|done].
  unfold _rescan_and_update at 2. frame_simpl. frame_unfold.
  unfold _rescan_and_update. frame_simpl. frame_unfold.
  rewrite added_defaults_settled, app_nil_r. reflexivity.
Qed.

Lemma refresh_twice (fs : FileSystem) (st : Frame) :
  on_refresh fs (on_refresh fs st) = on_refresh fs st.
Proof.
  destruct st as [d o s q h i c pv [root|] files vis ex pats opt]; [|done].
  unfold on_refresh at 2. frame_simpl. frame_unfold.
  unfold on_refresh. frame_simpl. frame_unfold.
  rewrite added_defaults_settled, app_nil_r. reflexivity.
Qed.

Lemma rescan_patterns (fs : FileSystem) (st : Frame) :
  _ignore_patterns (_rescan_and_update fs st)
  = (_ignore_patterns st
     ++ added_defaults fs (root_path st) (_ignore_defaults_optout st)
                       (_ignore_patterns st))%list.
Proof.
  destruct st as [d o s q h i c pv [root|] files vis ex pats opt].
  - unfold _rescan_and_update. frame_simpl. frame_unfold. reflexivity.
  - cbn. by rewrite app_nil_r.
Qed.

Lemma rescan_keeps (fs : FileSystem) (st : Frame) :
  _excluded_files_set (_rescan_and_update fs st) = _excluded_files_set st
  ∧ _ignore_defaults_optout (_rescan_and_update fs st) = _ignore_defaults_optout st
  ∧ root_path (_rescan_and_update fs st) = root_path st.
Proof.
  destruct st as [d o s q h i c pv [root|] files vis ex pats opt]; [|done].
  unfold _rescan_and_update. frame_simpl. frame_unfold. done.
Qed.

(** C7.  A second rescan changes nothing: the frame after two rescans is
    the frame after one, so the visible files and the ignore patterns are
    the same, for [_rescan_and_update] and for [on_refresh] alike.  A rescan
    appends to the patterns the default names that exist under the root,
    are not yet among the patterns and are not opted out, each once and in
    sorted order; after it none is left to add. *)
Theorem rescan_idempotent (fs : FileSystem) (st : Frame) :
  _rescan_and_update fs (_rescan_and_update fs st) = _rescan_and_update fs st
  ∧ _visible_files (_rescan_and_update fs (_rescan_and_update fs st))
    = _visible_files (_rescan_and_update fs st)
  ∧ _ignore_patterns (_rescan_and_update fs (_rescan_and_update fs st))
    = _ignore_patterns (_rescan_and_update fs st)
  ∧ on_refresh fs (on_refresh fs st) = on_refresh fs st
  ∧ _ignore_patterns (_rescan_and_update fs st)
    = (_ignore_patterns st
       ++ added_defaults fs (root_path st) (_ignore_defaults_optout st)
                         (_ignore_patterns st))%list
  ∧ (∀ d, d ∈ added_defaults fs (root_path st) (_ignore_defaults_optout st)
                             (_ignore_patterns st)
          ↔ ∃ r, root_path st = Some r
                 ∧ d ∈ IGNORED_DIRS_DEFAULT
                 ∧ path_exists fs (PurePath.joinpath r d) = true
                 ∧ (d ∉ _ignore_patterns st)
                 ∧ (d ∉ _ignore_defaults_optout st))
  ∧ NoDup (added_defaults fs (root_path st) (_ignore_defaults_optout st)
                          (_ignore_patterns st))
  ∧ added_defaults fs (root_path st) (_ignore_defaults_optout st)
                   (_ignore_patterns (_rescan_and_update fs st)) = [].
Proof.
  split; [apply rescan_twice|].
  split; [by rewrite rescan_twice|].
  split; [by rewrite rescan_twice|].
  split; [apply refresh_twice|].
  split; [apply rescan_patterns|].
  split; [intros d; apply elem_of_added_defaults|].
  split; [apply added_defaults_nodup|].
  rewrite rescan_patterns. apply added_defaults_settled.
Qed.

(** ** Removing ignore patterns *)

Lemma replace_no_backslash (s : string) :
  PyStr.char_in "\" (PyStr.replace "\" "/" s) = false.
Proof.
  induction s as [|c s IH]; simpl; [done|].
  destruct (Ascii.eqb c "\") eqn:E; simpl; [done|]. by rewrite E.
Qed.

Lemma matches_any_spec (p : Path) (patterns : list string) :
  matches_any p patterns = true ↔ covered_by patterns p.
Proof.
  unfold matches_any, covered_by. rewrite matches_patterns_fold.
  by rewrite (replace_absent _ _ _ (replace_no_backslash _)).
Qed.

Lemma mapM_selected (sel : list nat) (l : list string) :
  Forall (fun i => i < length l) sel →
  mapM (fun i => l !! i) sel = Some (selected sel l).
Proof.
  intros H. apply mapM_Some. unfold selected.
  induction H as [|i sel Hi _ IH]; simpl; [constructor|].
  destruct (lookup_lt_is_Some_2 l i Hi) as [x Hx]. rewrite Hx.
  by constructor.
Qed.

Lemma without_from_nil (l : list string) (k : nat) : without_from k [] l = l.
Proof.
  revert k. induction l as [|x l IH]; intros k; simpl; [done|].
  by rewrite IH.
Qed.

Lemma without_from_skip (l : list string) (k i : nat) (sel : list nat) :
  i < k → without_from k (i :: sel) l = without_from k sel l.
Proof.
  revert k. induction l as [|x l IH]; intros k Hik; simpl; [done|].
  rewrite (IH (S k)) by lia.
  assert (bool_decide (k ∈ i :: sel) = bool_decide (k ∈ sel)) as ->; [|done].
  apply bool_decide_ext. rewrite elem_of_cons. split; [|tauto].
  intros [->|?]; [lia|done].
Qed.

Lemma without_from_head (l : list string) (k i : nat) (sel : list nat) (x : string) :
  Forall (fun j => i < j) sel → (k ≤ i)%nat →
  without_from k sel (x :: l) = x :: without_from (S k) sel l.
Proof.
  intros Hsel Hki. simpl. rewrite bool_decide_eq_false_2; [done|].
  intros Hk. rewrite Forall_forall in Hsel. apply Hsel in Hk. lia.
Qed.

Lemma without_from_lookup (l : list string) (k i : nat) (sel : list nat) :
  Forall (fun j => i < j) sel → (k ≤ i)%nat →
  without_from k sel l !! (i - k) = l !! (i - k).
Proof.
  revert k. induction l as [|x l IH]; intros k Hsel Hki; [done|].
  rewrite (without_from_head _ _ i) by done.
  destruct (decide (i = k)) as [->|Hne].
  - by rewrite Nat.sub_diag.
  - replace (i - k) with (S (i - S k)) by lia. cbn [lookup list_lookup].
    apply IH; [done|lia].
Qed.

Lemma without_from_delete (l : list string) (k i : nat) (sel : list nat) :
  Forall (fun j => i < j) sel → (k ≤ i)%nat →
  delete (i - k) (without_from k sel l) = without_from k (i :: sel) l.
Proof.
  revert k. induction l as [|x l IH]; intros k Hsel Hki; [done|].
  rewrite (without_from_head _ _ i) by done.
  destruct (decide (i = k)) as [->|Hne].
  - rewrite Nat.sub_diag. cbn [delete list_delete without_from].
    rewrite bool_decide_eq_true_2 by apply list_elem_of_here.
    symmetry. apply without_from_skip. lia.
  - replace (i - k) with (S (i - S k)) by lia.
    cbn [delete list_delete without_from].
    rewrite IH by (done || lia).
    rewrite bool_decide_eq_false_2; [done|].
    rewrite elem_of_cons. intros [?|Hk]; [lia|].
    rewrite Forall_forall in Hsel. apply Hsel in Hk. lia.
Qed.

Lemma pop_unselected (l : list string) (i : nat) (sel : list nat) :
  Forall (fun j => i < j) sel → i < length l →
  pop i (unselected sel l) = Some (unselected (i :: sel) l).
Proof.
  intros Hsel Hi. unfold pop, unselected.
  pose proof (without_from_lookup l 0 i sel Hsel (Nat.le_0_l i)) as Hl.
  pose proof (without_from_delete l 0 i sel Hsel (Nat.le_0_l i)) as Hd.
  rewrite Nat.sub_0_r in Hl, Hd.
  destruct (lookup_lt_is_Some_2 l i Hi) as [x Hx].
  rewrite Hx in Hl. apply lookup_lt_Some in Hl.
  rewrite decide_True by done. by rewrite Hd.
Qed.

Lemma pops_unselected (l : list string) (sel : list nat) :
  StronglySorted lt sel → Forall (fun i => i < length l) sel →
  foldl (fun acc i => acc ≫= pop i) (Some l) (reverse sel)
  = Some (unselected sel l).
Proof.
  intros Hs. induction Hs as [|i sel Hs IH Hi]; intros Hr.
  - cbn. unfold unselected. by rewrite without_from_nil.
  - apply Forall_cons in Hr as [Hil Hr].
    rewrite reverse_cons, foldl_app, IH by done. cbn [foldl mbind option_bind].
    by apply pop_unselected.
Qed.

Lemma selected_unselected_perm (l : list string) (sel : list nat) :
  StronglySorted lt sel → Forall (fun i => i < length l) sel →
  l ≡ₚ (selected sel l ++ unselected sel l)%list.
Proof.
  intros Hs. induction Hs as [|i sel Hs IH Hi]; intros Hr.
  - cbn. unfold unselected. by rewrite without_from_nil.
  - apply Forall_cons in Hr as [Hil Hr].
    destruct (lookup_lt_is_Some_2 l i Hil) as [x Hx].
    unfold selected. cbn [omap list_omap]. rewrite Hx. cbn [app].
    fold (selected sel l).
    pose proof (without_from_lookup l 0 i sel Hi (Nat.le_0_l i)) as Hl.
    pose proof (without_from_delete l 0 i sel Hi (Nat.le_0_l i)) as Hd.
    rewrite Nat.sub_0_r in Hl, Hd. rewrite Hx in Hl.
    fold (unselected sel l) in Hl, Hd. fold (unselected (i :: sel) l) in Hd.
    rewrite (IH Hr) at 1. rewrite (delete_Permutation _ _ _ Hl), Hd.
    by rewrite Permutation_middle.
Qed.

Lemma foldl_discard (X : gset Path) (ps : list Path) (p : Path) :
  p ∈ foldl (fun s q => s ∖ {[q]}) X ps ↔ p ∈ X ∧ p ∉ ps.
Proof.
  revert X. induction ps as [|q ps IH]; intros X; cbn [foldl].
  - split; [intros H; split; [done|apply not_elem_of_nil] | by intros [? _]].
  - rewrite IH, elem_of_difference, elem_of_singleton, not_elem_of_cons. tauto.
Qed.

Lemma foldl_optout (O : gset string) (removed : list string) (d : string) :
  d ∈ foldl (fun s rp => if bool_decide (rp ∈ IGNORED_DIRS_DEFAULT)
                         then {[rp]} ∪ s else s) O removed
  ↔ d ∈ O ∨ (d ∈ removed ∧ d ∈ IGNORED_DIRS_DEFAULT).
Proof.
  revert O. induction removed as [|rp removed IH]; intros O; cbn [foldl].
  - split; [by left | intros [?|[?%elem_of_nil _]]; done].
  - rewrite IH, elem_of_cons. case_bool_decide as E.
    + rewrite elem_of_union, elem_of_singleton. split.
      * intros [[->|?]|[? ?]]; auto.
      * intros [?|[[->|?] ?]]; auto.
    + split.
      * intros [?|[? ?]]; auto.
      * intros [?|[[->|?] ?]]; auto. done.
Qed.

(** C6.  For a selection of valid indices in increasing order, as the list
    box reports it, [on_remove_ignore] succeeds; the pattern list splits
    into the selected entries and the others, and the others are what
    stays, in their order, followed by the default names that the rescan at
    the end of the handler finds due (none in a frame that a rescan has
    already settled); the opt-out set gains exactly the removed patterns
    that are default names; the exclusion set loses exactly the files that
    a removed pattern covers and no remaining pattern covers. *)
Theorem remove_ignore_spec (fs : FileSystem) (sel : list nat) (st : Frame)
  (Hsorted : StronglySorted lt sel)
  (Hrange : Forall (fun i => i < length (_ignore_patterns st)) sel) :
  let removed := selected sel (_ignore_patterns st) in
  let remaining := unselected sel (_ignore_patterns st) in
  ∃ st', on_remove_ignore fs sel st = Some st'
    ∧ _ignore_patterns st ≡ₚ (removed ++ remaining)%list
    ∧ _ignore_patterns st'
      = (remaining
         ++ added_defaults fs (root_path st) (_ignore_defaults_optout st') remaining)%list
    ∧ (added_defaults fs (root_path st) (_ignore_defaults_optout st)
                      (_ignore_patterns st) = []
       → _ignore_patterns st' = remaining)
    ∧ (∀ d, d ∈ _ignore_defaults_optout st'
            ↔ d ∈ _ignore_defaults_optout st
              ∨ (d ∈ removed ∧ d ∈ IGNORED_DIRS_DEFAULT))
    ∧ (∀ p, p ∈ _excluded_files_set st'
            ↔ p ∈ _excluded_files_set st
              ∧ ¬ (covered_by removed p ∧ ¬ covered_by remaining p)).
Proof.
  intros removed remaining.
  pose proof (selected_unselected_perm _ _ Hsorted Hrange) as Hperm.
  fold removed remaining in Hperm.
  unfold on_remove_ignore.
  rewrite (mapM_selected _ _ Hrange), (pops_unselected _ _ Hsorted Hrange).
  cbn [mbind option_bind]. fold removed remaining.
  eexists. split; [reflexivity|].
  match goal with
  | |- context [_rescan_and_update fs ?s3] =>
      destruct (rescan_keeps fs s3) as (Hex & Hopt & _)
  end.
  rewrite rescan_patterns, Hex, Hopt. frame_simpl.
  assert (Hoptout : ∀ d, d ∈ foldl (fun s rp => if bool_decide (rp ∈ IGNORED_DIRS_DEFAULT)
                                               then {[rp]} ∪ s else s)
                                  (_ignore_defaults_optout st) removed
                    ↔ d ∈ _ignore_defaults_optout st
                      ∨ (d ∈ removed ∧ d ∈ IGNORED_DIRS_DEFAULT))
    by apply foldl_optout.
  split; [done|]. split; [done|]. split; [|split; [done|]].
  - intros Hsettled.
    rewrite (filter_bool_nil_added fs (root_path st) _ remaining), app_nil_r; [done|].
    intros d (r & Hr & Hd & He & Hnrem & Hnopt)%elem_of_added_defaults.
    rewrite Hoptout in Hnopt.
    assert (d ∈ added_defaults fs (root_path st) (_ignore_defaults_optout st)
                               (_ignore_patterns st)) as Hin.
    { apply elem_of_added_defaults. exists r. repeat split; try done.
      - rewrite Hperm, elem_of_app. intros [?|?]; [|done].
        apply Hnopt. by right.
      - intros ?. apply Hnopt. by left. }
    rewrite Hsettled in Hin. by apply elem_of_nil in Hin.
  - intros p. rewrite foldl_discard, elem_of_filter_bool, elem_of_elements.
    rewrite andb_true_iff, negb_true_iff, <- not_true_iff_false.
    rewrite !matches_any_spec. tauto.
Qed.

(** The example frame with a second pattern, from which the first one is
    removed: the premises of [remove_ignore_spec] hold. *)
Lemma remove_ignore_spec_witness :
  let st := with_ignore_patterns example_frame [".git"; "*.md"] in
  ∃ st', on_remove_ignore example_fs [0] st = Some st'
    ∧ _ignore_patterns st ≡ₚ (selected [0] (_ignore_patterns st)
                              ++ unselected [0] (_ignore_patterns st))%list
    ∧ _ignore_patterns st'
      = (unselected [0] (_ignore_patterns st)
         ++ added_defaults example_fs (root_path st) (_ignore_defaults_optout st')
                           (unselected [0] (_ignore_patterns st)))%list
    ∧ (added_defaults example_fs (root_path st) (_ignore_defaults_optout st)
                      (_ignore_patterns st) = []
       → _ignore_patterns st' = unselected [0] (_ignore_patterns st))
    ∧ (∀ d, d ∈ _ignore_defaults_optout st'
            ↔ d ∈ _ignore_defaults_optout st
              ∨ (d ∈ selected [0] (_ignore_patterns st) ∧ d ∈ IGNORED_DIRS_DEFAULT))
    ∧ (∀ p, p ∈ _excluded_files_set st'
            ↔ p ∈ _excluded_files_set st
              ∧ ¬ (covered_by (selected [0] (_ignore_patterns st)) p
                   ∧ ¬ covered_by (unselected [0] (_ignore_patterns st)) p)).
Proof.
  intros st.
  apply (remove_ignore_spec example_fs [0] st).
  - apply SSorted_cons; [apply SSorted_nil | apply Forall_nil_2].
  - apply Forall_cons. split; [vm_compute; lia | apply Forall_nil_2].
Defined.

(** ** State cache *)

Lemma checks_of_flags_of (c : Checks) : checks_of (flags_of c) = c.
Proof. destruct c. reflexivity. Qed.

Lemma find_string_selection (s : Style) :
  FindString (GetStringSelection s) = Some s.
Proof. by destruct s. Qed.

Lemma refresh_fields (fs : FileSystem) (st : Frame) :
  dir_picker (on_refresh fs st) = dir_picker st
  ∧ output_name (on_refresh fs st) = output_name st
  ∧ style_choice (on_refresh fs st) = style_choice st
  ∧ header_text (on_refresh fs st) = header_text st
  ∧ instructions_picker (on_refresh fs st) = instructions_picker st
  ∧ checks (on_refresh fs st) = checks st
  ∧ root_path (on_refresh fs st) = root_path st
  ∧ _ignore_defaults_optout (on_refresh fs st) = _ignore_defaults_optout st
  ∧ _ignore_patterns (on_refresh fs st)
    = (_ignore_patterns st
       ++ added_defaults fs (root_path st) (_ignore_defaults_optout st)
                         (_ignore_patterns st))%list
  ∧ _excluded_files_set (on_refresh fs st)
    = match root_path st with Some _ => ∅ | None => _excluded_files_set st end.
Proof.
  destruct st as [d o s q h i c pv [root|] files vis ex pats opt].
  - unfold on_refresh. frame_simpl. frame_unfold. done.
  - cbn. by rewrite app_nil_r.
Qed.

(** What [_restore_state] makes of any cache object. *)
Lemma restore_fields (fs : FileSystem) (data : StateJson) (cur : Frame) :
  let st' := _restore_state fs (Some data) cur in
  let usable := dir_usable fs (default EmptyString (j_last_dir data)) in
  dir_picker st' = (if usable then default EmptyString (j_last_dir data)
                    else dir_picker cur)
  ∧ root_path st'
    = (if usable then Some (path_resolve fs (default EmptyString (j_last_dir data)))
       else root_path cur)
  ∧ output_name st' = get_or (j_output_name data) (output_name cur)
  ∧ style_choice st'
    = default (style_choice cur) (FindString (get_or (j_style data) "markdown"))
  ∧ header_text st' = get_or (j_header_text data) EmptyString
  ∧ instructions_picker st'
    = PyStr.or_else (get_or (j_instruction_file_path data) EmptyString)
                    (instructions_picker cur)
  ∧ checks st' = checks_of (default ∅ (j_flags data))
  ∧ _ignore_defaults_optout st'
    = list_to_set (default [] (j_ignore_defaults_optout data))
  ∧ _ignore_patterns st'
    = (default [] (j_ignore_patterns data)
       ++ added_defaults fs (root_path st')
            (list_to_set (default [] (j_ignore_defaults_optout data)))
            (default [] (j_ignore_patterns data)))%list
  ∧ _excluded_files_set st'
    = match root_path st' with
      | Some _ => ∅
      | None => list_to_set (map PurePath.of_str (default [] (j_excluded_files data)))
      end.
Proof.
  intros st' usable. subst st' usable. unfold _restore_state, dir_usable.
  destruct cur as [d o s q h i c pv root files vis ex pats opt]. frame_simpl.
  destruct (PyStr.truthy _ && path_is_dir fs _); cbv beta iota zeta.
  - frame_simpl.
    match goal with
    | |- context [on_refresh fs ?s1] =>
        destruct (refresh_fields fs s1)
          as (H1 & H2 & H3 & H4 & H5 & H6 & H7 & H8 & H9 & H10)
    end.
    rewrite H1, H2, H3, H4, H5, H6, H7, H8, H9, H10. frame_simpl.
    unfold PyStr.or_else. done.
  - frame_simpl. destruct root as [r|].
    + match goal with
      | |- context [on_refresh fs ?s1] =>
          destruct (refresh_fields fs s1)
            as (H1 & H2 & H3 & H4 & H5 & H6 & H7 & H8 & H9 & H10)
      end.
      rewrite H1, H2, H3, H4, H5, H6, H7, H8, H9, H10. frame_simpl.
      unfold PyStr.or_else. done.
    + frame_simpl. rewrite app_nil_r. unfold PyStr.or_else. done.
Qed.

(** The exclusions read from the cache do not outlive the refresh that ends
    [_restore_state] when a root is set. *)
Lemma restore_drops_exclusions (fs : FileSystem) (st cur : Frame) :
  let st' := _restore_state fs (Some (_persist_state st)) cur in
  (is_Some (root_path st') → _excluded_files_set st' = ∅)
  ∧ _excluded_files_set
      (_restore_state example_fs
         (Some (_persist_state (with_excluded_files_set example_frame {[ ["a.py"] ]})))
         initial_frame) = ∅.
Proof.
  intros st'. split; [|by vm_compute].
  destruct (restore_fields fs (_persist_state st) cur)
    as (_ & _ & _ & _ & _ & _ & _ & _ & _ & Hex).
  fold st' in Hex. intros [r Hr]. by rewrite Hex, Hr.
Qed.

(** C5, as the code has it.  Loading what [_persist_state] wrote restores
    the check boxes, the style, the header text and the opt-out set to the
    saved values; the output name and the instruction file path when the
    saved value is not empty, the current value staying otherwise; the
    directory and the root resolved from it when the saved directory is not
    empty and still is a directory; the ignore patterns, to which the
    refresh that ends the load appends the default names that are due.  A
    key that is absent leaves the current value (directory, output name,
    instruction file path) or gives the default (style [markdown], empty
    header, all boxes unchecked but remove-empty-lines, no pattern, no
    opt-out); remove-empty-lines is checked whenever its key is absent.
    Without a cache file the frame is unchanged. *)
Theorem restore_persist_spec (fs : FileSystem) (st cur : Frame) :
  let st' := _restore_state fs (Some (_persist_state st)) cur in
  let usable := dir_usable fs (dir_picker st) in
  (checks st' = checks st
   ∧ style_choice st' = style_choice st
   ∧ header_text st' = header_text st
   ∧ _ignore_defaults_optout st' = _ignore_defaults_optout st
   ∧ output_name st' = PyStr.or_else (output_name st) (output_name cur)
   ∧ instructions_picker st'
     = PyStr.or_else (instructions_picker st) (instructions_picker cur)
   ∧ dir_picker st' = (if usable then dir_picker st else dir_picker cur)
   ∧ root_path st'
     = (if usable then Some (path_resolve fs (dir_picker st)) else root_path cur)
   ∧ _ignore_patterns st'
     = (_ignore_patterns st
        ++ added_defaults fs (root_path st') (_ignore_defaults_optout st)
                          (_ignore_patterns st))%list)
  ∧ (∀ data,
       let r := _restore_state fs (Some data) cur in
       (j_last_dir data = None →
        dir_picker r = dir_picker cur ∧ root_path r = root_path cur)
       ∧ (j_output_name data = None → output_name r = output_name cur)
       ∧ (j_style data = None → style_choice r = markdown)
       ∧ (j_header_text data = None → header_text r = EmptyString)
       ∧ (j_instruction_file_path data = None →
          instructions_picker r = instructions_picker cur)
       ∧ (j_flags data = None → checks r = initial_checks)
       ∧ (∀ flags, j_flags data = Some flags →
                   flags !! "remove_empty" = None →
                   cb_remove_empty (checks r) = true)
       ∧ (j_ignore_defaults_optout data = None → _ignore_defaults_optout r = ∅)
       ∧ (j_ignore_patterns data = None →
          _ignore_patterns r
          = added_defaults fs (root_path r) (_ignore_defaults_optout r) []))
  ∧ _restore_state fs None cur = cur.
Proof.
  intros st' usable. split; [|split; [|done]].
  - destruct (restore_fields fs (_persist_state st) cur)
      as (Hd & Hr & Ho & Hs & Hh & Hi & Hc & Hopt & Hp & _).
    fold st' in Hd, Hr, Ho, Hs, Hh, Hi, Hc, Hopt, Hp.
    cbn [_persist_state j_last_dir j_output_name j_style j_header_text
         j_instruction_file_path j_flags j_ignore_patterns
         j_ignore_defaults_optout default get_or]
      in Hd, Hr, Ho, Hs, Hh, Hi, Hc, Hopt, Hp.
    unfold id in Hd, Hr, Hc, Hopt, Hp.
    fold usable in Hd, Hr.
    rewrite checks_of_flags_of in Hc.
    rewrite list_to_set_elements_L in Hopt, Hp.
    assert (PyStr.or_else (GetStringSelection (style_choice st)) "markdown"
            = GetStringSelection (style_choice st)) as Hsty
      by by destruct (style_choice st).
    rewrite Hsty, find_string_selection in Hs.
    rewrite !or_else_empty in Hh, Hi.
    done.
  - intros data r.
    destruct (restore_fields fs data cur)
      as (Hd & Hr & Ho & Hs & Hh & Hi & Hc & Hopt & Hp & _).
    fold r in Hd, Hr, Ho, Hs, Hh, Hi, Hc, Hopt, Hp.
    split; [intros E; by rewrite Hd, Hr, E|].
    split; [intros E; by rewrite Ho, E|].
    split; [intros E; by rewrite Hs, E|].
    split; [intros E; by rewrite Hh, E|].
    split; [intros E; rewrite Hi, E; by destruct (instructions_picker cur)|].
    split; [intros E; by rewrite Hc, E|].
    split; [intros flags E Hno; rewrite Hc, E; cbn; unfold flag_get; by rewrite Hno|].
    split; [intros E; by rewrite Hopt, E|].
    intros E. by rewrite Hp, Hopt, E.
Qed.

(** A cache object whose flags lack the remove-empty-lines key, at which
    the premises of [restore_persist_spec] about absent keys hold. *)
Lemma restore_persist_spec_witness :
  cb_remove_empty
    (checks (_restore_state example_fs
               (Some {| j_last_dir := None; j_output_name := None;
                        j_style := None; j_header_text := None;
                        j_instruction_file_path := None;
                        j_flags := Some {[ "compress" := true ]};
                        j_ignore_patterns := None;
                        j_ignore_defaults_optout := None;
                        j_excluded_files := None |})
               initial_frame)) = true
  ∧ output_name (_restore_state example_fs (Some no_keys) initial_frame)
    = "repomix_output.md".
Proof.
  pose proof (restore_persist_spec example_fs initial_frame initial_frame)
    as (_ & Habsent & _).
  split.
  - eapply (Habsent _); [reflexivity | reflexivity].
  - apply (Habsent no_keys). reflexivity.
Defined.

(** C5 as stated fails: a frame saved with an empty output name comes back
    with the name the frame had before the load. *)
Lemma restore_persist_counterexample :
  let st := with_widgets example_frame "/r" EmptyString markdown EmptyString
                         EmptyString initial_checks in
  output_name (_restore_state example_fs (Some (_persist_state st)) initial_frame)
  ≠ output_name st.
Proof. intros st H. vm_compute in H. discriminate. Qed.

(** ** Further properties of the matcher *)

Lemma matches_loop_app (ps : string) (l1 l2 : list string) :
  _matches_patterns_loop ps (l1 ++ l2)%list
  = _matches_patterns_loop ps l1 || _matches_patterns_loop ps l2.
Proof.
  induction l1 as [|raw l1 IH]; [done|].
  cbn [app]. rewrite !matches_loop_cons, IH. by rewrite orb_assoc.
Qed.

Lemma bool_eq_iff (a b : bool) : (a = true ↔ b = true) → a = b.
Proof.
  destruct a, b; intros [H1 H2]; try done.
  - symmetry. by apply H1.
  - by apply H2.
Qed.

(** X1.  The answer of the matcher depends on the set of patterns only:
    two lists with the same entries, in any order and any number of
    copies, give the same answer, and a list put after another adds its
    answer by disjunction. *)
Theorem matches_patterns_set (path : string) (l1 l2 l3 : list string)
  (Hsame : ∀ raw, raw ∈ l1 ↔ raw ∈ l2) :
  _matches_patterns path l1 = _matches_patterns path l2
  ∧ _matches_patterns path (l1 ++ l3)%list
    = _matches_patterns path l1 || _matches_patterns path l3.
Proof.
  split; [|apply matches_loop_app].
  apply bool_eq_iff. rewrite !matches_patterns_fold. unfold some_pattern_covers.
  split; intros (raw & Hin & Hc); exists raw; (split; [by apply Hsame|done]).
Qed.

(** Two lists with the same patterns, one of them with a repeat. *)
Lemma matches_patterns_set_witness :
  _matches_patterns "a/b.py" ["*.py"; "dist"; "*.py"]
  = _matches_patterns "a/b.py" ["dist"; "*.py"]
  ∧ _matches_patterns "a/b.py" (["*.py"; "dist"; "*.py"] ++ [".git"])%list
    = _matches_patterns "a/b.py" ["*.py"; "dist"; "*.py"]
      || _matches_patterns "a/b.py" [".git"].
Proof.
  apply (matches_patterns_set "a/b.py" ["*.py"; "dist"; "*.py"] ["dist"; "*.py"]).
  intros raw. rewrite !elem_of_cons, elem_of_nil. tauto.
Defined.

Lemma lstrip_replace (s : string) :
  PyStr.lstrip (PyStr.replace "\" "/" s) = PyStr.replace "\" "/" (PyStr.lstrip s).
Proof.
  induction s as [|c s IH]; [done|].
  cbn [PyStr.replace PyStr.lstrip append].
  destruct (Ascii.eqb c "\") eqn:E.
  - apply Ascii.eqb_eq in E as ->. cbn. reflexivity.
  - cbn [PyStr.lstrip]. destruct (PyStr.isspace c); [done|].
    cbn [PyStr.replace]. by rewrite E.
Qed.

Lemma replace_empty_iff (s : string) :
  PyStr.replace "\" "/" s = EmptyString ↔ s = EmptyString.
Proof.
  destruct s as [|c s]; [done|]. cbn.
  destruct (Ascii.eqb c "\"); split; discriminate.
Qed.

Lemma rstrip_replace (s : string) :
  PyStr.rstrip (PyStr.replace "\" "/" s) = PyStr.replace "\" "/" (PyStr.rstrip s).
Proof.
  induction s as [|c s IH]; [done|].
  cbn [PyStr.replace PyStr.rstrip append].
  destruct (Ascii.eqb c "\") eqn:E.
  - apply Ascii.eqb_eq in E as ->. cbn [PyStr.rstrip append]. rewrite IH.
    destruct (PyStr.rstrip s) as [|a r] eqn:Er; cbn; [done|].
    by destruct (Ascii.eqb a "\").
  - cbn [PyStr.rstrip]. rewrite IH.
    destruct (PyStr.rstrip s) as [|a r] eqn:Er; cbn [PyStr.replace].
    + destruct (PyStr.isspace c); [done|]. cbn [PyStr.replace]. by rewrite E.
    + rewrite E. by destruct (Ascii.eqb a "\").
Qed.

Lemma replace_idemp (s : string) :
  PyStr.replace "\" "/" (PyStr.replace "\" "/" s) = PyStr.replace "\" "/" s.
Proof. apply replace_absent, replace_no_backslash. Qed.

Lemma normalize_glob_fold (raw : string) :
  _normalize_glob (PyStr.replace "\" "/" raw) = _normalize_glob raw.
Proof.
  unfold _normalize_glob, PyStr.strip. rewrite !or_else_empty.
  by rewrite lstrip_replace, rstrip_replace, replace_idemp.
Qed.

Lemma char_in_drop (c : ascii) (n : nat) (s : string) :
  PyStr.char_in c s = false → PyStr.char_in c (PyStr.drop n s) = false.
Proof.
  revert s. induction n as [|n IH]; intros s; [done|].
  destruct s as [|a s]; [done|]. cbn [PyStr.drop PyStr.char_in].
  intros [_ H]%orb_false_iff. by apply IH.
Qed.

Lemma char_in_drop_last (c : ascii) (s : string) :
  PyStr.char_in c s = false → PyStr.char_in c (PyStr.drop_last s) = false.
Proof.
  induction s as [|a s IH]; [done|]. cbn [PyStr.char_in PyStr.drop_last].
  intros [Ha H]%orb_false_iff. destruct s as [|b s]; [done|].
  cbn [PyStr.char_in]. rewrite Ha. by apply IH.
Qed.

Lemma normalize_glob_no_backslash (raw : string) :
  PyStr.char_in "\" (_normalize_glob raw) = false.
Proof.
  unfold _normalize_glob.
  assert (H : PyStr.char_in "\"
                (PyStr.removeprefix "./"
                   (PyStr.replace "\" "/" (PyStr.strip (PyStr.or_else raw EmptyString))))
              = false).
  { unfold PyStr.removeprefix.
    destruct (PyStr.startswith _ _);
      [apply char_in_drop|]; apply replace_no_backslash. }
  destruct (_ && _); [by apply char_in_drop_last | done].
Qed.

(** X2.  Backslashes count as slashes on both sides: folding the
    backslashes of the path or of the patterns beforehand changes no
    answer of the matcher, and a normalized pattern holds no backslash. *)
Theorem matches_patterns_backslash (path : string) (patterns : list string) :
  _matches_patterns (PyStr.replace "\" "/" path) patterns
  = _matches_patterns path patterns
  ∧ _matches_patterns path (map (PyStr.replace "\" "/") patterns)
    = _matches_patterns path patterns
  ∧ Forall (fun raw => PyStr.char_in "\" (_normalize_glob raw) = false) patterns.
Proof.
  split; [|split].
  - unfold _matches_patterns. by rewrite replace_idemp.
  - unfold _matches_patterns. generalize (PyStr.replace "\" "/" path). intros ps.
    induction patterns as [|raw l IH]; [done|].
    cbn [map]. by rewrite !matches_loop_cons, normalize_glob_fold, IH.
  - apply Forall_forall. intros raw _. apply normalize_glob_no_backslash.
Qed.

Lemma scan_literal (pat : string) (res : list Fnmatch.tok) :
  is_literal pat = true →
  Fnmatch.scan 0 res (list_ascii_of_string pat)
  = (rev res ++ map Fnmatch.Lit (list_ascii_of_string pat))%list.
Proof.
  revert res. induction pat as [|c pat IH]; intros res.
  - intros _. cbn. by rewrite app_nil_r.
  - unfold is_literal. cbn [PyStr.char_in list_ascii_of_string Fnmatch.scan map].
    rewrite !negb_orb, !andb_true_iff, !negb_true_iff.
    intros [[[Hs Hs'] [Hq Hq']] [Hb Hb']].
    unfold Fnmatch.is_char. rewrite Hs, Hq, Hb.
    rewrite IH.
    + cbn [rev]. by rewrite <- app_assoc.
    + unfold is_literal. by rewrite Hs', Hq', Hb'.
Qed.

Lemma matches_lits (l s : list ascii) :
  Fnmatch.matches (map Fnmatch.Lit l) s = true ↔ s = l.
Proof.
  revert s. induction l as [|a l IH]; intros s.
  - destruct s; cbn; split; congruence.
  - destruct s as [|c s]; cbn [map Fnmatch.matches Fnmatch.tok_accepts].
    + split; discriminate.
    + rewrite andb_true_iff, IH, Ascii.eqb_eq. split.
      * by intros [-> ->].
      * by intros [= -> ->].
Qed.

Lemma list_ascii_inj (s t : string) :
  list_ascii_of_string s = list_ascii_of_string t → s = t.
Proof.
  intros H. rewrite <- (string_of_list_ascii_of_string s),
              <- (string_of_list_ascii_of_string t). by rewrite H.
Qed.

Lemma fnmatch_literal (name pat : string) :
  is_literal pat = true → (Fnmatch.fnmatch name pat = true ↔ name = pat).
Proof.
  intros Hlit. unfold Fnmatch.fnmatch, Fnmatch.fnmatchcase, Fnmatch.translate.
  rewrite (scan_literal _ [] Hlit). cbn [rev app]. rewrite matches_lits.
  split; [apply list_ascii_inj | by intros ->].
Qed.

(** X3.  A pattern without glob characters covers a path exactly when it
    is the path, or when it has no slash and the path lies below the entry
    of that name at the top.  With a slash in it, it covers one path and
    nothing below. *)
Theorem literal_pattern_spec (path raw : string)
  (Hlit : is_literal (_normalize_glob raw) = true)
  (Hne : _normalize_glob raw ≠ EmptyString) :
  _matches_patterns path [raw] = true
  ↔ PyStr.replace "\" "/" path = _normalize_glob raw
    ∨ (PyStr.char_in "/" (_normalize_glob raw) = false
       ∧ ∃ rest, PyStr.replace "\" "/" path = _normalize_glob raw ++ "/" ++ rest).
Proof.
  unfold _matches_patterns. rewrite matches_loop_cons. cbn [_matches_patterns_loop].
  rewrite orb_false_r, covers_b_spec. unfold pattern_covers.
  rewrite (fnmatch_literal _ _ Hlit). tauto.
Qed.

(** A directory name and a path with a slash, both without glob
    characters. *)
Lemma literal_pattern_spec_witness :
  _matches_patterns "src/gen/a.py" ["src/gen"] = false
  ∧ _matches_patterns "build/x/y.o" ["build/"] = true.
Proof.
  split.
  - apply not_true_iff_false. intros H.
    apply (literal_pattern_spec "src/gen/a.py" "src/gen") in H;
      [|reflexivity|discriminate].
    destruct H as [H|[H _]]; vm_compute in H; discriminate.
  - apply (literal_pattern_spec "build/x/y.o" "build/"); [reflexivity|discriminate|].
    right. split; [reflexivity|]. by exists "x/y.o".
Defined.

(** ** Further properties of the command *)

Lemma replace_dquote_head (s r : string) :
  PyStr.replace PyStr.dquote (String "\" (String PyStr.dquote EmptyString)) s
  ≠ String PyStr.dquote r.
Proof.
  destruct s as [|c s]; [done|]. cbn.
  destruct (Ascii.eqb c PyStr.dquote) eqn:E; cbn.
  - discriminate.
  - intros [= -> _]. by rewrite Ascii.eqb_refl in E.
Qed.

Lemma replace_dquote_inj (s t : string) :
  PyStr.replace PyStr.dquote (String "\" (String PyStr.dquote EmptyString)) s
  = PyStr.replace PyStr.dquote (String "\" (String PyStr.dquote EmptyString)) t
  → s = t.
Proof.
  revert t. induction s as [|c s IH]; intros [|d t]; cbn [PyStr.replace].
  - done.
  - destruct (Ascii.eqb d PyStr.dquote); discriminate.
  - destruct (Ascii.eqb c PyStr.dquote); discriminate.
  - destruct (Ascii.eqb c PyStr.dquote) eqn:Ec, (Ascii.eqb d PyStr.dquote) eqn:Ed;
      cbn [append].
    + apply Ascii.eqb_eq in Ec as ->. apply Ascii.eqb_eq in Ed as ->.
      intros [= H]. by rewrite (IH _ H).
    + intros [= <- H]. symmetry in H. by apply replace_dquote_head in H.
    + intros [= -> H]. by apply replace_dquote_head in H.
    + intros [= -> H]. by rewrite (IH _ H).
Qed.

Lemma shell_quote_cases (s : string) :
  (needs_quoting s ∧ _shell_quote s = quoted s)
  ∨ (¬ needs_quoting s ∧ _shell_quote s = s).
Proof.
  unfold _shell_quote.
  destruct (negb (PyStr.truthy s) || _) eqn:E.
  - left. split; [by apply needs_quoting_spec | done].
  - right. split; [|done]. intros H. apply needs_quoting_spec in H. congruence.
Qed.

Lemma unquoted_no_dquote (s r : string) :
  ¬ needs_quoting s → s ≠ String PyStr.dquote r.
Proof.
  intros Hn ->. apply Hn. right. exists PyStr.dquote. split.
  - unfold QUOTED_CHARS. rewrite !elem_of_cons. auto.
  - apply list_elem_of_here.
Qed.

(** X4.  The rendering of a token tells the token: two tokens with the
    same rendering are the same token, and no rendering is empty. *)
Theorem shell_quote_injective (s t : string)
  (Hsame : _shell_quote s = _shell_quote t) :
  s = t ∧ _shell_quote s ≠ EmptyString.
Proof.
  split.
  - destruct (shell_quote_cases s) as [[Hs Es]|[Hs Es]],
             (shell_quote_cases t) as [[Ht Et]|[Ht Et]];
      rewrite Es, Et in Hsame.
    + unfold quoted in Hsame. injection Hsame as Hsame.
      destruct (snoc_inj _ _ _ _ Hsame) as [H _]. by apply replace_dquote_inj.
    + symmetry in Hsame. by apply unquoted_no_dquote in Hsame.
    + by apply unquoted_no_dquote in Hsame.
    + done.
  - destruct (shell_quote_cases s) as [[Hs Es]|[Hs Es]]; rewrite Es.
    + discriminate.
    + intros ->. apply Hs. by left.
Qed.

(** A token with a double quote in it. *)
Lemma shell_quote_injective_witness :
  String "a" (String PyStr.dquote "b") = String "a" (String PyStr.dquote "b")
  ∧ _shell_quote (String "a" (String PyStr.dquote "b")) ≠ EmptyString.
Proof.
  apply (shell_quote_injective (String "a" (String PyStr.dquote "b"))
                               (String "a" (String PyStr.dquote "b"))).
  reflexivity.
Defined.

Lemma join_cons2 (sep x y : string) (l : list string) :
  PyStr.join sep (x :: y :: l) = x ++ sep ++ PyStr.join sep (y :: l).
Proof. reflexivity. Qed.

Lemma join_comma_split (l1 l2 : list string) (a b : string) :
  PyStr.join "," (l1 ++ [(a ++ "," ++ b)%string] ++ l2)%list
  = PyStr.join "," (l1 ++ [a; b] ++ l2)%list.
Proof.
  induction l1 as [|x l1 IH].
  - cbn [app]. destruct l2 as [|y l2].
    + reflexivity.
    + rewrite !join_cons2. by rewrite !app_assoc_str.
  - cbn [app] in *.
    destruct l1 as [|z l1]; cbn [app] in *; rewrite !join_cons2; by rewrite IH.
Qed.

Lemma ignore_option_comma (l1 l2 : list string) (a b : string)
      (excluded : gset Path) :
  ignore_option (l1 ++ [(a ++ "," ++ b)%string] ++ l2)%list excluded
  = ignore_option (l1 ++ [a; b] ++ l2)%list excluded.
Proof.
  unfold ignore_option. rewrite <- !app_assoc.
  pose proof (join_comma_split l1
                (l2 ++ map PurePath.str (PurePath.sorted (elements excluded)))%list
                a b) as H.
  destruct l1 as [|x l1]; cbn [app] in *; by rewrite H.
Qed.

(** X5.  The value of [--ignore] is a plain join by commas: a pattern
    with a comma in it gives the same command as the two patterns on
    either side of the comma. *)
Theorem build_command_comma (st : Frame) (l1 l2 : list string) (a b : string)
  (Hpat : _ignore_patterns st = (l1 ++ [(a ++ "," ++ b)%string] ++ l2)%list) :
  _build_command st
  = _build_command (with_ignore_patterns st (l1 ++ [a; b] ++ l2)%list).
Proof.
  rewrite !build_command_argv. frame_simpl. rewrite Hpat.
  unfold argv_of. by rewrite ignore_option_comma.
Qed.

(** A frame with the one pattern [a,b]. *)
Lemma build_command_comma_witness :
  _build_command (with_ignore_patterns initial_frame ["a,b"])
  = _build_command (with_ignore_patterns
                      (with_ignore_patterns initial_frame ["a,b"]) ["a"; "b"]).
Proof.
  apply (build_command_comma (with_ignore_patterns initial_frame ["a,b"])
                             [] [] "a" "b").
  reflexivity.
Defined.

(** ** What a rescan establishes *)

Lemma discovered_no_suffix (walk : list WalkEntry) (root rel : Path) :
  rel ∈ discover_files walk root →
  ¬ has_suffix_in (PurePath.name rel) BINARY_SUFFIXES.
Proof.
  intros (dirpath & dirnames & filenames & _ & H)%elem_of_discover_files.
  apply elem_of_discover_in in H as (name & _ & Hsuf & Hrel).
  intros Hrelsuf.
  destruct (relative_to_name _ _ _ Hrel) as [->|Hname].
  - destruct Hrelsuf as (ext & Hext & stem & Hstem).
    apply binary_suffix_nonempty in Hext.
    destruct stem, ext; done.
  - rewrite Hname in Hrelsuf. apply endswith_any_spec in Hrelsuf. congruence.
Qed.

Lemma rescan_frame (fs : FileSystem) (st : Frame) (root : Path) :
  root_path st = Some root →
  let st' := _rescan_and_update fs st in
  _all_files st' = discover_files (os_walk fs root) root
  ∧ _visible_files st' = visible_of st'
  ∧ cmd_preview st' = PyStr.join " " (map _shell_quote (_build_command st'))
  ∧ _excluded_files_set st' = _excluded_files_set st
  ∧ filter_input st' = filter_input st.
Proof.
  destruct st as [d o s q h i c pv r files vis ex pats opt]. cbn [root_path].
  intros ->. unfold _rescan_and_update. frame_simpl. frame_unfold. done.
Qed.

Lemma elem_of_visible_of (st : Frame) (p : Path) :
  p ∈ visible_of st
  ↔ p ∈ _all_files st
    ∧ _is_ignored_path st p = false
    ∧ (p ∉ _excluded_files_set st)
    ∧ (PyStr.lower (PyStr.strip (filter_input st)) = EmptyString
       ∨ PyStr.contains (PyStr.lower (PyStr.strip (filter_input st)))
                        (PyStr.lower (PurePath.str p)) = true).
Proof.
  unfold visible_of. rewrite elem_of_filter_bool.
  rewrite !andb_true_iff, orb_true_iff, !negb_true_iff.
  rewrite bool_decide_eq_false, truthy_false. tauto.
Qed.

(** X6.  After a rescan with a root set, the files are those of the
    discovery under the root; every visible file is a discovered file that
    no pattern covers, that is not excluded and whose name has none of the
    binary suffixes; the preview is the rendering of the command of the
    frame as it now is; every default name that exists under the root and
    is not opted out is among the patterns. *)
Theorem rescan_establishes (fs : FileSystem) (st : Frame) (root : Path)
  (Hroot : root_path st = Some root) :
  let st' := _rescan_and_update fs st in
  _all_files st' = discover_files (os_walk fs root) root
  ∧ (∀ p, p ∈ _visible_files st' →
          p ∈ _all_files st'
          ∧ ¬ ignored st' p
          ∧ (p ∉ _excluded_files_set st')
          ∧ ¬ has_suffix_in (PurePath.name p) BINARY_SUFFIXES)
  ∧ cmd_preview st' = PyStr.join " " (map _shell_quote (_build_command st'))
  ∧ (∀ d, d ∈ IGNORED_DIRS_DEFAULT →
          path_exists fs (PurePath.joinpath root d) = true →
          d ∉ _ignore_defaults_optout st →
          d ∈ _ignore_patterns st').
Proof.
  intros st'.
  destruct (rescan_frame fs st root Hroot) as (Hfiles & Hvis & Hprev & _ & _).
  fold st' in Hfiles, Hvis, Hprev.
  split; [done|]. split; [|split; [done|]].
  - intros p Hp. rewrite Hvis in Hp.
    apply elem_of_visible_of in Hp as (Hin & Hign & Hex & _).
    split; [done|]. split; [|split; [done|]].
    + rewrite <- is_ignored_path_spec. congruence.
    + rewrite Hfiles in Hin. by apply discovered_no_suffix in Hin.
  - intros d Hd He Ho. subst st'. rewrite rescan_patterns, elem_of_app.
    destruct (decide (d ∈ _ignore_patterns st)) as [?|Hn]; [by left|right].
    apply elem_of_added_defaults. exists root. done.
Qed.

(** The example frame, whose root is set. *)
Lemma rescan_establishes_witness :
  ".git" ∈ _ignore_patterns (_rescan_and_update example_fs example_frame).
Proof.
  pose proof (rescan_establishes example_fs example_frame ["/"; "r"] eq_refl)
    as (_ & _ & _ & Hdefaults).
  apply Hdefaults.
  - vm_compute. reflexivity.
  - reflexivity.
  - vm_compute. intros H. discriminate H.
Defined.

Lemma default_name_plain (d : string) :
  d ∈ IGNORED_DIRS_DEFAULT →
  _normalize_glob d = d
  ∧ PyStr.char_in "/" d = false
  ∧ PyStr.char_in "\" d = false
  ∧ d ≠ EmptyString.
Proof.
  rewrite <- elem_of_sorted_defaults, sorted_defaults_eq.
  rewrite !elem_of_cons, elem_of_nil.
  intros H. repeat (destruct H as [->|H]; [by vm_compute|]). done.
Qed.

Lemma replace_app (a : ascii) (t x y : string) :
  PyStr.replace a t (x ++ y) = PyStr.replace a t x ++ PyStr.replace a t y.
Proof.
  induction x as [|c x IH]; [done|]. cbn [append PyStr.replace].
  destruct (Ascii.eqb c a); rewrite IH; [by rewrite app_assoc_str | done].
Qed.

Lemma char_in_head (c : ascii) (s : string) :
  PyStr.char_in c s = false → PyStr.startswith s (String c EmptyString) = false.
Proof.
  destruct s as [|a s]; [done|]. cbn [PyStr.char_in].
  intros [Ha _]%orb_false_iff. unfold PyStr.startswith.
  change (String.prefix (String c EmptyString) (String a s))
    with (if ascii_dec c a then String.prefix EmptyString s else false).
  destruct (ascii_dec c a) as [->|]; [|done].
  by rewrite Ascii.eqb_refl in Ha.
Qed.

Lemma str_below (d : string) (rest : Path) :
  PyStr.char_in "/" d = false →
  PurePath.str (d :: rest) = d
  ∨ ∃ tail, PurePath.str (d :: rest) = d ++ "/" ++ tail.
Proof.
  intros Hd. unfold PurePath.str, PurePath.is_anchor.
  rewrite (char_in_head _ _ Hd).
  destruct rest as [|x rest]; [by left|right].
  by exists (PyStr.join "/" (x :: rest)).
Qed.

Lemma default_covers (d : string) (rest : Path) (patterns : list string) :
  d ∈ IGNORED_DIRS_DEFAULT → d ∈ patterns →
  covered_by patterns (d :: rest).
Proof.
  intros Hd Hin. destruct (default_name_plain d Hd) as (Hn & Hs & Hb & Hne).
  exists d. split; [done|]. rewrite Hn. split; [done|].
  destruct (str_below d rest Hs) as [->|[tail ->]].
  - left. by apply replace_absent.
  - right. right. split; [done|].
    rewrite !replace_app, (replace_absent _ _ d Hb). by eexists.
Qed.

(** X7.  After a rescan, nothing at or below a default name that exists
    under the root and is not opted out is visible. *)
Theorem default_entries_hidden (fs : FileSystem) (st : Frame) (root : Path)
  (d : string) (rest : Path)
  (Hroot : root_path st = Some root)
  (Hd : d ∈ IGNORED_DIRS_DEFAULT)
  (He : path_exists fs (PurePath.joinpath root d) = true)
  (Ho : d ∉ _ignore_defaults_optout st) :
  (d :: rest) ∉ _visible_files (_rescan_and_update fs st).
Proof.
  destruct (rescan_frame fs st root Hroot) as (_ & Hvis & _).
  rewrite Hvis. intros (_ & Hign & _)%elem_of_visible_of.
  apply not_true_iff_false in Hign. apply Hign.
  apply is_ignored_path_spec. apply default_covers; [done|].
  rewrite rescan_patterns, elem_of_app.
  destruct (decide (d ∈ _ignore_patterns st)) as [?|Hn]; [by left|right].
  apply elem_of_added_defaults. exists root. done.
Qed.

(** The repository directory of the example, which exists and is not
    opted out. *)
Lemma default_entries_hidden_witness :
  [".git"; "config"] ∉ _visible_files (_rescan_and_update example_fs example_frame).
Proof.
  apply (default_entries_hidden example_fs example_frame ["/"; "r"] ".git" ["config"]).
  - reflexivity.
  - vm_compute. reflexivity.
  - reflexivity.
  - vm_compute. intros H. discriminate H.
Defined.

(** ** Adding and removing a pattern *)

Lemma strip_all_space (s : string) :
  all_space s = true → PyStr.strip s = EmptyString.
Proof. intros H. unfold PyStr.strip. by rewrite lstrip_all_space. Qed.

Lemma add_ignore_run (fs : FileSystem) (input : string) (st : Frame) :
  PyStr.strip input ≠ EmptyString →
  on_add_ignore fs input st
  = _rescan_and_update fs
      (with_ignore_defaults_optout
         (with_ignore_patterns st (_ignore_patterns st ++ [PyStr.strip input])%list)
         (if bool_decide (PyStr.strip input ∈ IGNORED_DIRS_DEFAULT)
             && bool_decide (PyStr.strip input ∈ _ignore_defaults_optout st)
          then _ignore_defaults_optout st ∖ {[PyStr.strip input]}
          else _ignore_defaults_optout st)).
Proof.
  intros Hne%truthy_true. unfold on_add_ignore. rewrite Hne. cbv zeta.
  destruct st as [d o s q h i c pv r files vis ex pats opt]. frame_simpl.
  by destruct (_ && _).
Qed.

Lemma add_ignore_optout (input : string) (O : gset string) (d : string) :
  d ∈ (if bool_decide (PyStr.strip input ∈ IGNORED_DIRS_DEFAULT)
          && bool_decide (PyStr.strip input ∈ O)
       then O ∖ {[PyStr.strip input]} else O)
  ↔ d ∈ O ∧ ¬ (d = PyStr.strip input ∧ PyStr.strip input ∈ IGNORED_DIRS_DEFAULT).
Proof.
  destruct (bool_decide (_ ∈ IGNORED_DIRS_DEFAULT)) eqn:E1;
    [apply bool_decide_eq_true in E1 | apply bool_decide_eq_false in E1];
    cbn [andb].
  - destruct (bool_decide (_ ∈ O)) eqn:E2;
      [apply bool_decide_eq_true in E2 | apply bool_decide_eq_false in E2].
    + rewrite elem_of_difference, elem_of_singleton. tauto.
    + split; [|tauto]. intros Hd. split; [done|]. intros [-> _]. done.
  - tauto.
Qed.

(** X8.  [on_add_ignore] with a text that is not blank appends the
    stripped text to the patterns, a copy or an opted-out default name
    included, and takes that name out of the opt-out set if it is a default
    name; the exclusions stay; with a root set, no file that the new
    pattern covers is visible afterwards.  A blank text changes nothing. *)
Theorem add_ignore_spec (fs : FileSystem) (input : string) (st : Frame)
  (Hne : PyStr.strip input ≠ EmptyString) :
  let p := PyStr.strip input in
  let st' := on_add_ignore fs input st in
  _ignore_patterns st'
  = ((_ignore_patterns st ++ [p])
     ++ added_defaults fs (root_path st) (_ignore_defaults_optout st')
                       (_ignore_patterns st ++ [p]))%list
  ∧ (∀ d, d ∈ _ignore_defaults_optout st'
          ↔ d ∈ _ignore_defaults_optout st ∧ ¬ (d = p ∧ p ∈ IGNORED_DIRS_DEFAULT))
  ∧ _excluded_files_set st' = _excluded_files_set st
  ∧ (is_Some (root_path st) →
     ∀ q, q ∈ _visible_files st' → ¬ covered_by [p] q)
  ∧ (∀ blank, all_space blank = true → on_add_ignore fs blank st = st).
Proof.
  intros p st'. subst st'. rewrite (add_ignore_run _ _ _ Hne). fold p.
  match goal with
  | |- context [_rescan_and_update fs ?s1] =>
      destruct (rescan_keeps fs s1) as (Hex & Hopt & Hr);
      pose proof (rescan_patterns fs s1) as Hpat;
      set (st1 := s1) in *
  end.
  rewrite Hpat, Hex, Hopt. subst st1. frame_simpl.
  split; [done|]. split; [apply add_ignore_optout|]. split; [done|]. split.
  - intros [root Hroot] q Hq Hcov.
    match type of Hq with
    | context [_rescan_and_update fs ?s1] =>
        destruct (rescan_frame fs s1 root Hroot) as (_ & Hvis & _)
    end.
    rewrite Hvis in Hq. apply elem_of_visible_of in Hq as (_ & Hign & _).
    apply not_true_iff_false in Hign. apply Hign, is_ignored_path_spec.
    unfold ignored. rewrite Hpat. frame_simpl.
    destruct Hcov as (raw & ->%list_elem_of_singleton & Hc).
    exists p. split; [|done].
    rewrite !elem_of_app, list_elem_of_singleton. auto.
  - intros blank Hb. unfold on_add_ignore. by rewrite (strip_all_space _ Hb).
Qed.

(** A pattern typed with spaces around it, added to the example frame. *)
Lemma add_ignore_spec_witness :
  _excluded_files_set (on_add_ignore example_fs " *.py " example_frame)
  = _excluded_files_set example_frame.
Proof.
  pose proof (add_ignore_spec example_fs " *.py " example_frame) as H.
  apply H. vm_compute. discriminate.
Defined.

Lemma remove_ignore_run (fs : FileSystem) (sel : list nat) (st : Frame) :
  StronglySorted lt sel →
  Forall (fun i => i < length (_ignore_patterns st)) sel →
  let removed := selected sel (_ignore_patterns st) in
  let remaining := unselected sel (_ignore_patterns st) in
  ∃ st3,
    on_remove_ignore fs sel st = Some (_rescan_and_update fs st3)
    ∧ _ignore_patterns st3 = remaining
    ∧ root_path st3 = root_path st
    ∧ (∀ d, d ∈ _ignore_defaults_optout st3
            ↔ d ∈ _ignore_defaults_optout st
              ∨ (d ∈ removed ∧ d ∈ IGNORED_DIRS_DEFAULT))
    ∧ (∀ p, p ∈ _excluded_files_set st3
            ↔ p ∈ _excluded_files_set st
              ∧ ¬ (covered_by removed p ∧ ¬ covered_by remaining p)).
Proof.
  intros Hsorted Hrange removed remaining. unfold on_remove_ignore.
  rewrite (mapM_selected _ _ Hrange), (pops_unselected _ _ Hsorted Hrange).
  cbn [mbind option_bind]. fold removed remaining.
  eexists. split; [reflexivity|]. frame_simpl.
  split; [done|]. split; [done|]. split; [apply foldl_optout|].
  intros p. rewrite foldl_discard, elem_of_filter_bool, elem_of_elements.
  rewrite andb_true_iff, negb_true_iff, <- not_true_iff_false.
  rewrite !matches_any_spec. tauto.
Qed.

Lemma without_from_last (l : list string) (k : nat) (p : string) :
  without_from k [k + length l] (l ++ [p])%list = l.
Proof.
  revert k. induction l as [|x l IH]; intros k; cbn [app length without_from].
  - rewrite Nat.add_0_r.
    by rewrite bool_decide_eq_true_2 by apply list_elem_of_here.
  - rewrite bool_decide_eq_false_2.
    + replace (k + S (length l)) with (S k + length l) by lia. by rewrite IH.
    + rewrite list_elem_of_singleton. lia.
Qed.

Lemma unselected_last (l : list string) (p : string) :
  unselected [length l] (l ++ [p])%list = l.
Proof. exact (without_from_last l 0 p). Qed.

Lemma selected_last (l : list string) (p : string) :
  selected [length l] (l ++ [p])%list = [p].
Proof.
  unfold selected. cbn [omap list_omap].
  by rewrite lookup_app_r, Nat.sub_diag by lia.
Qed.

(** X9.  In a frame whose defaults are settled, adding a pattern and then
    removing it, as the last entry of the list, gives back the pattern
    list; the exclusion set loses the files that the pattern covers and no
    other pattern covers; the opt-out set gains the pattern if it is a
    default name. *)
Theorem add_then_remove (fs : FileSystem) (input : string) (st : Frame)
  (Hne : PyStr.strip input ≠ EmptyString)
  (Hsettled : added_defaults fs (root_path st) (_ignore_defaults_optout st)
                             (_ignore_patterns st) = []) :
  let p := PyStr.strip input in
  ∃ st2,
    on_remove_ignore fs [length (_ignore_patterns st)] (on_add_ignore fs input st)
    = Some st2
    ∧ _ignore_patterns (on_add_ignore fs input st) = (_ignore_patterns st ++ [p])%list
    ∧ _ignore_patterns st2 = _ignore_patterns st
    ∧ (∀ q, q ∈ _excluded_files_set st2
            ↔ q ∈ _excluded_files_set st
              ∧ ¬ (covered_by [p] q ∧ ¬ covered_by (_ignore_patterns st) q))
    ∧ (∀ d, d ∈ _ignore_defaults_optout st2
            ↔ d ∈ _ignore_defaults_optout st ∨ (d = p ∧ p ∈ IGNORED_DIRS_DEFAULT)).
Proof.
  intros p. subst p.
  assert (Hdue : ∀ O pats,
             (∀ d, d ∈ IGNORED_DIRS_DEFAULT → d ∉ pats → d ∉ O →
                   (d ∉ _ignore_patterns st) ∧ (d ∉ _ignore_defaults_optout st)) →
             added_defaults fs (root_path st) O pats = []).
  { intros O pats H. apply filter_bool_nil_added.
    intros d (r & Hr & Hd & He & Hnp & Hno)%elem_of_added_defaults.
    destruct (H d Hd Hnp Hno) as [H1 H2].
    assert (d ∈ added_defaults fs (root_path st) (_ignore_defaults_optout st)
                               (_ignore_patterns st)) as Hin
      by (apply elem_of_added_defaults; by exists r).
    rewrite Hsettled in Hin. by apply elem_of_nil in Hin. }
  set (st1 := on_add_ignore fs input st).
  assert (H1 : _ignore_patterns st1 = (_ignore_patterns st ++ [PyStr.strip input])%list
               ∧ root_path st1 = root_path st
               ∧ _excluded_files_set st1 = _excluded_files_set st
               ∧ (∀ d, d ∈ _ignore_defaults_optout st1
                       ↔ d ∈ _ignore_defaults_optout st
                         ∧ ¬ (d = PyStr.strip input ∧ PyStr.strip input ∈ IGNORED_DIRS_DEFAULT))).
  { subst st1. rewrite (add_ignore_run _ _ _ Hne).
    match goal with
    | |- context [_rescan_and_update fs ?s1] =>
        destruct (rescan_keeps fs s1) as (Hex & Hopt & Hr);
        pose proof (rescan_patterns fs s1) as Hpat
    end.
    rewrite Hpat, Hex, Hopt, Hr. frame_simpl.
    split; [|split; [done|split; [done|apply add_ignore_optout]]].
    rewrite Hdue; [by rewrite app_nil_r|].
    intros d Hd Hnp Hno. rewrite add_ignore_optout in Hno.
    rewrite not_elem_of_app, list_elem_of_singleton in Hnp.
    destruct Hnp as [Hnp Hdp]. split; [done|]. intros Hin. apply Hno.
    split; [done|]. by intros [? _]. }
  destruct H1 as (Hp1 & Hr1 & Hx1 & Ho1).
  destruct (remove_ignore_run fs [length (_ignore_patterns st)] st1)
    as (st3 & Hrun & Hp3 & Hr3 & Ho3 & Hx3).
  { apply SSorted_cons; [apply SSorted_nil | apply Forall_nil_2]. }
  { apply Forall_cons. split; [|apply Forall_nil_2].
    rewrite Hp1, length_app. cbn. lia. }
  rewrite Hp1 in Hp3, Ho3, Hx3. rewrite selected_last in Ho3, Hx3.
  rewrite unselected_last in Hp3, Hx3.
  exists (_rescan_and_update fs st3). split; [done|]. split; [done|].
  destruct (rescan_keeps fs st3) as (Hex & Hopt & _).
  rewrite rescan_patterns, Hex, Hopt, Hp3, Hr3, Hr1.
  split; [|split].
  - rewrite Hdue; [by rewrite app_nil_r|].
    intros d Hd Hnp Hno. split; [done|]. intros Hin. apply Hno, Ho3.
    destruct (decide (d = PyStr.strip input)) as [->|Hdp].
    + right. split; [apply list_elem_of_here | done].
    + left. apply Ho1. split; [done|]. by intros [? _].
  - intros q. rewrite Hx3, Hx1. done.
  - intros d. rewrite Ho3, Ho1, list_elem_of_singleton.
    destruct (decide (d = PyStr.strip input ∧ PyStr.strip input ∈ IGNORED_DIRS_DEFAULT)) as [[-> ?]|Hn].
    + split; [by right | by intros; right].
    + split.
      * intros [[? _]|[-> ?]]; [by left|]. by right.
      * intros [?|[? ?]]; [by left | by destruct Hn].
Qed.

(** The example frame, settled by its refresh, and a glob for the text
    files. *)
Lemma add_then_remove_witness :
  ∃ st2,
    on_remove_ignore example_fs [length (_ignore_patterns example_frame)]
                     (on_add_ignore example_fs "*.txt" example_frame)
    = Some st2
    ∧ _ignore_patterns st2 = _ignore_patterns example_frame.
Proof.
  destruct (add_then_remove example_fs "*.txt" example_frame)
    as (st2 & Hrun & _ & Hpat & _).
  - vm_compute. discriminate.
  - vm_compute. reflexivity.
  - exists st2. split; [exact Hrun | exact Hpat].
Defined.

(** ** Paths and their strings *)

Lemma is_name_spec (a : string) :
  is_name a = true →
  a ≠ EmptyString ∧ a ≠ "." ∧ PyStr.char_in "/" a = false
  ∧ PurePath.is_component a = true ∧ PurePath.is_anchor a = false.
Proof.
  unfold is_name, PurePath.is_component.
  rewrite !andb_true_iff, !negb_true_iff, !String.eqb_neq.
  intros [[H1 H2] H3]. repeat split; try done.
  by apply char_in_head.
Qed.

Lemma segments_no_slash (s : string) :
  Forall (fun seg => PyStr.char_in "/" seg = false) (PurePath.segments s).
Proof.
  induction s as [|c s IH]; cbn [PurePath.segments].
  - by constructor.
  - destruct (Ascii.eqb c "/") eqn:E; [by constructor|].
    destruct (PurePath.segments s) as [|h t].
    + constructor; [|done]. cbn. by rewrite E.
    + apply Forall_cons in IH as [Hh Ht]. constructor; [|done].
      cbn. by rewrite E, Hh.
Qed.

Lemma of_str_shape (s : string) : anchored_names (PurePath.of_str s).
Proof.
  unfold PurePath.of_str.
  exists (List.filter PurePath.is_component (PurePath.segments s)). split.
  - apply Forall_forall. intros seg [Hin Hc]%elem_of_filter_bool.
    unfold is_name. rewrite Hc. cbn [andb]. apply negb_true_iff.
    pose proof (segments_no_slash s) as H. rewrite Forall_forall in H. by apply H.
  - unfold PurePath.anchor_of.
    destruct (PyStr.startswith s "/"); [|by left].
    right. destruct (_ && _); [by exists "//" | by exists "/"].
Qed.

Lemma relative_not_absolute (names : Path) :
  relative_names names → PurePath.is_absolute names = false.
Proof.
  intros H. destruct names as [|a r]; [done|].
  unfold relative_names in H.
  apply Forall_cons in H as [Ha _].
  apply is_name_spec in Ha as (_ & _ & _ & _ & Ha). exact Ha.
Qed.

Lemma joinpath_shape (dp : Path) (s : string) :
  anchored_names dp → anchored_names (PurePath.joinpath dp s).
Proof.
  intros (nd & Hnd & Hdp). unfold PurePath.joinpath.
  destruct (of_str_shape s) as (nq & Hnq & Hq).
  destruct (PurePath.is_absolute (PurePath.of_str s)) eqn:E.
  - by exists nq.
  - assert (PurePath.of_str s = nq) as ->.
    { destruct Hq as [->|(a & Ha & Hq)]; [done|]. rewrite Hq in E. cbn in E. congruence. }
    exists (nd ++ nq)%list. split; [unfold relative_names in *; by apply Forall_app|].
    destruct Hdp as [->|(a & Ha & ->)]; [by left|right]. by exists a.
Qed.

Lemma relative_to_shape (p root rel : Path) :
  anchored_names p → PurePath.relative_to p root = Some rel → relative_names rel.
Proof.
  intros (names & Hn & Hp) Hrel. unfold relative_names in *.
  pose proof (relative_to_app _ _ _ Hrel) as Happ.
  destruct Hp as [->|(a & Ha & ->)].
  - rewrite Happ in Hn. by apply Forall_app in Hn as [_ ?].
  - destruct root as [|r root].
    + cbn in Hrel. rewrite Ha in Hrel. discriminate.
    + cbn [app] in Happ. injection Happ as _ Happ. rewrite Happ in Hn.
      by apply Forall_app in Hn as [_ ?].
Qed.

Lemma discovered_relative (walk : list WalkEntry) (root rel : Path) :
  rel ∈ discover_files walk root → relative_names rel.
Proof.
  intros (dirpath & dirnames & filenames & _ & H)%elem_of_discover_files.
  apply elem_of_discover_in in H as (name & _ & _ & Hrel).
  eapply relative_to_shape; [|done]. apply joinpath_shape, of_str_shape.
Qed.

Lemma segments_plain (a : string) :
  PyStr.char_in "/" a = false → PurePath.segments a = [a].
Proof.
  induction a as [|c a IH]; [done|]. cbn [PyStr.char_in PurePath.segments].
  intros [Hc Ha]%orb_false_iff. rewrite Hc, (IH Ha). done.
Qed.

Lemma segments_app_slash (a t : string) :
  PyStr.char_in "/" a = false →
  PurePath.segments (a ++ "/" ++ t) = a :: PurePath.segments t.
Proof.
  induction a as [|c a IH]; [done|]. cbn [PyStr.char_in append].
  intros [Hc Ha]%orb_false_iff. cbn [PurePath.segments].
  rewrite Hc. cbn [append] in IH. by rewrite (IH Ha).
Qed.

Lemma segments_join (p : Path) :
  p ≠ [] → Forall (fun seg => PyStr.char_in "/" seg = false) p →
  PurePath.segments (PyStr.join "/" p) = p.
Proof.
  induction p as [|a p IH]; [done|]. intros _ [Ha Hp]%Forall_cons.
  destruct p as [|b p].
  - by apply segments_plain.
  - rewrite join_cons2, (segments_app_slash _ _ Ha). f_equal. by apply IH.
Qed.

Lemma filter_bool_all {A : Type} (f : A → bool) (l : list A) :
  Forall (fun x => f x = true) l → List.filter f l = l.
Proof.
  induction 1 as [|x l Hx _ IH]; [done|]. cbn. by rewrite Hx, IH.
Qed.

(** The string of a path of names reads back as the path. *)
Lemma of_str_str (p : Path) :
  relative_names p → PurePath.of_str (PurePath.str p) = p.
Proof.
  intros Hp. destruct p as [|a r]; [done|]. unfold relative_names in Hp.
  pose proof Hp as [Ha Hr]%Forall_cons.
  destruct (is_name_spec a Ha) as (Hne & _ & Hs & _ & Hanc).
  unfold PurePath.str. rewrite Hanc. unfold PurePath.of_str.
  assert (PurePath.anchor_of (PyStr.join "/" (a :: r)) = []) as ->.
  { unfold PurePath.anchor_of.
    assert (PyStr.startswith (PyStr.join "/" (a :: r)) "/" = false) as ->; [|done].
    destruct a as [|c a]; [done|]. cbn [PyStr.char_in] in Hs.
    apply orb_false_iff in Hs as [Hc _].
    assert (∃ t, PyStr.join "/" (String c a :: r) = String c t) as [t ->].
    { destruct r; [by eexists|]. rewrite join_cons2. by eexists. }
    unfold PyStr.startswith.
    change (String.prefix "/" (String c t))
      with (if ascii_dec "/" c then String.prefix EmptyString t else false).
    destruct (ascii_dec "/" c) as [<-|]; [|done]. by rewrite Ascii.eqb_refl in Hc. }
  cbn [app]. rewrite segments_join.
  - apply filter_bool_all. eapply Forall_impl; [exact Hp|].
    intros x Hx. by apply is_name_spec in Hx as (_ & _ & _ & ? & _).
  - done.
  - eapply Forall_impl; [exact Hp|].
    intros x Hx. by apply is_name_spec in Hx as (_ & _ & ? & _).
Qed.

(** ** Excluding and including files *)

Lemma settled_fields (fs : FileSystem) (st : Frame) (root : Path) :
  settled fs st → root_path st = Some root →
  _all_files st = discover_files (os_walk fs root) root
  ∧ _visible_files st = visible_of st
  ∧ added_defaults fs (root_path st) (_ignore_defaults_optout st)
                   (_ignore_patterns st) = [].
Proof.
  unfold settled. intros Hset Hroot.
  destruct (rescan_frame fs st root Hroot) as (Hfiles & Hvis & _).
  pose proof (rescan_patterns fs st) as Hpat.
  rewrite Hset in Hfiles, Hvis, Hpat. split; [done|]. split; [done|].
  destruct (added_defaults _ _ _ _) as [|d l]; [done|].
  apply (f_equal length) in Hpat. rewrite length_app in Hpat. cbn in Hpat. lia.
Qed.

Lemma visible_of_ext (s1 s2 : Frame) :
  _all_files s1 = _all_files s2 →
  _ignore_patterns s1 = _ignore_patterns s2 →
  _excluded_files_set s1 = _excluded_files_set s2 →
  filter_input s1 = filter_input s2 →
  visible_of s1 = visible_of s2.
Proof.
  intros H1 H2 H3 H4. unfold visible_of, _is_ignored_path.
  by rewrite H1, H2, H3, H4.
Qed.

Lemma exclude_fold_none (vis : list Path) (sel : list nat) :
  foldl (fun acc i => s ← acc; p ← vis !! i; Some ({[p]} ∪ s))
        (None : option (gset Path)) sel = None.
Proof. by induction sel. Qed.

Lemma exclude_fold (vis : list Path) (sel : list nat) (X : gset Path) :
  Forall (fun i => i < length vis) sel →
  foldl (fun acc i => s ← acc; p ← vis !! i; Some ({[p]} ∪ s)) (Some X) sel
  = Some (X ∪ list_to_set (picked sel vis)).
Proof.
  intros H. revert X. induction H as [|i sel Hi _ IH]; intros X.
  - cbn. f_equal. by rewrite (right_id_L ∅ (∪)).
  - destruct (lookup_lt_is_Some_2 vis i Hi) as [p Hp].
    cbn [foldl].
    assert ((Some X ≫= λ s : gset Path, vis !! i ≫= λ p : Path, Some ({[p]} ∪ s))
            = Some ({[p]} ∪ X)) as -> by (cbn; by rewrite Hp).
    rewrite IH.
    unfold picked. cbn [omap list_omap]. rewrite Hp. cbn [list_to_set].
    f_equal. by rewrite (comm_L (∪) {[p]} X), (assoc_L (∪)).
Qed.

Lemma exclude_fold_out (vis : list Path) (sel : list nat) (X : gset Path) :
  Exists (fun i => (length vis ≤ i)%nat) sel →
  foldl (fun acc i => s ← acc; p ← vis !! i; Some ({[p]} ∪ s)) (Some X) sel
  = None.
Proof.
  intros H. revert X. induction H as [i sel Hi|i sel _ IH]; intros X.
  - cbn [foldl].
    assert ((Some X ≫= λ s : gset Path, vis !! i ≫= λ p : Path, Some ({[p]} ∪ s))
            = None) as -> by (cbn; by rewrite (lookup_ge_None_2 vis i Hi)).
    apply exclude_fold_none.
  - cbn [foldl].
    match goal with
    | |- foldl _ ?a sel = None => destruct a as [Y|]
    end; [apply IH | apply exclude_fold_none].
Qed.

Lemma rescan_excluded_settled (fs : FileSystem) (st : Frame) (root : Path)
      (X : gset Path) :
  settled fs st → root_path st = Some root →
  let st' := _rescan_and_update fs (with_excluded_files_set st X) in
  _excluded_files_set st' = X
  ∧ _ignore_patterns st' = _ignore_patterns st
  ∧ _visible_files st' = visible_of (with_excluded_files_set st X).
Proof.
  intros Hset Hroot st'.
  destruct (settled_fields fs st root Hset Hroot) as (Hfiles & _ & Hadd).
  destruct (rescan_frame fs (with_excluded_files_set st X) root)
    as (Hf' & Hv' & _ & Hx' & Hq'); [by destruct st|].
  pose proof (rescan_patterns fs (with_excluded_files_set st X)) as Hp'.
  fold st' in Hf', Hv', Hx', Hq', Hp'.
  assert (_ignore_patterns st' = _ignore_patterns st) as Hp.
  { rewrite Hp'. destruct st. frame_simpl. by rewrite Hadd, app_nil_r. }
  split; [by rewrite Hx'; destruct st|]. split; [done|].
  rewrite Hv'. apply visible_of_ext.
  - rewrite Hf'. by destruct st.
  - rewrite Hp. by destruct st.
  - done.
  - done.
Qed.

Lemma visible_of_excluding (st : Frame) (S : list Path) :
  visible_of (with_excluded_files_set st
                (_excluded_files_set st ∪ list_to_set S))
  = List.filter (fun p => bool_decide (p ∉ S)) (visible_of st).
Proof.
  unfold visible_of, _is_ignored_path.
  destruct st as [d o s q h i c pv r files vis ex pats opt]. frame_simpl.
  rewrite filter_bool_idemp. apply filter_ext. intros p.
  assert (bool_decide (p ∈ ex ∪ (list_to_set S : gset Path))
          = bool_decide (p ∈ ex) || bool_decide (p ∈ S)) as ->.
  { apply bool_eq_iff.
    rewrite orb_true_iff, !bool_decide_eq_true, elem_of_union, elem_of_list_to_set.
    done. }
  assert (bool_decide (p ∉ S) = negb (bool_decide (p ∈ S))) as ->.
  { apply bool_eq_iff. rewrite negb_true_iff, bool_decide_eq_true, bool_decide_eq_false.
    done. }
  destruct (_matches_patterns _ _), (bool_decide (p ∈ ex)),
    (bool_decide (p ∈ S)), (negb _ || _); done.
Qed.

(** X10.  In a settled frame with a root, [on_to_exclude] with indices of
    visible files adds the picked files to the exclusion set and takes
    them, and only them, off the visible list; the patterns stay and the
    frame is settled again.  An index beyond the visible list raises
    [IndexError]. *)
Theorem to_exclude_spec (fs : FileSystem) (sel : list nat) (st : Frame)
  (root : Path)
  (Hroot : root_path st = Some root)
  (Hset : settled fs st) :
  (Forall (fun i => i < length (_visible_files st)) sel →
   ∃ st', on_to_exclude fs sel st = Some st'
     ∧ _excluded_files_set st'
       = _excluded_files_set st ∪ list_to_set (picked sel (_visible_files st))
     ∧ _visible_files st'
       = List.filter (fun p => bool_decide (p ∉ picked sel (_visible_files st)))
                     (_visible_files st)
     ∧ _ignore_patterns st' = _ignore_patterns st
     ∧ settled fs st')
  ∧ (Exists (fun i => (length (_visible_files st) ≤ i)%nat) sel →
     on_to_exclude fs sel st = None).
Proof.
  split.
  - intros Hrange. unfold on_to_exclude.
    rewrite (exclude_fold _ _ _ Hrange). cbn [mbind option_bind].
    eexists. split; [reflexivity|].
    destruct (rescan_excluded_settled fs st root
                (_excluded_files_set st ∪ list_to_set (picked sel (_visible_files st)))
                Hset Hroot) as (Hx & Hp & Hv).
    split; [done|]. split; [|split; [done|apply rescan_twice]].
    rewrite Hv, visible_of_excluding.
    by destruct (settled_fields fs st root Hset Hroot) as (_ & -> & _).
  - intros Hout. unfold on_to_exclude. by rewrite (exclude_fold_out _ _ _ Hout).
Qed.

(** The one visible file of the example, excluded. *)
Lemma to_exclude_spec_witness :
  ∃ st', on_to_exclude example_fs [0] example_frame = Some st'
    ∧ _ignore_patterns st' = _ignore_patterns example_frame.
Proof.
  destruct (to_exclude_spec example_fs [0] example_frame ["/"; "r"]) as [Hin _].
  - reflexivity.
  - unfold settled. vm_compute. reflexivity.
  - destruct Hin as (st' & Hrun & _ & _ & Hpat & _).
    + apply Forall_cons. split; [vm_compute; lia | apply Forall_nil_2].
    + exists st'. split; [exact Hrun | exact Hpat].
Defined.

Lemma rescan_absorb (fs : FileSystem) (st : Frame) (X : gset Path) :
  _rescan_and_update fs (with_excluded_files_set (_rescan_and_update fs st) X)
  = _rescan_and_update fs (with_excluded_files_set st X).
Proof.
  destruct st as [d o s q h i c pv [root|] files vis ex pats opt]; [|done].
  unfold _rescan_and_update at 2. frame_simpl. frame_unfold.
  unfold _rescan_and_update. frame_simpl. frame_unfold.
  rewrite added_defaults_settled, app_nil_r. reflexivity.
Qed.

Lemma include_fold (X : gset Path) (items : list string) (p : Path) :
  p ∈ foldl (fun s item => s ∖ {[PurePath.of_str item]}) X items
  ↔ p ∈ X ∧ p ∉ map PurePath.of_str items.
Proof.
  revert X. induction items as [|x items IH]; intros X; cbn [foldl map].
  - split; [intros H; split; [done|apply not_elem_of_nil] | by intros [? _]].
  - rewrite IH, elem_of_difference, elem_of_singleton, not_elem_of_cons. tauto.
Qed.

Lemma elem_of_picked (sel : list nat) (l : list Path) (p : Path) :
  p ∈ picked sel l → p ∈ l.
Proof.
  unfold picked. rewrite list_elem_of_omap. intros (i & _ & Hi).
  by apply list_elem_of_lookup_2 in Hi.
Qed.

(** X11.  In a settled frame with a root, excluding visible files and then
    including them again, by the strings the list of exclusions shows for
    them, gives back the frame. *)
Theorem exclude_then_include (fs : FileSystem) (sel : list nat) (st : Frame)
  (root : Path)
  (Hroot : root_path st = Some root)
  (Hset : settled fs st)
  (Hrange : Forall (fun i => i < length (_visible_files st)) sel) :
  ∃ st', on_to_exclude fs sel st = Some st'
    ∧ on_to_include fs (map PurePath.str (picked sel (_visible_files st))) st' = st.
Proof.
  unfold on_to_exclude. rewrite (exclude_fold _ _ _ Hrange). cbn [mbind option_bind].
  eexists. split; [reflexivity|].
  set (S := picked sel (_visible_files st)).
  destruct (rescan_excluded_settled fs st root
              (_excluded_files_set st ∪ list_to_set S) Hset Hroot) as (Hx & _ & _).
  destruct (settled_fields fs st root Hset Hroot) as (Hfiles & Hvis & _).
  unfold on_to_include. rewrite Hx.
  assert (foldl (fun s item => s ∖ {[PurePath.of_str item]})
                (_excluded_files_set st ∪ list_to_set S) (map PurePath.str S)
          = _excluded_files_set st) as ->.
  { apply set_eq. intros p. rewrite include_fold, elem_of_union, elem_of_list_to_set.
    assert (map PurePath.of_str (map PurePath.str S) = S) as ->.
    { rewrite map_map. rewrite <- (map_id S) at 2. apply map_ext_in.
      intros q Hq%list_elem_of_In%elem_of_picked. apply of_str_str.
      rewrite Hvis in Hq. apply elem_of_visible_of in Hq as (Hq & _).
      rewrite Hfiles in Hq. by apply discovered_relative in Hq. }
    split; [intros [[?|?] ?]; done|].
    intros Hp. split; [by left|]. intros Hq%elem_of_picked.
    rewrite Hvis in Hq. by apply elem_of_visible_of in Hq as (_ & _ & ? & _). }
  rewrite rescan_absorb.
  assert (with_excluded_files_set
            (with_excluded_files_set st (_excluded_files_set st ∪ list_to_set S))
            (_excluded_files_set st) = st) as -> by by destruct st.
  exact Hset.
Qed.

(** The one visible file of the example, excluded and included again. *)
Lemma exclude_then_include_witness :
  ∃ st', on_to_exclude example_fs [0] example_frame = Some st'
    ∧ on_to_include example_fs
        (map PurePath.str (picked [0] (_visible_files example_frame))) st'
      = example_frame.
Proof.
  apply (exclude_then_include example_fs [0] example_frame ["/"; "r"]).
  - reflexivity.
  - unfold settled. vm_compute. reflexivity.
  - apply Forall_cons. split; [vm_compute; lia | apply Forall_nil_2].
Defined.

(** ** Restart *)

Lemma persisted_exclusions_read_back (X : gset Path) :
  (∀ p, p ∈ X → relative_names p) →
  (list_to_set
     (map PurePath.of_str (map PurePath.str (PurePath.sorted (elements X))))
   : gset Path) = X.
Proof.
  intros Hnames.
  assert (map PurePath.of_str (map PurePath.str (PurePath.sorted (elements X)))
          = PurePath.sorted (elements X)) as ->.
  { rewrite map_map. rewrite <- (map_id (PurePath.sorted _)) at 2.
    apply map_ext_in. intros p Hp%list_elem_of_In.
    apply of_str_str, Hnames. by rewrite elem_of_sorted_paths, elem_of_elements in Hp. }
  apply set_eq. intros p.
  by rewrite elem_of_list_to_set, elem_of_sorted_paths, elem_of_elements.
Qed.

(** X12.  The exclusions written to the cache are read back as they were,
    for paths of names as discovery gives them; they stay in the frame
    when the load sets no root, and are cleared when it sets one. *)
Theorem exclusions_after_restore (fs : FileSystem) (st cur : Frame)
  (Hnames : ∀ p, p ∈ _excluded_files_set st → relative_names p) :
  let st' := _restore_state fs (Some (_persist_state st)) cur in
  (list_to_set (map PurePath.of_str
                    (default [] (j_excluded_files (_persist_state st))))
   : gset Path) = _excluded_files_set st
  ∧ _excluded_files_set st'
    = match root_path st' with
      | Some _ => ∅
      | None => _excluded_files_set st
      end.
Proof.
  intros st'. cbn [_persist_state j_excluded_files default]. unfold id.
  split; [by apply persisted_exclusions_read_back|].
  destruct (restore_fields fs (_persist_state st) cur)
    as (_ & _ & _ & _ & _ & _ & _ & _ & _ & Hex).
  fold st' in Hex. rewrite Hex.
  destruct (root_path st'); [done|].
  cbn [_persist_state j_excluded_files default]. unfold id.
  by apply persisted_exclusions_read_back.
Qed.

(** A frame without directory and with one excluded file. *)
Lemma exclusions_after_restore_witness :
  _excluded_files_set
    (_restore_state example_fs
       (Some (_persist_state (with_excluded_files_set initial_frame {[ ["a.py"] ]})))
       initial_frame)
  = {[ ["a.py"] ]}.
Proof.
  pose proof (exclusions_after_restore example_fs
                (with_excluded_files_set initial_frame {[ ["a.py"] ]}) initial_frame)
    as H.
  apply H. intros p Hp. cbn in Hp. apply elem_of_singleton in Hp as ->.
  apply Forall_cons. split; [reflexivity | apply Forall_nil_2].
Defined.

Lemma refresh_ext (fs : FileSystem) (s1 s2 : Frame) :
  dir_picker s1 = dir_picker s2 →
  output_name s1 = output_name s2 →
  style_choice s1 = style_choice s2 →
  filter_input s1 = filter_input s2 →
  header_text s1 = header_text s2 →
  instructions_picker s1 = instructions_picker s2 →
  checks s1 = checks s2 →
  root_path s1 = root_path s2 →
  is_Some (root_path s1) →
  _ignore_patterns s1 = _ignore_patterns s2 →
  _ignore_defaults_optout s1 = _ignore_defaults_optout s2 →
  on_refresh fs s1 = on_refresh fs s2.
Proof.
  destruct s1 as [d1 o1 y1 q1 h1 i1 c1 pv1 r1 f1 v1 x1 p1 t1].
  destruct s2 as [d2 o2 y2 q2 h2 i2 c2 pv2 r2 f2 v2 x2 p2 t2].
  frame_simpl. intros -> -> -> -> -> -> -> -> [root ->] -> ->.
  unfold on_refresh. frame_simpl. frame_unfold. reflexivity.
Qed.

Lemma restore_is_refresh (fs : FileSystem) (st : Frame) :
  filter_input st = EmptyString →
  output_name st ≠ EmptyString →
  dir_usable fs (dir_picker st) = true →
  root_path st = Some (path_resolve fs (dir_picker st)) →
  _restore_state fs (Some (_persist_state st)) initial_frame = on_refresh fs st.
Proof.
  intros Hfilter Hout Hdir Hroot.
  unfold _restore_state.
  cbn [_persist_state j_last_dir j_output_name j_style j_header_text
       j_instruction_file_path j_flags j_ignore_patterns
       j_ignore_defaults_optout j_excluded_files default get_or].
  unfold id. unfold dir_usable in Hdir. rewrite Hdir. cbv beta iota zeta.
  frame_simpl.
  apply refresh_ext; frame_simpl.
  - done.
  - by destruct (output_name st).
  - assert (PyStr.or_else (GetStringSelection (style_choice st)) "markdown"
            = GetStringSelection (style_choice st)) as ->
      by by destruct (style_choice st).
    by rewrite find_string_selection.
  - done.
  - apply or_else_empty.
  - rewrite or_else_empty. by destruct (instructions_picker st).
  - apply checks_of_flags_of.
  - done.
  - by eexists.
  - done.
  - apply list_to_set_elements_L.
Qed.

(** X13.  Restart of a frame with an empty filter, an output name that is
    not empty, and a root resolved from a directory that still exists:
    loading into a fresh frame what [_persist_state] wrote is refreshing the
    frame; a frame that a refresh leaves as it is comes back as it was. *)
Theorem restart_round_trip (fs : FileSystem) (st : Frame)
  (Hfilter : filter_input st = EmptyString)
  (Hout : output_name st ≠ EmptyString)
  (Hdir : dir_usable fs (dir_picker st) = true)
  (Hroot : root_path st = Some (path_resolve fs (dir_picker st))) :
  _restore_state fs (Some (_persist_state st)) initial_frame = on_refresh fs st
  ∧ (on_refresh fs st = st →
     _restore_state fs (Some (_persist_state st)) initial_frame = st).
Proof.
  pose proof (restore_is_refresh fs st Hfilter Hout Hdir Hroot) as H.
  split; [exact H|]. intros Hfix. by rewrite H.
Qed.

(** The example frame: scanned, with its directory in place. *)
Lemma restart_round_trip_witness :
  _restore_state example_fs (Some (_persist_state example_frame)) initial_frame
  = example_frame.
Proof.
  apply (restart_round_trip example_fs example_frame).
  - reflexivity.
  - vm_compute. discriminate.
  - reflexivity.
  - reflexivity.
  - vm_compute. reflexivity.
Defined.

Lemma rescan_after_refresh (fs : FileSystem) (st : Frame) :
  _rescan_and_update fs (on_refresh fs st) = on_refresh fs st.
Proof.
  destruct st as [d o s q h i c pv [root|] files vis ex pats opt]; [|done].
  unfold on_refresh. frame_simpl. frame_unfold.
  unfold _rescan_and_update. frame_simpl. frame_unfold.
  rewrite added_defaults_settled, app_nil_r. reflexivity.
Qed.

(** X14.  Choosing a directory roots the frame at the resolved directory
    of the picker and clears the exclusions, but keeps the ignore patterns
    and the opt-outs of the directory before, to which the default names
    due under the new root are appended; the frame is then settled. *)
Theorem dir_changed_spec (fs : FileSystem) (st : Frame) :
  let root := path_resolve fs (dir_picker st) in
  let st' := on_dir_changed fs st in
  root_path st' = Some root
  ∧ _all_files st' = discover_files (os_walk fs root) root
  ∧ _excluded_files_set st' = ∅
  ∧ _ignore_defaults_optout st' = _ignore_defaults_optout st
  ∧ _ignore_patterns st'
    = (_ignore_patterns st
       ++ added_defaults fs (Some root) (_ignore_defaults_optout st)
                         (_ignore_patterns st))%list
  ∧ settled fs st'
  ∧ on_refresh fs st' = st'.
Proof.
  intros root st'. subst st'. unfold on_dir_changed. fold root.
  destruct (refresh_fields fs (with_root_path st (Some root)))
    as (_ & _ & _ & _ & _ & _ & Hr & Hopt & Hpat & Hex).
  rewrite Hr, Hopt, Hpat, Hex.
  split; [by destruct st|]. split; [|split; [by destruct st|]].
  - destruct st as [d o s q h i c pv r files vis ex pats opt].
    unfold on_refresh. frame_simpl. frame_unfold. reflexivity.
  - split; [by destruct st|]. split; [by destruct st|].
    split; [apply rescan_after_refresh | apply refresh_twice].
Qed.

(** X15.  Started with an argument that names a directory, the frame is the
    refreshed initial frame rooted there, whatever the cache holds; once
    written to the cache it comes back as it is at the next start without
    argument. *)
Theorem start_with_directory (fs : FileSystem) (expanduser : Path → Path)
  (prog arg : string) (rest : list string) (file : option StateJson)
  (Harg : arg ≠ EmptyString)
  (Hstr : PurePath.str (expanduser (PurePath.of_str arg)) ≠ EmptyString)
  (Hdir : path_is_dir fs (PurePath.str (expanduser (PurePath.of_str arg))) = true) :
  let dir := PurePath.str (expanduser (PurePath.of_str arg)) in
  let st1 := _init_root_from_args_or_cache fs expanduser (prog :: arg :: rest)
               file initial_frame in
  st1 = on_refresh fs
          (with_root_path
             (with_widgets initial_frame dir "repomix_output.md" markdown
                           EmptyString EmptyString initial_checks)
             (Some (path_resolve fs dir)))
  ∧ _init_root_from_args_or_cache fs expanduser [prog]
      (Some (_persist_state st1)) initial_frame = st1.
Proof.
  intros dir st1.
  assert (Hst1 : st1 = on_refresh fs
            (with_root_path
               (with_widgets initial_frame dir "repomix_output.md" markdown
                             EmptyString EmptyString initial_checks)
               (Some (path_resolve fs dir)))).
  { subst st1 dir. unfold _init_root_from_args_or_cache. cbn [lookup list_lookup].
    apply truthy_true in Harg. by rewrite Harg, Hdir. }
  split; [exact Hst1|].
  unfold _init_root_from_args_or_cache. cbn [lookup list_lookup].
  destruct (refresh_fields fs
              (with_root_path
                 (with_widgets initial_frame dir "repomix_output.md" markdown
                               EmptyString EmptyString initial_checks)
                 (Some (path_resolve fs dir))))
    as (Hd & Ho & _ & _ & _ & _ & Hr & _).
  rewrite <- Hst1 in Hd, Ho, Hr. frame_simpl.
  assert (Hq : filter_input st1 = EmptyString).
  { rewrite Hst1. unfold on_refresh. frame_simpl. frame_unfold. reflexivity. }
  rewrite restore_is_refresh.
  - rewrite Hst1. apply refresh_twice.
  - exact Hq.
  - rewrite Ho. discriminate.
  - rewrite Hd. unfold dir_usable. subst dir. rewrite Hdir.
    apply truthy_true in Hstr. by rewrite Hstr.
  - by rewrite Hr, Hd.
Qed.

(** The directory of the example as the argument. *)
Lemma start_with_directory_witness :
  _init_root_from_args_or_cache example_fs id ["repomix_wx.py"]
    (Some (_persist_state
             (_init_root_from_args_or_cache example_fs id
                ["repomix_wx.py"; "/r"] None initial_frame)))
    initial_frame
  = _init_root_from_args_or_cache example_fs id ["repomix_wx.py"; "/r"] None
      initial_frame.
Proof.
  apply (start_with_directory example_fs id "repomix_wx.py" "/r" [] None).
  - discriminate.
  - vm_compute. discriminate.
  - reflexivity.
Defined.

(** ** Style and output name *)

Lemma rescan_widgets (fs : FileSystem) (st : Frame) :
  output_name (_rescan_and_update fs st) = output_name st
  ∧ style_choice (_rescan_and_update fs st) = style_choice st
  ∧ checks (_rescan_and_update fs st) = checks st
  ∧ header_text (_rescan_and_update fs st) = header_text st
  ∧ instructions_picker (_rescan_and_update fs st) = instructions_picker st.
Proof.
  destruct st as [d o s q h i c pv [root|] files vis ex pats opt]; [|done].
  unfold _rescan_and_update. frame_simpl. frame_unfold. done.
Qed.

Lemma rstrip_app_kept (x e : string) :
  e ≠ EmptyString → PyStr.rstrip e = e → PyStr.rstrip (x ++ e) = x ++ e.
Proof.
  intros Hne He. induction x as [|c x IH]; [done|].
  cbn [append PyStr.rstrip]. rewrite IH.
  destruct (x ++ e) eqn:E; [|done].
  destruct x; [by subst | discriminate].
Qed.

Lemma lstrip_app_kept (x e : string) (c : ascii) :
  PyStr.isspace c = false →
  PyStr.lstrip (x ++ String c e) = PyStr.lstrip x ++ String c e.
Proof.
  intros Hc. induction x as [|a x IH]; cbn [append PyStr.lstrip].
  - by rewrite Hc.
  - by destruct (PyStr.isspace a).
Qed.

Lemma rstrip_idemp (s : string) : PyStr.rstrip (PyStr.rstrip s) = PyStr.rstrip s.
Proof.
  induction s as [|c s IH]; [done|]. cbn [PyStr.rstrip].
  destruct (PyStr.rstrip s) as [|a r] eqn:E.
  - destruct (PyStr.isspace c) eqn:Ec; [done|]. cbn. by rewrite Ec.
  - remember (String a r) as X eqn:HX. cbn [PyStr.rstrip]. rewrite IH. by subst.
Qed.

Lemma lstrip_head (s : string) :
  PyStr.lstrip s = EmptyString
  ∨ ∃ c r, PyStr.lstrip s = String c r ∧ PyStr.isspace c = false.
Proof.
  induction s as [|c s IH]; [by left|]. cbn [PyStr.lstrip].
  destruct (PyStr.isspace c) eqn:E; [done|]. right. by exists c, s.
Qed.

Lemma rstrip_head (c : ascii) (r : string) :
  PyStr.isspace c = false → ∃ r', PyStr.rstrip (String c r) = String c r'.
Proof.
  intros Hc. cbn [PyStr.rstrip].
  destruct (PyStr.rstrip r); [rewrite Hc|]; by eexists.
Qed.

Lemma strip_idemp (s : string) : PyStr.strip (PyStr.strip s) = PyStr.strip s.
Proof.
  unfold PyStr.strip.
  destruct (lstrip_head s) as [->|(c & r & -> & Hc)]; [done|].
  destruct (rstrip_head c r Hc) as [r' Hr]. rewrite Hr.
  cbn [PyStr.lstrip]. rewrite Hc, <- Hr. apply rstrip_idemp.
Qed.

Lemma char_in_substring (c : ascii) (n : nat) (s : string) :
  PyStr.char_in c s = false → PyStr.char_in c (String.substring 0 n s) = false.
Proof.
  revert s. induction n as [|n IH]; intros s; destruct s as [|a s]; try done.
  cbn [String.substring PyStr.char_in].
  intros [Ha Hs]%orb_false_iff. rewrite Ha. by apply IH.
Qed.

Lemma last_relative (names : Path) (part : string) :
  relative_names names → last names = Some part → is_name part = true.
Proof.
  unfold relative_names. rewrite Forall_forall. intros H Hl. apply H.
  apply last_Some in Hl as [l' ->]. apply elem_of_app. right. apply list_elem_of_here.
Qed.

Lemma name_no_slash (p : Path) :
  anchored_names p → PyStr.char_in "/" (PurePath.name p) = false.
Proof.
  intros (names & Hn & Hp). unfold PurePath.name.
  destruct (last p) as [part|] eqn:E; [|done].
  destruct (PurePath.is_anchor part) eqn:Ea; [done|].
  assert (is_name part = true) as Hpart.
  { destruct Hp as [->|(a & Ha & ->)]; [by eapply last_relative|].
    destruct names as [|b names].
    - cbn in E. injection E as ->. congruence.
    - rewrite last_cons_cons in E. by eapply last_relative. }
  by apply is_name_spec in Hpart as (_ & _ & ? & _).
Qed.

Lemma path_stem_no_slash (p : Path) :
  anchored_names p → PyStr.char_in "/" (path_stem p) = false.
Proof.
  intros Hp%name_no_slash. unfold path_stem.
  destruct (rfind "." (PurePath.name p)) as [i|]; [|done].
  destruct (_ && _); [by apply char_in_substring | done].
Qed.

Lemma ext_of_style (s : Style) :
  default ".md" (EXT_MAP !! GetStringSelection s)
  = match s with markdown => ".md" | plain => ".txt" | xml => ".xml" end.
Proof. by destruct s. Qed.

Lemma strip_stem_ext (stem : string) (s : Style) :
  let ext := match s with markdown => ".md" | plain => ".txt" | xml => ".xml" end in
  PyStr.strip (stem ++ ext) = PyStr.lstrip stem ++ ext.
Proof.
  intros ext. unfold PyStr.strip.
  assert (∃ e, ext = String "." e) as [e He] by (destruct s; by eexists).
  rewrite He, lstrip_app_kept by done. rewrite <- He.
  apply rstrip_app_kept; by destruct s.
Qed.

(** X16.  After a change of style the name that goes with [-o] is the stem
    of the old name, that is its last component without its last suffix,
    or [repomix_output] when nothing is left, stripped of leading
    whitespace and followed by the extension of the style.  The stem has
    no slash: a directory in front of the old name is dropped. *)
Theorem style_change_output (fs : FileSystem) (st : Frame) :
  let ext := match style_choice st with
             | markdown => ".md" | plain => ".txt" | xml => ".xml"
             end in
  let st' := on_style_change fs st in
  ∃ stem,
    stem ≠ EmptyString
    ∧ PyStr.char_in "/" stem = false
    ∧ styled_name (GetStringSelection (style_choice st)) (output_name st)
      = stem ++ ext
    ∧ PyStr.strip (PyStr.or_else (output_name st') "repomix_output.md")
      = PyStr.lstrip stem ++ ext
    ∧ ∃ rest, _build_command st'
              = "repomix" :: "-o" :: (PyStr.lstrip stem ++ ext) :: rest.
Proof.
  intros ext st'.
  set (current := PyStr.strip (PyStr.or_else (output_name st) "repomix_output")).
  set (stem := PyStr.or_else (path_stem (PurePath.of_str current)) "repomix_output").
  assert (Hnew : styled_name (GetStringSelection (style_choice st)) (output_name st)
                 = stem ++ ext).
  { unfold styled_name. by rewrite ext_of_style. }
  assert (Hname : PyStr.strip (PyStr.or_else (output_name st') "repomix_output.md")
                  = PyStr.lstrip stem ++ ext).
  { pose proof (strip_stem_ext stem (style_choice st)) as Hs.
    cbv zeta in Hs. fold ext in Hs. rewrite <- Hs, <- Hnew. clear Hs.
    subst st'. unfold on_style_change, _on_command_changed.
    match goal with
    | |- context [_rescan_and_update fs ?s1] =>
        destruct (rescan_widgets fs s1) as (-> & _)
    end.
    fold current.
    destruct (String.eqb (styled_name _ _) current) eqn:E; cbn [negb].
    - apply String.eqb_eq in E. rewrite E.
      destruct (output_name st) as [|c o] eqn:Eo.
      + exfalso. clear Hnew. subst stem current ext.
        destruct (style_choice st); vm_compute in E; discriminate.
      + subst current. cbn [PyStr.or_else PyStr.truthy].
        by rewrite strip_idemp.
    - destruct st as [d o s q h i c pv r files vis ex pats opt]. frame_simpl.
      rewrite Hnew.
      assert (∃ a t, stem ++ ext = String a t) as (a & t & ->); [|done].
      clear Hnew E. clearbody stem. subst ext.
      destruct stem; [destruct s|]; cbn; do 2 eexists; reflexivity. }
  exists stem. split; [|split; [|split; [done|split; [done|]]]].
  - subst stem. by destruct (path_stem _).
  - subst stem. unfold PyStr.or_else.
    destruct (PyStr.truthy _); [|done]. apply path_stem_no_slash, of_str_shape.
  - rewrite build_command_argv, Hname. unfold argv_of.
    assert (∃ a t, PyStr.lstrip stem ++ ext = String a t) as (a & t & ->).
    { subst ext. destruct (PyStr.lstrip stem); [destruct (style_choice st)|];
        cbn; do 2 eexists; reflexivity. }
    cbn [valued_option app]. by eexists.
Qed.

(** ** The order of discovery *)

(** X17.  The discovered files come in increasing order of their lists of
    parts, and sorting only rearranges what the walk yields.  This is not
    the order of the path strings: [a/b] comes before [a.b], although the
    string [a.b] is below the string [a/b]. *)
Theorem discover_files_sorted (walk : list WalkEntry) (root : Path) :
  Sorted PurePath.le (discover_files walk root)
  ∧ discover_files walk root
    ≡ₚ flat_map (fun '(dirpath, _, filenames) =>
                   discover_in root (PurePath.of_str dirpath) filenames) walk
  ∧ discover_files [("/r", ["a"], ["a.b"]); ("/r/a", [], ["b"])] ["/"; "r"]
    = [["a"; "b"]; ["a.b"]]
  ∧ String.ltb (PurePath.str ["a.b"]) (PurePath.str ["a"; "b"]) = true.
Proof.
  unfold discover_files at 1 2.
  split; [apply sorted_paths_spec|]. split; [apply sorted_paths_spec|].
  split; by vm_compute.
Qed.
